(** * Telemetry of a 6-axis robot arm: analyser and simulator

    Shallow embedding of [analyseur_telemetrie.cpp] and
    [simulateur_telemetrie.cpp].

    - C++ [float] is IEEE 754 binary32: the values are [spec_float] and the
      operations are those of [SpecFloat] at precision 24 and maximal
      exponent 128, rounding to nearest even.
    - [uint8_t], [uint16_t], [int16_t] and [size_t] values are integers of
      [Z]; the conversions that wrap are written out.
    - the random engine [std::mt19937] and the distributions of [<random>]
      are parameters of the simulator model. *)

From Stdlib Require Import String Ascii ZArith List Bool Lia.
From Stdlib Require Import Floats.SpecFloat.
Import ListNotations.

Local Open Scope Z_scope.

(* ------------------------------------------------------------------------ *)
(** * binary32 arithmetic *)
(* ------------------------------------------------------------------------ *)

Module F32.

Definition prec : Z := 24.
Definition emax : Z := 128.

Definition float := spec_float.

(** Conversion of an integer to [float] (exact below 2^24, rounded above). *)
Definition of_Z (n : Z) : float := binary_normalize prec emax n 0 false.

Definition add : float -> float -> float := SFadd prec emax.
Definition sub : float -> float -> float := SFsub prec emax.
Definition mul : float -> float -> float := SFmul prec emax.
Definition div : float -> float -> float := SFdiv prec emax.
Definition opp : float -> float := SFopp.
Definition abs : float -> float := SFabs.

(** [ltb x y] is the C++ comparison [x < y]; [gtb x y] is [x > y].  A
    comparison with a NaN operand is false. *)
Definition ltb : float -> float -> bool := SFltb.
Definition leb : float -> float -> bool := SFleb.
Definition gtb (x y : float) : bool := SFltb y x.

(** The decimal literal [n / d] with suffix [f]: the binary32 number
    nearest to the quotient of two small integers. *)
Definition lit (n d : Z) : float := div (of_Z n) (of_Z d).

Definition is_nan (x : float) : bool :=
  match x with S754_nan => true | _ => false end.

(** Integer part, rounded toward zero, of a finite number. *)
Definition trunc (x : float) : option Z :=
  match x with
  | S754_zero _ => Some 0
  | S754_finite s m e =>
      let v := match e with
               | Zneg p => Z.shiftr (Zpos m) (Zpos p)
               | _ => Z.shiftl (Zpos m) e
               end in
      Some (if s then - v else v)
  | _ => None
  end.

End F32.

(* ------------------------------------------------------------------------ *)
(** * Fixed-size arrays and logged memory reads *)
(* ------------------------------------------------------------------------ *)

(** [tableau A n] is the C array [A x[n]]: exactly [n] elements. *)
Fixpoint tableau (A : Type) (n : nat) : Type :=
  match n with
  | O => unit
  | S k => (A * tableau A k)%type
  end.

Fixpoint tableau_liste {A : Type} {n : nat} : tableau A n -> list A :=
  match n with
  | O => fun _ => []
  | S k => fun t => fst t :: tableau_liste (snd t)
  end.

Fixpoint tableau_rempli {A : Type} (n : nat) (a : A) : tableau A n :=
  match n with
  | O => tt
  | S k => (a, tableau_rempli k a)
  end.

(** A computation that reads bytes through a pointer: its value, and the
    indices (relative to the pointer) it read, in order. *)
Module Lecture.

Definition t (A : Type) : Type := (A * list Z)%type.

Definition ret {A : Type} (a : A) : t A := (a, []).

Definition bind {A B : Type} (m : t A) (k : A -> t B) : t B :=
  let (a, l1) := m in
  let (b, l2) := k a in
  (b, l1 ++ l2).

(** [lire mem i] is the expression [buffer[i]]. *)
Definition lire (mem : Z -> Z) (i : Z) : t Z := (mem i, [i]).

Definition valeur {A : Type} (m : t A) : A := fst m.
Definition indices {A : Type} (m : t A) : list Z := snd m.

End Lecture.

Notation "x <- m ;; k" := (Lecture.bind m (fun x => k))
  (at level 61, m at next level, right associativity).

(** The memory seen through a pointer to a buffer that holds [octets]:
    index [i] below the size is the buffer's byte, any other index is
    whatever lies around the buffer, [autour i]. *)
Definition memoire (octets : list Z) (autour : Z -> Z) (i : Z) : Z :=
  if (0 <=? i) && (i <? Z.of_nat (length octets))
  then nth (Z.to_nat i) octets 0
  else autour i.

(** Items inserted into an output stream with [<<]. *)
Inductive morceau :=
| Texte (s : string)
| Entier (n : Z)
| Flottant (f : F32.float).

Definition nl : string := String (ascii_of_nat 10) EmptyString.

(* ------------------------------------------------------------------------ *)
(** * The analyser, [analyseur_telemetrie.cpp] *)
(* ------------------------------------------------------------------------ *)

Module Analyseur.

(** ** Protocol constants *)

Definition SYNC_H : Z := 0xAA.
Definition SYNC_L : Z := 0x55.
Definition NB_AXES : nat := 6.
Definition TAILLE_AXE : Z := 6.
Definition TAILLE_ENTETE : Z := 3.
Definition TAILLE_TRAME : Z := TAILLE_ENTETE + Z.of_nat NB_AXES * TAILLE_AXE.

(** ** Data structures *)

Record DonneesAxe := {
  position : Z;   (* int16_t, hundredths of a degree *)
  vitesse : Z;    (* int16_t, tenths of a degree per second *)
  courant : Z     (* uint16_t, milliamperes *)
}.

(** [struct Trame] declares two arrays of [NB_AXES] axis samples. *)
Record Trame := {
  sync1 : Z;
  sync2 : Z;
  sequence : Z;
  axe1 : tableau DonneesAxe NB_AXES;
  axe2 : tableau DonneesAxe NB_AXES
}.

Record Statistiques := {
  octets_lus : Z;
  trames_valides : Z;
  trames_alerte : Z;
  sequence_min : Z;
  sequence_max : Z;
  octets_bruit : Z
}.

(** The default member initialisers of [Statistiques]. *)
Definition Statistiques_init : Statistiques :=
  {| octets_lus := 0; trames_valides := 0; trames_alerte := 0;
     sequence_min := 255; sequence_max := 0; octets_bruit := 0 |}.

(** ** Conversions *)

Definition position_en_degres (brut : Z) : F32.float :=
  F32.div (F32.of_Z brut) (F32.of_Z 100).

Definition vitesse_en_deg_s (brut : Z) : F32.float :=
  F32.div (F32.of_Z brut) (F32.of_Z 10).

Definition courant_en_amperes (brut : Z) : F32.float :=
  F32.div (F32.of_Z brut) (F32.of_Z 1000).

(** ** Validity of a frame

    [sizeof(trame)] is the size of the pointer [const Trame*], a property
    of the platform (8 on LP64, 4 on ILP32), passed as [sizeof_ptr]. *)
Definition trame_valide (sizeof_ptr : Z) (trame : Trame) : bool :=
  if (sync1 trame =? 0xAA) && (sync2 trame =? 0x55) && (sizeof_ptr =? 39)
  then true
  else false.

(** ** Current alert

    [axe.courant > seuil]: the [uint16_t] member is converted to [float]
    and compared with the threshold. *)
Definition est_en_alerte (axe : DonneesAxe) (seuil : F32.float) : bool :=
  if F32.gtb (F32.of_Z (courant axe)) seuil then true else false.

(** ** Search of the synchronisation bytes

    [boucle_sync mem reste i] is the [for] loop at index [i] with
    [reste] indices left below [taille].  The test
    [buffer[i] == SYNC_H && buffer[i+1] == SYNC_L] reads [buffer[i+1]]
    only when the first comparison holds.  The counter is an [int] and
    the sizes are [size_t]: the model is that of buffers of at most
    [INT_MAX] bytes, where no conversion wraps. *)
Fixpoint boucle_sync (mem : Z -> Z) (reste : nat) (i : Z) : Lecture.t Z :=
  match reste with
  | O => Lecture.ret (-1)
  | S reste' =>
      b0 <- Lecture.lire mem i ;;
      if b0 =? SYNC_H then
        b1 <- Lecture.lire mem (i + 1) ;;
        if b1 =? SYNC_L then Lecture.ret i
        else boucle_sync mem reste' (i + 1)
      else boucle_sync mem reste' (i + 1)
  end.

Definition trouver_sync (mem : Z -> Z) (taille debut : Z) : Lecture.t Z :=
  boucle_sync mem (Z.to_nat (taille - debut)) debut.

(** ** Decoding

    The body of [decoder_trame] holds no statement: [trame] is left as
    it was, nothing is read from [buffer] and no value is returned
    ([None]: the [bool] the caller receives is indeterminate). *)
Definition decoder_trame (mem : Z -> Z) (trame : Trame)
  : Trame * option bool :=
  (trame, None).

(** ** Analysis of a frame: the body is [return false]. *)
Definition analyser_trame (trame : Trame) (stats : Statistiques)
    (seuil : F32.float) : bool * Statistiques :=
  (false, stats).

(** ** Report *)

Fixpoint rapport_axes (n : nat) (i : Z) : list morceau :=
  match n with
  | O => []
  | S k =>
      [Texte "  Axe "; Entier (i + 1); Texte ": "; Texte nl]
      ++ rapport_axes k (i + 1)
  end.

Definition ecrire_rapport_trame (trame : Trame) (seuil : F32.float)
  : list morceau :=
  rapport_axes NB_AXES 0 ++ [Texte nl].

Definition barre : string := "========================================".

Definition ecrire_statistiques (stats : Statistiques) : list morceau :=
  [Texte (barre ++ nl)%string;
   Texte ("STATISTIQUES" ++ nl)%string;
   Texte (barre ++ nl)%string;
   Texte "Octets lus          : "; Entier (octets_lus stats); Texte nl;
   Texte "Octets de bruit     : "; Entier (octets_bruit stats); Texte nl;
   Texte "Trames valides      : "; Entier (trames_valides stats); Texte nl;
   Texte "Trames avec alerte  : "; Entier (trames_alerte stats); Texte nl]
  ++ (if trames_valides stats >? 0 then
        [Texte "Séquence min        : "; Entier (sequence_min stats); Texte nl;
         Texte "Séquence max        : "; Entier (sequence_max stats); Texte nl]
      else [])
  ++ [Texte (barre ++ nl)%string].

(** The threshold of [main] when no third argument is given, [5.0f]. *)
Definition seuil_courant_defaut : F32.float := F32.of_Z 5.

(** ** Main program, from the bytes read by [lire_donnees] and the
    threshold parsed from the third argument, when there is one

    [None] is the exit with status 1 on an empty input; the exits of
    the analysis of the arguments and of the opening of the report file
    are those of [main_argv], further down, which runs this part in
    their midst.  Between the header and the statistics the source has
    no statement: the processing loop is absent.  The unfinished statement
    [std::cout << buffer <<] that precedes the reading of the data is
    not a statement of C++ and has no counterpart here. *)
Definition main (buffer : list Z) (argv3 : option F32.float)
  : option (Statistiques * list morceau) :=
  let seuil_courant :=
    match argv3 with
    | Some seuil => seuil
    | None => seuil_courant_defaut
    end in
  match buffer with
  | [] => None
  | _ =>
      let stats :=
        {| octets_lus := Z.of_nat (length buffer);
           trames_valides := trames_valides Statistiques_init;
           trames_alerte := trames_alerte Statistiques_init;
           sequence_min := sequence_min Statistiques_init;
           sequence_max := sequence_max Statistiques_init;
           octets_bruit := octets_bruit Statistiques_init |} in
      let entete :=
        [Texte "Analyse de télémétrie - Seuil d'alerte: ";
         Flottant seuil_courant; Texte (" A" ++ nl)%string;
         Texte (barre ++ nl ++ nl)%string] in
      Some (stats, entete ++ ecrire_statistiques stats)
  end.

(** ** Reading of the data

    [std::cin] as the bytes still to come and its end-of-file flag, which
    [get] raises when it is called with nothing left; [get] then returns
    [EOF], -1. *)
Record Flux := {
  a_lire : list Z;
  eofbit : bool
}.

Definition get (cin : Flux) : Z * Flux :=
  match a_lire cin with
  | c :: reste => (c, {| a_lire := reste; eofbit := eofbit cin |})
  | [] => (-1, {| a_lire := []; eofbit := true |})
  end.

(** The loop [while (!std::cin.eof())], [tours] turns at most: each turn
    pushes [static_cast<uint8_t>(c)] for the [c] that [get] returned. *)
Fixpoint boucle_lecture (tours : nat) (cin : Flux) (buffer : list Z)
  : list Z * Flux :=
  match tours with
  | O => (buffer, cin)
  | S k =>
      if eofbit cin then (buffer, cin)
      else
        let (c, cin) := get cin in
        boucle_lecture k cin (buffer ++ [c mod 256])
  end.

(** [lire_donnees source]: the standard input for ["-"]; otherwise the
    file [donnees.bin], whatever [source] names, given here by its content
    when it can be opened ([taille], declared in the block that measures
    the file, is taken as that size where the buffer is resized).  The
    loop on [cin] is given two turns more than there are bytes to read,
    enough for it to end by its own test. *)
Definition lire_donnees (source : string) (cin : Flux)
    (donnees_bin : option (list Z)) : list Z * Flux :=
  if String.eqb source "-" then
    boucle_lecture (S (S (length (a_lire cin)))) cin []
  else
    match donnees_bin with
    | None => ([], cin)
    | Some contenu => (contenu, cin)
    end.

(** ** The program from its command line

    How a run of [main] ends: the four exits with status 1, in the order
    of the source, or the end with status 0, after the report was
    written on the standard output ([None]) or in the file named by the
    second argument. *)
Inductive Issue :=
| Aide
| SeuilInvalide
| AucuneDonnee
| SortieImpossible
| Termine (vers : option string) (stats : Statistiques)
    (rapport : list morceau).

Definition code_retour (issue : Issue) : Z :=
  match issue with
  | Termine _ _ _ => 0
  | _ => 1
  end.

Section Programme.

(** [std::stof] on the third argument, [None] when it throws, and whether
    the report file can be created: both belong to the platform. *)
Variable stof : string -> option F32.float.
Variable creable : string -> bool.


End Programme.

End Analyseur.

(* ------------------------------------------------------------------------ *)
(** * The simulator, [simulateur_telemetrie.cpp] *)
(* ------------------------------------------------------------------------ *)

Module Simulateur.

(** ** Protocol constants and physical limits *)

Definition SYNC_H : Z := 0xAA.
Definition SYNC_L : Z := 0x55.
Definition NB_AXES : nat := 6.
Definition TAILLE_TRAME : Z := 39.

Definition POSITION_MIN_DEG : list F32.float :=
  map F32.of_Z [-170; -90; -80; -190; -120; -360].
Definition POSITION_MAX_DEG : list F32.float :=
  map F32.of_Z [170; 110; 280; 190; 120; 360].
Definition VITESSE_MAX_DEG_S : list F32.float :=
  map F32.of_Z [250; 250; 250; 430; 430; 630].
Definition COURANT_NOMINAL_A : list F32.float :=
  [F32.of_Z 8; F32.of_Z 6; F32.of_Z 4; F32.of_Z 2; F32.of_Z 2; F32.lit 3 2].

(** [table[axe]] for a constant table; the callers pass [axe < NB_AXES]. *)
Definition case_de (table : list F32.float) (axe : nat) : F32.float :=
  nth axe table S754_nan.

Definition zero : F32.float := S754_zero false.

(** ** Conversions from [float] to 16-bit integers

    [static_cast] truncates toward zero.  C++ leaves the conversion
    undefined when the truncated value does not fit the target type; the
    model takes what x86-64 does there: a conversion to a 32-bit integer
    (giving [-2^31] out of range and on NaN) of which the low 16 bits are
    kept. *)
Definition cvttss2si (x : F32.float) : Z :=
  match F32.trunc x with
  | Some v => if (- 2 ^ 31 <=? v) && (v <? 2 ^ 31) then v else - 2 ^ 31
  | None => - 2 ^ 31
  end.

Definition uint16_of_float (x : F32.float) : Z := cvttss2si x mod 2 ^ 16.

Definition int16_of_float (x : F32.float) : Z :=
  (cvttss2si x + 2 ^ 15) mod 2 ^ 16 - 2 ^ 15.

(** [static_cast<uint16_t>] of an [int16_t]. *)
Definition uint16_of_int16 (v : Z) : Z := v mod 2 ^ 16.

(** ** State *)

Record EtatAxe := {
  position_deg : F32.float;
  vitesse_deg_s : F32.float;
  position_cible : F32.float;
  courant_base_a : F32.float
}.

(** [axes[axe]] and the assignment to it, for [axe < NB_AXES]. *)
Definition axe_de (axes : list EtatAxe) (axe : nat) : EtatAxe :=
  nth axe axes
    {| position_deg := S754_nan; vitesse_deg_s := S754_nan;
       position_cible := S754_nan; courant_base_a := S754_nan |}.

Fixpoint axe_ecrit (axes : list EtatAxe) (axe : nat) (a : EtatAxe)
  : list EtatAxe :=
  match axes, axe with
  | [], _ => []
  | _ :: reste, O => a :: reste
  | b :: reste, S k => b :: axe_ecrit reste k a
  end.

Section Generateur.

(** The state of the random engine and the three distributions drawn
    from it; each draw returns the value and the engine's next state. *)
Variable Rng : Type.
Variable uniform_real : F32.float -> F32.float -> Rng -> F32.float * Rng.
Variable uniform_int : Z -> Z -> Rng -> Z * Rng.
Variable normal : F32.float -> F32.float -> Rng -> F32.float * Rng.

Record Simulateur := {
  axes : list EtatAxe;      (* EtatAxe axes[NB_AXES] *)
  sequence : Z;             (* uint8_t *)
  rng : Rng;
  dt : F32.float;
  prob_bruit : F32.float;
  prob_alerte : F32.float
}.

Definition avec_axes (sim : Simulateur) (l : list EtatAxe) : Simulateur :=
  {| axes := l; sequence := sequence sim; rng := rng sim; dt := dt sim;
     prob_bruit := prob_bruit sim; prob_alerte := prob_alerte sim |}.

Definition avec_rng (sim : Simulateur) (g : Rng) : Simulateur :=
  {| axes := axes sim; sequence := sequence sim; rng := g; dt := dt sim;
     prob_bruit := prob_bruit sim; prob_alerte := prob_alerte sim |}.

Definition avec_sequence (sim : Simulateur) (s : Z) : Simulateur :=
  {| axes := axes sim; sequence := s; rng := rng sim; dt := dt sim;
     prob_bruit := prob_bruit sim; prob_alerte := prob_alerte sim |}.

(** The constructor, from the seed given by [std::random_device]. *)
Definition Simulateur_init (freq bruit alerte : F32.float) (graine : Rng)
  : Simulateur :=
  {| axes :=
       map (fun nominal =>
              {| position_deg := zero; vitesse_deg_s := zero;
                 position_cible := zero;
                 courant_base_a := F32.mul nominal (F32.lit 1 10) |})
           COURANT_NOMINAL_A;
     sequence := 0;
     rng := graine;
     dt := F32.div (F32.of_Z 1) freq;
     prob_bruit := bruit;
     prob_alerte := alerte |}.

(** ** Motion model *)

Definition nouvelle_cible (sim : Simulateur) (axe : nat) : Simulateur :=
  let (x, g) :=
    uniform_real
      (F32.mul (case_de POSITION_MIN_DEG axe) (F32.lit 8 10))
      (F32.mul (case_de POSITION_MAX_DEG axe) (F32.lit 8 10))
      (rng sim) in
  let a := axe_de (axes sim) axe in
  avec_rng
    (avec_axes sim
       (axe_ecrit (axes sim) axe
          {| position_deg := position_deg a;
             vitesse_deg_s := vitesse_deg_s a;
             position_cible := x;
             courant_base_a := courant_base_a a |}))
    g.

Definition simuler_axe (sim : Simulateur) (axe : nat) : Simulateur :=
  let a := axe_de (axes sim) axe in
  let erreur := F32.sub (position_cible a) (position_deg a) in
  let '(sim, erreur) :=
    if F32.ltb (F32.abs erreur) (F32.of_Z 1) then
      let (x, g) := uniform_real zero (F32.of_Z 1) (rng sim) in
      let sim := avec_rng sim g in
      if F32.ltb x (F32.lit 2 100) then
        let sim := nouvelle_cible sim axe in
        let a := axe_de (axes sim) axe in
        (sim, F32.sub (position_cible a) (position_deg a))
      else (sim, erreur)
    else (sim, erreur) in
  let a := axe_de (axes sim) axe in
  let vitesse_desiree := F32.mul erreur (F32.of_Z 2) in
  let v_max := case_de VITESSE_MAX_DEG_S axe in
  let vitesse_desiree :=
    if F32.gtb vitesse_desiree v_max then v_max else vitesse_desiree in
  let vitesse_desiree :=
    if F32.ltb vitesse_desiree (F32.opp v_max) then F32.opp v_max
    else vitesse_desiree in
  let acc_max := F32.mul v_max (F32.of_Z 2) in
  let delta_v := F32.sub vitesse_desiree (vitesse_deg_s a) in
  let delta_v_max := F32.mul acc_max (dt sim) in
  let delta_v :=
    if F32.gtb delta_v delta_v_max then delta_v_max else delta_v in
  let delta_v :=
    if F32.ltb delta_v (F32.opp delta_v_max) then F32.opp delta_v_max
    else delta_v in
  let v := F32.add (vitesse_deg_s a) delta_v in
  let p := F32.add (position_deg a) (F32.mul v (dt sim)) in
  let '(p, v) :=
    if F32.ltb p (case_de POSITION_MIN_DEG axe)
    then (case_de POSITION_MIN_DEG axe, zero) else (p, v) in
  let '(p, v) :=
    if F32.gtb p (case_de POSITION_MAX_DEG axe)
    then (case_de POSITION_MAX_DEG axe, zero) else (p, v) in
  let ratio_vitesse := F32.div (F32.abs v) (case_de VITESSE_MAX_DEG_S axe) in
  let c :=
    F32.mul (case_de COURANT_NOMINAL_A axe)
      (F32.add (F32.lit 1 10) (F32.mul (F32.lit 9 10) ratio_vitesse)) in
  let (b, g) := normal zero (F32.mul c (F32.lit 5 100)) (rng sim) in
  let c := F32.add c b in
  let c := if F32.ltb c zero then zero else c in
  avec_rng
    (avec_axes sim
       (axe_ecrit (axes sim) axe
          {| position_deg := p; vitesse_deg_s := v;
             position_cible := position_cible a;
             courant_base_a := c |}))
    g.

(** ** Frame generation *)

Definition ecrire_uint16_le (valeur : Z) : list Z :=
  [Z.land valeur 0xFF; Z.land (Z.shiftr valeur 8) 0xFF].

(** The loop over the axes, from axis [i], [n] axes left: the
    simulator after the loop and the bytes written through [ptr]. *)
Fixpoint boucle_axes (sim : Simulateur) (axe_alerte courant_alerte : Z)
    (n i : nat) : Simulateur * list Z :=
  match n with
  | O => (sim, [])
  | S k =>
      let sim := simuler_axe sim i in
      let a := axe_de (axes sim) i in
      let position_brut :=
        int16_of_float (F32.mul (position_deg a) (F32.of_Z 100)) in
      let vitesse_brut :=
        int16_of_float (F32.mul (vitesse_deg_s a) (F32.of_Z 10)) in
      let courant_brut :=
        uint16_of_float (F32.mul (courant_base_a a) (F32.of_Z 1000)) in
      let courant_brut :=
        if Z.of_nat i =? axe_alerte then courant_alerte else courant_brut in
      let octets :=
        ecrire_uint16_le (uint16_of_int16 position_brut)
        ++ ecrire_uint16_le (uint16_of_int16 vitesse_brut)
        ++ ecrire_uint16_le courant_brut in
      let (sim, suite) :=
        boucle_axes sim axe_alerte courant_alerte k (S i) in
      (sim, octets ++ suite)
  end.

(** [generer_trame sim] returns the simulator after the call and the
    39 bytes written to [buffer], in address order. *)
Definition generer_trame (sim : Simulateur) : Simulateur * list Z :=
  let entete := [SYNC_H; SYNC_L; sequence sim] in
  let sim := avec_sequence sim ((sequence sim + 1) mod 256) in
  let (x, g) := uniform_real zero (F32.of_Z 1) (rng sim) in
  let sim := avec_rng sim g in
  let '(sim, axe_alerte, courant_alerte) :=
    if F32.ltb x (prob_alerte sim) then
      let (axe, g) := uniform_int 0 (Z.of_nat NB_AXES - 1) (rng sim) in
      let (c, g) := uniform_real (F32.of_Z 5500) (F32.of_Z 8000) g in
      (avec_rng sim g, axe, uint16_of_float c)
    else (sim, -1, 0) in
  let (sim, octets) :=
    boucle_axes sim axe_alerte courant_alerte NB_AXES 0 in
  (sim, entete ++ octets).

(** ** Noise *)

Fixpoint boucle_bruit (sim : Simulateur) (n : nat) : Simulateur * list Z :=
  match n with
  | O => (sim, [])
  | S k =>
      let (tire, g) := uniform_int 0 255 (rng sim) in
      let sim := avec_rng sim g in
      let octet := tire mod 256 in
      let octet :=
        if (octet =? SYNC_H) || (octet =? SYNC_L) then 0x00 else octet in
      let (sim, suite) := boucle_bruit sim k in
      (sim, octet :: suite)
  end.

(** [generer_bruit sim nb_octets]: the simulator after the call and the
    bytes written to the standard output. *)
Definition generer_bruit (sim : Simulateur) (nb_octets : Z)
  : Simulateur * list Z :=
  boucle_bruit sim (Z.to_nat nb_octets).

(** ** Main loop

    One turn of the [while] loop of [main]: noise now and then, then a
    frame.  The waiting of the real-time mode writes nothing. *)
Definition tour_principal (sim : Simulateur) : Simulateur * list Z :=
  let (x, g) := uniform_real zero (F32.of_Z 1) (rng sim) in
  let sim := avec_rng sim g in
  let (sim, bruit) :=
    if F32.ltb x (prob_bruit sim) then
      let (nb, g) := uniform_int 1 10 (rng sim) in
      generer_bruit (avec_rng sim g) nb
    else (sim, []) in
  let (sim, trame) := generer_trame sim in
  (sim, bruit ++ trame).

Fixpoint boucle_principale (sim : Simulateur) (tours : nat)
  : Simulateur * list Z :=
  match tours with
  | O => (sim, [])
  | S k =>
      let (sim, octets) := tour_principal sim in
      let (sim, suite) := boucle_principale sim k in
      (sim, octets ++ suite)
  end.

(** [main] from its parsed options: [None] is the exit with status 1 on
    a frequency that is zero or negative, otherwise the bytes written.
    With [nb_trames] at 0 the loop never ends: the bytes are then those of
    the first [horizon] turns. *)
Definition main (nb_trames : Z) (frequence prob_bruit prob_alerte : F32.float)
    (graine : Rng) (horizon : nat) : option (list Z) :=
  if F32.leb frequence zero then None
  else
    let sim := Simulateur_init frequence prob_bruit prob_alerte graine in
    let tours := if nb_trames =? 0 then horizon else Z.to_nat nb_trames in
    Some (snd (boucle_principale sim tours)).

End Generateur.

End Simulateur.

(* ------------------------------------------------------------------------ *)
(** * Predicates and inputs of the statements *)
(* ------------------------------------------------------------------------ *)

Module Essais.
Import Analyseur.

(** The largest value of [int], the type of the counter and of the
    result of [trouver_sync]: up to that size no conversion between the
    [size_t] arguments and the counter wraps. *)
Definition INT_MAX : Z := 2 ^ 31 - 1.

(** [paire mem j]: a synchronisation marker starts at index [j]. *)
Definition paire (mem : Z -> Z) (j : Z) : Prop :=
  mem j = SYNC_H /\ mem (j + 1) = SYNC_L.

(** An axis sample that draws [c] milliamperes. *)
Definition axe_courant (c : Z) : DonneesAxe :=
  {| position := 0; vitesse := 0; courant := c |}.

(** A frame value with correct synchronisation bytes and sequence [s]. *)
Definition trame_sequence (s : Z) : Trame :=
  {| sync1 := 0xAA; sync2 := 0x55; sequence := s;
     axe1 := tableau_rempli NB_AXES (axe_courant 0);
     axe2 := tableau_rempli NB_AXES (axe_courant 0) |}.

(** The axis samples a [Trame] value holds, member after member. *)
Definition echantillons (trame : Trame) : list DonneesAxe :=
  tableau_liste (axe1 trame) ++ tableau_liste (axe2 trame).

(** The numbers a report prints, in order. *)
Fixpoint entiers (sortie : list morceau) : list Z :=
  match sortie with
  | [] => []
  | Entier n :: reste => n :: entiers reste
  | _ :: reste => entiers reste
  end.


(** [tous_depuis P v n]: the check [P] holds on the [n] integers from
    [v] on. *)
Fixpoint tous_depuis (P : Z -> bool) (v : Z) (n : nat) : bool :=
  match n with
  | O => true
  | S k => P v && tous_depuis P (v + 1) k
  end.

(** The zero-initialised frame value, [Trame trame{}]. *)
Definition trame_nulle : Trame :=
  {| sync1 := 0; sync2 := 0; sequence := 0;
     axe1 := tableau_rempli NB_AXES (axe_courant 0);
     axe2 := tableau_rempli NB_AXES (axe_courant 0) |}.

(** A well-formed wire frame: marker, sequence [s], six axis blocks of
    zero bytes. *)
Definition trame_octets (s : Z) : list Z :=
  [0xAA; 0x55; s] ++ repeat 0 36.

(** The wire frame of sequence 7 without its last byte: 38 bytes. *)
Definition trame_tronquee : list Z := [0xAA; 0x55; 7] ++ repeat 0 35.

(** Sequence numbers of a contiguous run across the wrap of the counter. *)
Definition sequences_tour : list Z := [250; 251; 252; 253; 254; 255; 0; 1; 2].

(** [analyser_trame] applied to the frames of sequence numbers [seqs] in
    order: the answers and the statistics at the end. *)
Fixpoint analyser_suite (seqs : list Z) (stats : Statistiques)
    (seuil : F32.float) : list bool * Statistiques :=
  match seqs with
  | [] => ([], stats)
  | s :: reste =>
      let (alerte, stats) := analyser_trame (trame_sequence s) stats seuil in
      let (alertes, stats) := analyser_suite reste stats seuil in
      (alerte :: alertes, stats)
  end.

End Essais.

Module EssaisSimulateur.
Import Simulateur.

(** A scripted random engine: the values the next draws return, reals and
    integers apart.  A draw on an exhausted script returns the lower bound
    of its distribution (the mean, for the normal distribution). *)
Record Script := {
  reels : list F32.float;
  entiers_tires : list Z
}.

Definition tirer_reel (a b : F32.float) (g : Script) : F32.float * Script :=
  match reels g with
  | x :: r => (x, {| reels := r; entiers_tires := entiers_tires g |})
  | [] => (a, g)
  end.

Definition tirer_entier (a b : Z) (g : Script) : Z * Script :=
  match entiers_tires g with
  | n :: r => (n, {| reels := reels g; entiers_tires := r |})
  | [] => (a, g)
  end.

Definition tirer_normal (moyenne ecart : F32.float) (g : Script)
  : F32.float * Script :=
  match reels g with
  | x :: r => (x, {| reels := r; entiers_tires := entiers_tires g |})
  | [] => (moyenne, g)
  end.

Definition simuler_axe_script := simuler_axe Script tirer_reel tirer_normal.
Definition generer_trame_script :=
  generer_trame Script tirer_reel tirer_entier tirer_normal.

Definition demi : F32.float := F32.lit 1 2.

(** The simulator as [main] builds it with the default probabilities, at
    frequency [freq], with the draws of [script] ahead. *)
Definition simulateur_defaut (freq : F32.float) (script : Script)
  : Simulateur Script :=
  Simulateur_init Script freq (F32.lit 5 100) (F32.lit 2 100) script.

(** Draws of one call of [generer_trame] on axes at rest: no alert (0.5 is
    not below the alert probability), and for each axis no new target (0.5
    is not below 0.02) and a current noise of zero. *)
Definition tirages_repos : list F32.float :=
  demi :: concat (repeat [demi; zero] 6).

(** The simulator at 100 Hz, sequence counter at 5, two frames of draws
    ahead. *)
Definition simulateur_seq5 : Simulateur Script :=
  avec_sequence Script
    (simulateur_defaut (F32.of_Z 100)
       {| reels := tirages_repos ++ tirages_repos; entiers_tires := [] |})
    5.

(** The target -3.85988616943359375 degrees, [-16189536 * 2^-22]. *)
Definition cible_fine : F32.float := S754_finite true 16189536 (-22).

(** Draws of two ticks of axis 3 (index 2) at 1.9 Hz: each tick draws a
    chance below 0.02, a new target and a current noise of zero; the
    targets are [cible_fine] and then 200 degrees. *)
Definition simulateur_lent : Simulateur Script :=
  simulateur_defaut (F32.lit 19 10)
    {| reels := [zero; cible_fine; zero; zero; F32.of_Z 200; zero];
       entiers_tires := [] |}.

(** ** The uniform real distribution of the platform

    [std::uniform_real_distribution<float>(a, b)] as libstdc++ computes
    it: the canonical draw [u] of the engine, a [float] of [0, 1), times
    [b - a], plus [a], each operation rounded to [float].  The sum can
    round to [b]. *)
Definition uniform_real_de (a b u : F32.float) : F32.float :=
  F32.add (F32.mul u (F32.sub b a)) a.

Definition uniform_real_canonique {Rng : Type}
    (canonique : Rng -> F32.float * Rng) (a b : F32.float) (g : Rng)
  : F32.float * Rng :=
  let (u, g) := canonique g in
  (uniform_real_de a b u, g).

(** What [std::generate_canonical<float, 24>] returns: a [float], not
    below 0 and below 1. *)
Definition unite (u : F32.float) : bool :=
  valid_binary F32.prec F32.emax u
  && F32.leb zero u && F32.ltb u (F32.of_Z 1).

(** [std::generate_canonical<float, 24>] of libstdc++ on an engine of 32
    bits, [std::mt19937], whose next word is [mot]: the word converted
    to [float], added to a sum that starts at 0, divided by 2^32; a
    quotient that is not below 1 is replaced by the [float] next below
    1. *)
Definition generate_canonical (mot : Z) : F32.float :=
  let somme := F32.add zero (F32.mul (F32.of_Z mot) (F32.of_Z 1)) in
  let ret := F32.div somme (F32.of_Z (2 ^ 32)) in
  if F32.leb (F32.of_Z 1) ret then S754_finite false 16777215 (-24)
  else ret.

(** The distribution on an engine of 32 bits: [moteur] gives the next
    word of the engine, [std::mt19937::operator()]. *)
Definition canonique_de {Rng : Type} (moteur : Rng -> Z * Rng) (g : Rng)
  : F32.float * Rng :=
  let (mot, g) := moteur g in
  (generate_canonical mot, g).

Definition uniform_real_libstdcxx {Rng : Type} (moteur : Rng -> Z * Rng)
  : F32.float -> F32.float -> Rng -> F32.float * Rng :=
  uniform_real_canonique (canonique_de moteur).

(** A scripted engine of 32 bits: the words to come, and the integers
    that the integer draws return.  An exhausted script gives the word 0
    and the lower bound of the integer range; a normal draw returns its
    mean. *)
Record ScriptMots := {
  mots : list Z;
  choix : list Z
}.

Definition tirer_mot (g : ScriptMots) : Z * ScriptMots :=
  match mots g with
  | mot :: r => (mot, {| mots := r; choix := choix g |})
  | [] => (0, g)
  end.

Definition tirer_choix (a b : Z) (g : ScriptMots) : Z * ScriptMots :=
  match choix g with
  | n :: r => (n, {| mots := mots g; choix := r |})
  | [] => (a, g)
  end.

Definition tirer_moyenne (moyenne ecart : F32.float) (g : ScriptMots)
  : F32.float * ScriptMots :=
  (moyenne, g).

Definition generer_trame_mots :=
  generer_trame ScriptMots (uniform_real_libstdcxx tirer_mot)
    tirer_choix tirer_moyenne.

(** The simulator at 100 Hz with the default probabilities and the words
    of a frame with an alert on axis index 3: the word 0 for the alert
    chance, the axis 3, the word [mot] for the current, and for each axis
    the word [0x80000000], a chance of one half, for which no new target
    is drawn. *)
Definition simulateur_alerte (mot : Z) : Simulateur ScriptMots :=
  Simulateur_init ScriptMots (F32.of_Z 100) (F32.lit 5 100) (F32.lit 2 100)
    {| mots := [0; mot] ++ repeat 0x80000000 6; choix := [3] |}.

(** The invariant of an axis state: position within the limits of the
    axis, velocity magnitude at most the maximum, current not negative. *)
Definition etat_borne (axe : nat) (a : EtatAxe) : bool :=
  F32.leb (case_de POSITION_MIN_DEG axe) (position_deg a)
  && F32.leb (position_deg a) (case_de POSITION_MAX_DEG axe)
  && F32.leb (F32.abs (vitesse_deg_s a)) (case_de VITESSE_MAX_DEG_S axe)
  && F32.leb zero (courant_base_a a).

(** The raw current written for axis [i] after its tick. *)
Definition courant_ecrit {Rng : Type} (sim : Simulateur Rng)
    (axe_alerte courant_alerte : Z) (i : nat) : Z :=
  if Z.of_nat i =? axe_alerte then courant_alerte
  else uint16_of_float
         (F32.mul (courant_base_a (axe_de (axes Rng sim) i)) (F32.of_Z 1000)).

(** A raw current of at least 5.5 A once converted, above the default
    threshold of the analyser, 5.0 A, and in alert for [est_en_alerte]. *)
Definition courant_haut (brut : Z) : bool :=
  F32.leb (F32.lit 55 10) (Analyseur.courant_en_amperes brut)
  && F32.gtb (Analyseur.courant_en_amperes brut)
       Analyseur.seuil_courant_defaut
  && Analyseur.est_en_alerte (Essais.axe_courant brut)
       Analyseur.seuil_courant_defaut.

(** A random engine that honours the range of every integer draw: the
    state is a counter, an integer draw on [a, b] is [a] plus the counter
    modulo the width, a real draw is the lower bound and a normal draw the
    mean. *)
Definition compteur_reel (a b : F32.float) (g : nat) : F32.float * nat :=
  (a, S g).

Definition compteur_entier (a b : Z) (g : nat) : Z * nat :=
  (a + Z.of_nat g mod (b - a + 1), S g).

Definition compteur_normal (moyenne ecart : F32.float) (g : nat)
  : F32.float * nat :=
  (moyenne, S g).

(** The simulator as [main] builds it at 100 Hz with the default
    probabilities, on the counter engine started at 0. *)
Definition simulateur_compteur : Simulateur nat :=
  Simulateur_init nat (F32.of_Z 100) (F32.lit 5 100) (F32.lit 2 100) 0%nat.

(** A finite number other than the negative zero. *)
Definition fini_positif_ou_non_nul (x : F32.float) : bool :=
  match x with
  | S754_zero s => negb s
  | S754_finite _ _ _ => true
  | _ => false
  end.

(** A finite number strictly above zero. *)
Definition strictement_positif (x : F32.float) : bool :=
  match x with
  | S754_finite false _ _ => true
  | _ => false
  end.

(** A byte, and a byte other than the two synchronisation bytes. *)
Definition est_octet (b : Z) : Prop := 0 <= b <= 255.

Definition hors_sync (b : Z) : Prop :=
  b <> Simulateur.SYNC_H /\ b <> Simulateur.SYNC_L.

(** The 16-bit little-endian value at offset [i] of a byte sequence. *)
Definition mot_le (octets : list Z) (i : nat) : Z :=
  nth i octets 0 + 256 * nth (S i) octets 0.

(** [cadre sim sim' axe]: [sim'] differs from [sim] at most by the engine
    and by the state of axis [axe]. *)
Definition cadre {Rng : Type} (sim sim' : Simulateur Rng) (axe : nat)
  : Prop :=
  sequence Rng sim' = sequence Rng sim
  /\ dt Rng sim' = dt Rng sim
  /\ prob_bruit Rng sim' = prob_bruit Rng sim
  /\ prob_alerte Rng sim' = prob_alerte Rng sim
  /\ List.length (axes Rng sim') = List.length (axes Rng sim)
  /\ forall k, k <> axe ->
               axe_de (axes Rng sim') k = axe_de (axes Rng sim) k.

(** A state that the class can hold: six axes and a sequence counter
    that is a value of [uint8_t]. *)
Definition etat_valide {Rng : Type} (sim : Simulateur Rng) : Prop :=
  List.length (axes Rng sim) = NB_AXES /\ 0 <= sequence Rng sim <= 255.

(** The simulator at 100 Hz with axis index 0 at rest at 0 degrees and
    its target at 50 degrees. *)
Definition simulateur_loin : Simulateur Script :=
  let sim :=
    simulateur_defaut (F32.of_Z 100)
      {| reels := [zero]; entiers_tires := [] |} in
  avec_axes Script sim
    (axe_ecrit (axes Script sim) 0
       {| position_deg := zero; vitesse_deg_s := zero;
          position_cible := F32.of_Z 50;
          courant_base_a := F32.lit 8 10 |}).

(** The simulator at 100 Hz, as built, with the draws of one tick in
    which no new target is chosen. *)
Definition simulateur_repos : Simulateur Script :=
  simulateur_defaut (F32.of_Z 100)
    {| reels := [demi; zero]; entiers_tires := [] |}.

(** [dans a b x]: [x] lies in the half-open interval from [a] to [b],
    [b] excluded. *)
Definition dans (a b x : F32.float) : bool := F32.leb a x && F32.ltb x b.

End EssaisSimulateur.

(* ------------------------------------------------------------------------ *)
(** * Properties of the analyser *)
(* ------------------------------------------------------------------------ *)

Module AnalyseurProps.
Import Analyseur Essais.

(** ** Current alert *)

(** What [est_en_alerte] computes: the raw current, in milliamperes,
    compared with the threshold. *)
Lemma est_en_alerte_brut (axe : DonneesAxe) (seuil : F32.float) :
  est_en_alerte axe seuil = F32.gtb (F32.of_Z (courant axe)) seuil.
Proof.
  unfold est_en_alerte.
  destruct (F32.gtb (F32.of_Z (courant axe)) seuil); reflexivity.
Qed.

(** C1: at the threshold 5.0 A, an axis drawing exactly 5000 mA has a
    converted current that is not above the threshold, and an axis drawing
    6 mA is far below it; [est_en_alerte] answers true for both, because
    it compares the raw milliampere count with the threshold in amperes.
    One milliampere above the threshold it answers true, as expected. *)
Theorem est_en_alerte_compare_milliamperes :
  F32.gtb (courant_en_amperes 5000) seuil_courant_defaut = false
  /\ est_en_alerte (axe_courant 5000) seuil_courant_defaut = true
  /\ F32.gtb (courant_en_amperes 6) seuil_courant_defaut = false
  /\ est_en_alerte (axe_courant 6) seuil_courant_defaut = true
  /\ F32.gtb (courant_en_amperes 5001) seuil_courant_defaut = true
  /\ est_en_alerte (axe_courant 5001) seuil_courant_defaut = true.
Proof. repeat split; vm_compute; reflexivity. Qed.

(** At the default threshold, 5.0 A, every raw current from 6 mA to
    5000 mA is an alert for [est_en_alerte], and none converts to more
    than 5.0 A. *)
Lemma est_en_alerte_faux_positifs (c : Z) :
  6 <= c <= 5000 ->
  est_en_alerte (axe_courant c) seuil_courant_defaut = true
  /\ F32.gtb (courant_en_amperes c) seuil_courant_defaut = false.
Proof.
  intros Hc.
  assert (Htous :
    forallb (fun c => est_en_alerte (axe_courant c) seuil_courant_defaut
                      && negb (F32.gtb (courant_en_amperes c)
                                 seuil_courant_defaut))
      (map (fun n => 6 + Z.of_nat n) (seq 0 (Z.to_nat 4995))) = true)
    by (vm_compute; reflexivity).
  rewrite forallb_forall in Htous.
  assert (Hin : In c (map (fun n => 6 + Z.of_nat n) (seq 0 (Z.to_nat 4995)))).
  { replace c with (6 + Z.of_nat (Z.to_nat (c - 6))) by lia.
    apply (in_map (fun n => 6 + Z.of_nat n)), in_seq. lia. }
  apply Htous in Hin. apply andb_prop in Hin. destruct Hin as [H1 H2].
  split; [exact H1 |].
  apply negb_true_iff. exact H2.
Qed.

(** ** Validity of a frame *)

Lemma trame_valide_faux (sizeof_ptr : Z) (trame : Trame) :
  sizeof_ptr <> 39 -> trame_valide sizeof_ptr trame = false.
Proof.
  intros Hsz. unfold trame_valide.
  destruct (Z.eqb_spec sizeof_ptr 39) as [E | _]; [contradiction |].
  rewrite andb_false_r. reflexivity.
Qed.

(** C2: with 8-byte or 4-byte pointers [trame_valide] is false for every
    frame, and so for a frame that carries the two synchronisation bytes
    0xAA and 0x55: the third condition, [sizeof(trame) == 39], compares
    the size of a pointer with 39 and never holds. *)
Theorem trame_valide_toujours_faux :
  (forall trame : Trame,
      trame_valide 8 trame = false /\ trame_valide 4 trame = false)
  /\ sync1 (trame_sequence 0) = SYNC_H
  /\ sync2 (trame_sequence 0) = SYNC_L
  /\ trame_valide 8 (trame_sequence 0) = false.
Proof.
  split; [| repeat split].
  intros trame. split; apply trame_valide_faux; discriminate.
Qed.

(** ** Search of the synchronisation bytes *)

Lemma bind_valeur {A B : Type} (m : Lecture.t A) (k : A -> Lecture.t B) :
  Lecture.valeur (Lecture.bind m k) = Lecture.valeur (k (Lecture.valeur m)).
Proof.
  destruct m as [a l1]. unfold Lecture.bind, Lecture.valeur. simpl.
  destruct (k a); reflexivity.
Qed.

Lemma bind_indices {A B : Type} (m : Lecture.t A) (k : A -> Lecture.t B) :
  Lecture.indices (Lecture.bind m k)
  = Lecture.indices m ++ Lecture.indices (k (Lecture.valeur m)).
Proof.
  destruct m as [a l1]. unfold Lecture.bind, Lecture.indices. simpl.
  destruct (k a); reflexivity.
Qed.

Ltac lect_simpl :=
  rewrite ?bind_valeur, ?bind_indices in *;
  cbn [Lecture.lire Lecture.ret Lecture.indices Lecture.valeur fst snd app]
    in *.

Lemma boucle_sync_eq (mem : Z -> Z) (reste : nat) (i : Z) :
  boucle_sync mem (S reste) i
  = (b0 <- Lecture.lire mem i ;;
     if b0 =? SYNC_H then
       b1 <- Lecture.lire mem (i + 1) ;;
       if b1 =? SYNC_L then Lecture.ret i
       else boucle_sync mem reste (i + 1)
     else boucle_sync mem reste (i + 1)).
Proof. reflexivity. Qed.

(** The loop reads no index below its start and none above [taille]:
    the read of [buffer[i+1]] can reach [taille] itself. *)
Lemma boucle_sync_indices (mem : Z -> Z) (reste : nat) :
  forall i x,
    In x (Lecture.indices (boucle_sync mem reste i)) ->
    i <= x <= i + Z.of_nat reste.
Proof.
  induction reste as [| reste IH]; intros i x Hin.
  - simpl in Hin. contradiction.
  - rewrite boucle_sync_eq, bind_indices in Hin.
    cbn [Lecture.lire Lecture.indices Lecture.valeur fst snd app] in Hin.
    destruct Hin as [<- | Hin]; [lia |].
    destruct (mem i =? SYNC_H).
    + rewrite bind_indices in Hin.
      cbn [Lecture.lire Lecture.indices Lecture.valeur fst snd app] in Hin.
      destruct Hin as [<- | Hin]; [lia |].
      destruct (mem (i + 1) =? SYNC_L).
      * simpl in Hin. contradiction.
      * apply IH in Hin. lia.
    + apply IH in Hin. lia.
Qed.

(** The value of the loop: the lowest index, from [i], at which a marker
    starts among the [reste] indices scanned, or -1. *)
Lemma boucle_sync_valeur (mem : Z -> Z) (reste : nat) :
  forall i,
    0 <= i ->
    let r := Lecture.valeur (boucle_sync mem reste i) in
    (r = -1 /\ forall j, i <= j < i + Z.of_nat reste -> ~ paire mem j)
    \/ (i <= r < i + Z.of_nat reste /\ paire mem r
        /\ forall j, i <= j < r -> ~ paire mem j).
Proof.
  induction reste as [| reste IH]; intros i Hi r.
  - left. split; [reflexivity | intros j Hj; lia].
  - subst r. rewrite boucle_sync_eq, bind_valeur.
    cbn [Lecture.lire Lecture.valeur fst].
    assert (Hrec :
      ~ paire mem i ->
      (Lecture.valeur (boucle_sync mem reste (i + 1)) = -1 /\
       forall j, i <= j < i + Z.of_nat (S reste) -> ~ paire mem j)
      \/ (i <= Lecture.valeur (boucle_sync mem reste (i + 1))
            < i + Z.of_nat (S reste)
          /\ paire mem (Lecture.valeur (boucle_sync mem reste (i + 1)))
          /\ forall j,
               i <= j < Lecture.valeur (boucle_sync mem reste (i + 1)) ->
               ~ paire mem j)).
    { intros Hnp.
      destruct (IH (i + 1) ltac:(lia)) as [[E Hno] | [Hr [Hp Hlow]]].
      - left. split; [exact E |].
        intros j Hj. destruct (Z.eq_dec j i) as [-> | Hne]; [exact Hnp |].
        apply Hno. lia.
      - right. split; [lia |]. split; [exact Hp |].
        intros j Hj. destruct (Z.eq_dec j i) as [-> | Hne]; [exact Hnp |].
        apply Hlow. lia. }
    destruct (Z.eqb_spec (mem i) SYNC_H) as [E0 | N0].
    + rewrite bind_valeur. cbn [Lecture.lire Lecture.valeur fst].
      destruct (Z.eqb_spec (mem (i + 1)) SYNC_L) as [E1 | N1].
      * right. cbn [Lecture.ret Lecture.valeur fst].
        split; [lia |]. split; [split; assumption |].
        intros j Hj. lia.
      * apply Hrec. intros [_ H1]. contradiction.
    + apply Hrec. intros [H0 _]. contradiction.
Qed.

(** [trouver_sync] on a buffer of [taille] bytes, from [debut]: the
    lowest index of a marker whose first byte is below [taille], or -1.
    The second byte of that marker may be the byte at index [taille]. *)
Lemma trouver_sync_valeur (mem : Z -> Z) (taille debut : Z) :
  0 <= debut <= taille ->
  let r := Lecture.valeur (trouver_sync mem taille debut) in
  (r = -1 /\ forall j, debut <= j < taille -> ~ paire mem j)
  \/ (debut <= r < taille /\ paire mem r
      /\ forall j, debut <= j < r -> ~ paire mem j).
Proof.
  intros Hb. unfold trouver_sync.
  pose proof (boucle_sync_valeur mem (Z.to_nat (taille - debut)) debut
                ltac:(lia)) as H.
  rewrite Z2Nat.id in H by lia.
  replace (debut + (taille - debut)) with taille in H by lia.
  exact H.
Qed.

Lemma trouver_sync_indices (mem : Z -> Z) (taille debut x : Z) :
  0 <= debut <= taille ->
  In x (Lecture.indices (trouver_sync mem taille debut)) ->
  debut <= x <= taille.
Proof.
  intros Hb Hin. unfold trouver_sync in Hin.
  apply boucle_sync_indices in Hin.
  rewrite Z2Nat.id in Hin by lia. lia.
Qed.

(** When a marker is found at [r], nothing beyond [r + 1] was read. *)
Lemma boucle_sync_indices_trouve (mem : Z -> Z) (reste : nat) :
  forall i x,
    0 <= i ->
    Lecture.valeur (boucle_sync mem reste i) <> -1 ->
    In x (Lecture.indices (boucle_sync mem reste i)) ->
    x <= Lecture.valeur (boucle_sync mem reste i) + 1.
Proof.
  induction reste as [| reste IH]; intros i x Hi Hr Hin.
  - simpl in Hin. contradiction.
  - rewrite boucle_sync_eq in *. lect_simpl.
    destruct Hin as [<- | Hin].
    + destruct (boucle_sync_valeur mem (S reste) i Hi) as [[E _] | [Hb _]];
        rewrite boucle_sync_eq in *; lect_simpl; [contradiction | lia].
    + destruct (mem i =? SYNC_H).
      * lect_simpl. destruct (mem (i + 1) =? SYNC_L).
        -- lect_simpl. destruct Hin as [<- | []]. lia.
        -- destruct Hin as [<- | Hin].
           ++ destruct (boucle_sync_valeur mem reste (i + 1) ltac:(lia))
                as [[E _] | [Hb _]]; [contradiction | lia].
           ++ apply (IH (i + 1) x); try assumption; lia.
      * apply (IH (i + 1) x); try assumption; lia.
Qed.

Lemma memoire_dans (octets : list Z) (autour : Z -> Z) (i : Z) :
  0 <= i < Z.of_nat (List.length octets) ->
  memoire octets autour i = nth (Z.to_nat i) octets 0.
Proof.
  intros [H0 H1]. unfold memoire.
  apply Z.leb_le in H0. apply Z.ltb_lt in H1.
  rewrite H0, H1. reflexivity.
Qed.

Lemma memoire_hors (octets : list Z) (autour : Z -> Z) (i : Z) :
  Z.of_nat (List.length octets) <= i ->
  memoire octets autour i = autour i.
Proof.
  intros H. unfold memoire.
  assert (E : (i <? Z.of_nat (List.length octets)) = false)
    by (apply Z.ltb_ge; exact H).
  rewrite E, andb_false_r. reflexivity.
Qed.

(** Over [N] bytes, none of which is 0xAA, followed by a marker, the
    search from 0 returns [N] and every index it reads is below the size
    of the buffer. *)
Lemma trouver_sync_apres_bruit
    (bruit suite : list Z) (autour : Z -> Z) :
  Forall (fun b => b <> SYNC_H) bruit ->
  let buffer := bruit ++ SYNC_H :: SYNC_L :: suite in
  let taille := Z.of_nat (List.length buffer) in
  let res := trouver_sync (memoire buffer autour) taille 0 in
  Lecture.valeur res = Z.of_nat (List.length bruit)
  /\ Forall (fun x => 0 <= x < taille) (Lecture.indices res).
Proof.
  intros Hbruit buffer taille res.
  set (N := Z.of_nat (List.length bruit)).
  assert (Ht : taille = N + 2 + Z.of_nat (List.length suite)).
  { unfold taille, buffer, N. rewrite length_app. simpl List.length. lia. }
  assert (HN : 0 <= N) by (unfold N; lia).
  assert (Hmark : paire (memoire buffer autour) N).
  { unfold paire. rewrite !memoire_dans by (fold taille; lia).
    unfold buffer, N. split.
    - rewrite Nat2Z.id, app_nth2, Nat.sub_diag by lia. reflexivity.
    - replace (Z.to_nat (Z.of_nat (List.length bruit) + 1))
        with (S (List.length bruit)) by lia.
      rewrite app_nth2 by lia.
      replace (S (List.length bruit) - List.length bruit)%nat with 1%nat
        by lia.
      reflexivity. }
  assert (Hnoise : forall j, 0 <= j < N -> ~ paire (memoire buffer autour) j).
  { intros j Hj [H0 _].
    rewrite memoire_dans in H0 by (fold taille; lia).
    unfold buffer in H0. rewrite app_nth1 in H0 by (unfold N in Hj; lia).
    rewrite Forall_forall in Hbruit.
    apply (Hbruit (nth (Z.to_nat j) bruit 0)); [| exact H0].
    apply nth_In. unfold N in Hj. lia. }
  assert (Hval : Lecture.valeur res = N).
  { destruct (trouver_sync_valeur (memoire buffer autour) taille 0
                ltac:(lia)) as [[_ Hno] | [Hr [Hp Hlow]]].
    - exfalso. apply (Hno N); [lia | exact Hmark].
    - fold res in Hr, Hp, Hlow.
      destruct (Z.lt_trichotomy (Lecture.valeur res) N) as [L | [E | G]].
      + exfalso. apply (Hnoise (Lecture.valeur res)); [lia | exact Hp].
      + exact E.
      + exfalso. apply (Hlow N); [lia | exact Hmark]. }
  split; [exact Hval |].
  apply Forall_forall. intros x Hin.
  assert (Hb : 0 <= 0 <= taille) by lia.
  pose proof (trouver_sync_indices (memoire buffer autour) taille 0 x
                Hb Hin) as Hlo.
  unfold res, trouver_sync in Hin, Hval.
  assert (Hne : Lecture.valeur
                  (boucle_sync (memoire buffer autour)
                     (Z.to_nat (taille - 0)) 0) <> -1)
    by (rewrite Hval; lia).
  pose proof (boucle_sync_indices_trouve _ _ 0 x (Z.le_refl 0) Hne Hin)
    as Hhi.
  rewrite Hval in Hhi. lia.
Qed.

(** Whenever the last byte scanned is 0xAA and no marker starts before
    it, the byte after the last one is read. *)
Lemma boucle_sync_deborde (mem : Z -> Z) (reste : nat) :
  forall i,
    mem (i + Z.of_nat reste) = SYNC_H ->
    (forall j, i <= j < i + Z.of_nat reste -> ~ paire mem j) ->
    In (i + Z.of_nat reste + 1)
       (Lecture.indices (boucle_sync mem (S reste) i)).
Proof.
  induction reste as [| reste IH]; intros i Hfin Hno.
  - rewrite Z.add_0_r in *. rewrite boucle_sync_eq. lect_simpl.
    rewrite Hfin, Z.eqb_refl. lect_simpl. right. left. reflexivity.
  - assert (Hsuite :
      In (i + Z.of_nat (S reste) + 1)
         (Lecture.indices (boucle_sync mem (S reste) (i + 1)))).
    { replace (i + Z.of_nat (S reste)) with (i + 1 + Z.of_nat reste) by lia.
      apply IH.
      - replace (i + 1 + Z.of_nat reste) with (i + Z.of_nat (S reste)) by lia.
        exact Hfin.
      - intros j Hj. apply Hno. lia. }
    rewrite (boucle_sync_eq mem (S reste) i). lect_simpl. right.
    destruct (Z.eqb_spec (mem i) SYNC_H) as [E0 | N0]; [| exact Hsuite].
    lect_simpl. right.
    destruct (Z.eqb_spec (mem (i + 1)) SYNC_L) as [E1 | N1]; [| exact Hsuite].
    exfalso. apply (Hno i); [lia | split; assumption].
Qed.

Lemma trouver_sync_deborde (mem : Z -> Z) (taille debut : Z) :
  0 <= debut < taille ->
  mem (taille - 1) = SYNC_H ->
  (forall j, debut <= j < taille - 1 -> ~ paire mem j) ->
  In taille (Lecture.indices (trouver_sync mem taille debut)).
Proof.
  intros Hb Hfin Hno. unfold trouver_sync.
  replace (Z.to_nat (taille - debut))
    with (S (Z.to_nat (taille - 1 - debut))) by lia.
  replace taille
    with (debut + Z.of_nat (Z.to_nat (taille - 1 - debut)) + 1) at 1 by lia.
  apply boucle_sync_deborde.
  - replace (debut + Z.of_nat (Z.to_nat (taille - 1 - debut)))
      with (taille - 1) by lia.
    exact Hfin.
  - intros j Hj. apply Hno. lia.
Qed.

(** C3: on the one-byte buffer [0xAA], searched from 0, [trouver_sync]
    reads index 0 and then index 1, which is the size of the buffer and
    so outside it; the result is whatever the byte after the buffer
    decides: 0 when that byte is 0x55, -1 otherwise.  A lone trailing
    0xAA is therefore not always reported as not found, and the search
    does not stay below [taille]. *)
Theorem trouver_sync_lit_apres_le_tampon :
  forall autour : Z -> Z,
    trouver_sync (memoire [0xAA] autour) 1 0
    = (if autour 1 =? 0x55 then 0 else -1, [0; 1]).
Proof.
  intros autour. unfold trouver_sync.
  change (Z.to_nat (1 - 0)) with 1%nat.
  rewrite boucle_sync_eq. unfold Lecture.bind, Lecture.lire.
  rewrite memoire_dans by (simpl; lia).
  rewrite memoire_hors by (simpl; lia).
  change SYNC_L with 85. simpl.
  destruct (autour 1 =? 85); reflexivity.
Qed.

(** ** Shape of a frame *)

Lemma tableau_liste_length {A : Type} (n : nat) (t : tableau A n) :
  List.length (tableau_liste t) = n.
Proof.
  induction n as [| n IH]; simpl.
  - reflexivity.
  - rewrite IH. reflexivity.
Qed.

(** C5: every value of [struct Trame] holds twelve axis samples, the six
    of [axe1] and the six of [axe2], where the wire frame has six: the
    protocol constants give a frame of 3 + 6 * 6 = 39 bytes. *)
Theorem trame_douze_echantillons :
  (forall trame : Trame,
      List.length (tableau_liste (axe1 trame)) = 6%nat
      /\ List.length (tableau_liste (axe2 trame)) = 6%nat
      /\ List.length (echantillons trame) = 12%nat)
  /\ TAILLE_TRAME = 39
  /\ TAILLE_ENTETE = 3
  /\ Z.of_nat NB_AXES * TAILLE_AXE = 36.
Proof.
  split; [| repeat split].
  intros trame. unfold echantillons.
  rewrite length_app, !tableau_liste_length. repeat split.
Qed.

(** ** The processing of a buffer *)

(** C6: on every non-empty buffer [main] ends with [octets_lus] equal to
    the size of the buffer and with [octets_bruit] and [trames_valides]
    both 0, so [octets_lus = octets_bruit + 39 * trames_valides] fails: no
    byte is classified, the processing loop being absent.  The buffer made
    of one well-formed frame is an instance. *)
Theorem main_ne_classe_aucun_octet :
  forall (b : Z) (reste : list Z) (argv3 : option F32.float),
  exists stats sortie,
    main (b :: reste) argv3 = Some (stats, sortie)
    /\ octets_lus stats = Z.of_nat (List.length (b :: reste))
    /\ octets_bruit stats = 0
    /\ trames_valides stats = 0
    /\ octets_lus stats <> octets_bruit stats + 39 * trames_valides stats.
Proof.
  intros b reste argv3. eexists. eexists.
  split; [reflexivity |].
  cbn [octets_lus octets_bruit trames_valides Statistiques_init].
  repeat split. simpl List.length. lia.
Qed.

Lemma main_une_trame (argv3 : option F32.float) :
  exists stats sortie,
    main (trame_octets 0) argv3 = Some (stats, sortie)
    /\ octets_lus stats = 39
    /\ octets_bruit stats + 39 * trames_valides stats = 0.
Proof.
  eexists. eexists. split; [reflexivity |]. split; reflexivity.
Qed.

(** ** Sequence numbers *)

Lemma analyser_suite_inchange (seqs : list Z) (stats : Statistiques)
    (seuil : F32.float) :
  analyser_suite seqs stats seuil
  = (repeat false (List.length seqs), stats).
Proof.
  revert stats. induction seqs as [| s seqs IH]; intros stats; simpl.
  - reflexivity.
  - rewrite IH. reflexivity.
Qed.

(** The numbers of the final report are the four counters, followed by
    the two sequence extremes when a frame was counted. *)
Lemma ecrire_statistiques_entiers (stats : Statistiques) :
  entiers (ecrire_statistiques stats)
  = [octets_lus stats; octets_bruit stats; trames_valides stats;
     trames_alerte stats]
    ++ (if trames_valides stats >? 0
        then [sequence_min stats; sequence_max stats] else []).
Proof.
  unfold ecrire_statistiques.
  destruct (trames_valides stats >? 0); reflexivity.
Qed.

(** C7: the frames of sequence numbers 250, ..., 255, 0, 1, 2, analysed
    in order from the initial statistics, leave [sequence_min] at 255 and
    [sequence_max] at 0 (not 0 and 255): [analyser_trame] updates nothing.
    The final report of [main] on the nine wire frames prints four
    numbers, the size 351 and three zero counters: no estimate of the
    lost frames is computed or reported. *)
Theorem sequence_jamais_suivie :
  (forall seuil,
      let stats :=
        snd (analyser_suite sequences_tour Statistiques_init seuil) in
      sequence_min stats = 255 /\ sequence_max stats = 0
      /\ trames_valides stats = 0)
  /\ (forall argv3,
        exists stats sortie,
          main (concat (map trame_octets sequences_tour)) argv3
          = Some (stats, sortie)
          /\ entiers sortie = [351; 0; 0; 0]).
Proof.
  split.
  - intros seuil. rewrite analyser_suite_inchange. repeat split.
  - intros argv3. eexists. eexists. split; reflexivity.
Qed.

(** ** Truncated frame *)

(** C8: with 38 bytes left from the marker found at offset 0,
    [decoder_trame] leaves the frame value as it was and returns no
    status, and [main] counts the 38 bytes neither as noise nor as frame:
    nothing reports insufficient data. *)
Theorem trame_tronquee_non_signalee :
  forall (autour : Z -> Z) (trame : Trame) (argv3 : option F32.float),
    List.length trame_tronquee = 38%nat
    /\ Lecture.valeur (trouver_sync (memoire trame_tronquee autour) 38 0) = 0
    /\ decoder_trame (memoire trame_tronquee autour) trame = (trame, None)
    /\ exists stats sortie,
         main trame_tronquee argv3 = Some (stats, sortie)
         /\ octets_lus stats = 38
         /\ octets_bruit stats = 0
         /\ trames_valides stats = 0.
Proof.
  intros autour trame argv3.
  split; [reflexivity |]. split; [reflexivity |]. split; [reflexivity |].
  eexists. eexists. split; [reflexivity |]. repeat split.
Qed.

End AnalyseurProps.

(* ------------------------------------------------------------------------ *)
(** * Rounding to [float] *)
(* ------------------------------------------------------------------------ *)

Module F32Arrondi.

(** ** Shifts to the right *)

Lemma iter_pos_iter {A : Type} (f : A -> A) (p : positive) :
  forall x, iter_pos f p x = Pos.iter f x p.
Proof.
  induction p as [p IH | p IH |]; intros x; cbn [iter_pos Pos.iter].
  - rewrite !IH. rewrite <- !Pos.iter_swap. reflexivity.
  - rewrite !IH. reflexivity.
  - reflexivity.
Qed.

Lemma shr_1_effet (mrs : shr_record) :
  0 <= shr_m mrs ->
  shr_m (shr_1 mrs) = shr_m mrs / 2
  /\ shr_r (shr_1 mrs) = Z.odd (shr_m mrs)
  /\ shr_s (shr_1 mrs) = shr_r mrs || shr_s mrs.
Proof.
  destruct mrs as [m r s]. cbn [shr_m shr_r shr_s]. intros Hm.
  rewrite <- Z.div2_div.
  destruct m as [| [p | p |] | p]; try lia; repeat split.
Qed.

(** After [p] shifts of an exact mantissa [M]: the quotient by [2^p], and
    flags that are set only when the division is not exact. *)
Lemma iter_shr_1 (M : Z) (p : positive) :
  0 <= M ->
  let mrs := Pos.iter shr_1 (Build_shr_record M false false) p in
  shr_m mrs = M / 2 ^ Z.pos p
  /\ (M mod 2 ^ Z.pos p = 0 -> shr_r mrs = false /\ shr_s mrs = false).
Proof.
  intros HM. induction p as [| p IH] using Pos.peano_ind.
  - cbn [Pos.iter]. cbv zeta.
    destruct (shr_1_effet (Build_shr_record M false false) HM)
      as (H1 & H2 & H3).
    cbn [shr_m shr_r shr_s] in H1, H2, H3.
    rewrite H1, H2, H3. change (2 ^ 1) with 2. split; [reflexivity |].
    intros Hex. split; [| reflexivity].
    rewrite Zodd_mod, Hex. reflexivity.
  - rewrite Pos.iter_succ. cbv zeta in IH |- *.
    destruct IH as [IHm IHe].
    set (mrs := Pos.iter shr_1 (Build_shr_record M false false) p) in *.
    assert (Hpos : 0 <= shr_m mrs).
    { rewrite IHm. apply Z.div_pos; lia. }
    destruct (shr_1_effet mrs Hpos) as (H1 & H2 & H3).
    rewrite H1, H2, H3, IHm.
    rewrite Pos2Z.inj_succ, Z.pow_succ_r by lia.
    split.
    + rewrite Z.div_div by lia. f_equal. lia.
    + intros Hex.
      assert (Hd : M = 2 * 2 ^ Z.pos p * (M / (2 * 2 ^ Z.pos p))).
      { pose proof (Z.div_mod M (2 * 2 ^ Z.pos p) ltac:(lia)). lia. }
      assert (Hex' : M mod 2 ^ Z.pos p = 0).
      { rewrite Hd. rewrite <- Z.mul_assoc, (Z.mul_comm 2), <- Z.mul_assoc.
        rewrite Z.mul_comm. apply Z.mod_mul. lia. }
      destruct (IHe Hex') as [-> ->]. split; [| reflexivity].
      rewrite Zodd_mod.
      assert (Hq : M / 2 ^ Z.pos p = 2 * (M / (2 * 2 ^ Z.pos p))).
      { rewrite Hd at 1.
        replace (2 * 2 ^ Z.pos p * (M / (2 * 2 ^ Z.pos p)))
          with (2 * (M / (2 * 2 ^ Z.pos p)) * 2 ^ Z.pos p) by lia.
        apply Z.div_mul. lia. }
      rewrite Hq, Z.mul_comm, Z.mod_mul by lia. reflexivity.
Qed.


(** ** Number of binary digits *)

Lemma digits2_pos_size (p : positive) : digits2_pos p = Pos.size p.
Proof. induction p as [p IH | p IH |]; simpl; rewrite ?IH; reflexivity. Qed.

Lemma digits2_pos_bornes (p : positive) :
  2 ^ (Z.pos (digits2_pos p) - 1) <= Z.pos p < 2 ^ Z.pos (digits2_pos p).
Proof.
  rewrite digits2_pos_size. split.
  - pose proof (Pos.size_le p) as H.
    apply Pos2Z.pos_le_pos in H.
    rewrite Pos2Z.inj_pow in H.
    change (Z.pos p~0) with (2 * Z.pos p) in H.
    replace (Z.pos (Pos.size p)) with (Z.succ (Z.pos (Pos.size p) - 1)) in H
      by lia.
    rewrite Z.pow_succ_r in H by lia. lia.
  - pose proof (Pos.size_gt p) as H.
    apply Pos2Z.pos_lt_pos in H.
    rewrite Pos2Z.inj_pow in H. exact H.
Qed.

(** A positive number below [2^n] has at most [n] digits, and one that is
    at least [2^(n-1)] has at least [n]. *)
Lemma digits2_pos_majore (p : positive) (n : Z) :
  Z.pos p < 2 ^ n -> Z.pos (digits2_pos p) <= n.
Proof.
  intros H. pose proof (digits2_pos_bornes p) as [Hlo _].
  destruct (Z.le_gt_cases (Z.pos (digits2_pos p)) n) as [L | G];
    [exact L |].
  exfalso.
  assert (Hn : 0 <= n).
  { destruct (Z.le_gt_cases 0 n) as [L | G']; [exact L |].
    rewrite Z.pow_neg_r in H by lia. lia. }
  assert (2 ^ n <= 2 ^ (Z.pos (digits2_pos p) - 1))
    by (apply Z.pow_le_mono_r; lia).
  lia.
Qed.

Lemma digits2_pos_minore (p : positive) (n : Z) :
  2 ^ (n - 1) <= Z.pos p -> n <= Z.pos (digits2_pos p).
Proof.
  intros H. pose proof (digits2_pos_bornes p) as [_ Hhi].
  destruct (Z.le_gt_cases n (Z.pos (digits2_pos p))) as [L | G];
    [exact L |].
  exfalso.
  assert (2 ^ Z.pos (digits2_pos p) <= 2 ^ (n - 1))
    by (apply Z.pow_le_mono_r; lia).
  lia.
Qed.

(** ** Rounding of a positive mantissa *)

Lemma shr_exact (M e n : Z) :
  0 <= M ->
  let r := shr (Build_shr_record M false false) e n in
  shr_m (fst r) = M / 2 ^ Z.max 0 n
  /\ snd r = e + Z.max 0 n
  /\ (M mod 2 ^ Z.max 0 n = 0 -> loc_of_shr_record (fst r) = loc_Exact).
Proof.
  intros HM. destruct n as [| p | p]; cbn [shr fst snd Z.max]; cbv zeta.
  - change (Z.max 0 0) with 0. rewrite Z.div_1_r, Z.add_0_r.
    repeat split.
  - rewrite iter_pos_iter. change (Z.max 0 (Z.pos p)) with (Z.pos p).
    destruct (iter_shr_1 M p HM) as [H1 H2].
    split; [exact H1 |]. split; [reflexivity |].
    intros Hex. destruct (H2 Hex) as [Hr Hs].
    destruct (Pos.iter shr_1 (Build_shr_record M false false) p)
      as [m r s].
    cbn [shr_r shr_s] in Hr, Hs. subst r s. reflexivity.
  - change (Z.max 0 (Z.neg p)) with 0. rewrite Z.div_1_r, Z.add_0_r.
    repeat split.
Qed.

Lemma round_nearest_even_bornes (m : Z) (l : location) :
  m <= round_nearest_even m l <= m + 1
  /\ (l = loc_Exact -> round_nearest_even m l = m).
Proof.
  destruct l as [| []]; cbn [round_nearest_even];
    try destruct (Z.even m); split; try lia; try reflexivity;
    intros H; discriminate H.
Qed.

(** [binary_round_aux] on an exact positive mantissa: a first shift to
    the exponent of the format, the rounding to nearest, and a second
    shift for a rounding that added a digit. *)
Lemma binary_round_aux_forme (M : positive) (e : Z) :
  let n1 := Z.max 0 (fexp F32.prec F32.emax (Z.pos (digits2_pos M) + e) - e) in
  exists m2 : Z,
    Z.pos M / 2 ^ n1 <= m2 <= Z.pos M / 2 ^ n1 + 1
    /\ (Z.pos M mod 2 ^ n1 = 0 -> m2 = Z.pos M / 2 ^ n1)
    /\ let e1 := e + n1 in
       let n2 := Z.max 0 (fexp F32.prec F32.emax (Zdigits2 m2 + e1) - e1) in
       binary_round_aux F32.prec F32.emax false (Z.pos M) e loc_Exact
       = match m2 / 2 ^ n2 with
         | Z0 => S754_zero false
         | Z.pos m =>
             if e1 + n2 <=? F32.emax - F32.prec
             then S754_finite false m (e1 + n2)
             else S754_infinity false
         | Z.neg _ => S754_nan
         end.
Proof.
  intros n1. unfold binary_round_aux, shr_fexp.
  cbn [shr_record_of_loc Zdigits2].
  pose proof (shr_exact (Z.pos M) e
                (fexp F32.prec F32.emax (Z.pos (digits2_pos M) + e) - e)
                ltac:(lia)) as H.
  cbv zeta in H. fold n1 in H.
  destruct (shr (Build_shr_record (Z.pos M) false false) e
              (fexp F32.prec F32.emax (Z.pos (digits2_pos M) + e) - e))
    as [mrs1 e1'].
  cbn [fst snd] in H. destruct H as (Hm1 & He1 & Hx1).
  pose proof (round_nearest_even_bornes (shr_m mrs1)
                (loc_of_shr_record mrs1)) as [Hb Hex].
  set (m2 := round_nearest_even (shr_m mrs1) (loc_of_shr_record mrs1)) in *.
  exists m2. rewrite <- Hm1.
  split; [exact Hb |].
  split; [intros Hz; apply Hex, Hx1, Hz |].
  cbv zeta. subst e1'.
  assert (Hm2 : 0 <= m2).
  { assert (0 <= shr_m mrs1) by (rewrite Hm1; apply Z.div_pos; lia). lia. }
  pose proof (shr_exact m2 (e + n1)
                (fexp F32.prec F32.emax (Zdigits2 m2 + (e + n1)) - (e + n1))
                Hm2) as H.
  cbv zeta in H.
  destruct (shr (Build_shr_record m2 false false) (e + n1)
              (fexp F32.prec F32.emax (Zdigits2 m2 + (e + n1)) - (e + n1)))
    as [mrs2 e2].
  cbn [fst snd] in H. destruct H as (Hm3 & He2 & _).
  rewrite Hm3, He2. reflexivity.
Qed.

End F32Arrondi.

(* ------------------------------------------------------------------------ *)
(** * Bounds of the draws *)
(* ------------------------------------------------------------------------ *)

Module F32Bornes.
Import Simulateur EssaisSimulateur F32Arrondi.

Lemma unite_forme (u : F32.float) :
  unite u = true ->
  (exists s, u = S754_zero s)
  \/ (exists m e, u = S754_finite false m e /\ e < 0
                  /\ Z.pos m < 2 ^ (- e)).
Proof.
  unfold unite. intros H.
  apply andb_prop in H. destruct H as [H Hlt].
  apply andb_prop in H. destruct H as [Hval Hle].
  destruct u as [s | s | | s m e].
  - left. exists s. reflexivity.
  - destruct s; discriminate.
  - discriminate.
  - right. destruct s; [discriminate |]. exists m, e.
    split; [reflexivity |].
    change (F32.of_Z 1) with (S754_finite false 8388608 (-23)) in Hlt.
    unfold F32.ltb, SFltb, SFcompare in Hlt.
    cbn [valid_binary] in Hval. unfold bounded in Hval.
    apply andb_prop in Hval. destruct Hval as [Hcan _].
    unfold canonical_mantissa in Hcan. apply Z.eqb_eq in Hcan.
    unfold fexp, emin, F32.prec, F32.emax in Hcan.
    destruct (Z.compare_spec e (-23)) as [E | L | G]; try discriminate.
    + subst e. split; [lia |].
      change (2 ^ (- -23)) with (Z.pos 8388608).
      apply Pos2Z.pos_lt_pos.
      unfold Pos.lt, Pos.compare.
      destruct (Pos.compare_cont Eq m 8388608); try discriminate.
      reflexivity.
    + split; [lia |].
      pose proof (digits2_pos_bornes m) as [_ Hhi].
      assert (Hd : Z.pos (digits2_pos m) <= 24) by lia.
      assert (2 ^ Z.pos (digits2_pos m) <= 2 ^ (- e))
        by (apply Z.pow_le_mono_r; lia).
      lia.
Qed.


(** The product of a number of [0, 1) by 2500 is zero or a positive
    number of exponent at most -12 and of value at most 2500. *)
Lemma produit_borne (m : positive) (e : Z) :
  e < 0 ->
  Z.pos m < 2 ^ (- e) ->
  let x := F32.mul (S754_finite false m e)
             (S754_finite false 10240000 (-12)) in
  x = S754_zero false
  \/ exists mx ex, x = S754_finite false mx ex /\ ex <= -12
                   /\ Z.pos mx <= 2500 * 2 ^ (- ex).
Proof.
  intros He Hm x. subst x. unfold F32.mul, SFmul. cbn [xorb].
  destruct (binary_round_aux_forme (m * 10240000) (e + -12))
    as (m2 & Hm2 & _ & Hres).
  cbv zeta in Hres. rewrite Hres. clear Hres.
  set (M := (m * 10240000)%positive) in *.
  set (d := Z.pos (digits2_pos M)) in *.
  set (E := 12 - e).
  assert (HM : Z.pos M < 2500 * 2 ^ E).
  { unfold M, E. rewrite Pos2Z.inj_mul.
    replace (12 - e) with (12 + - e) by lia.
    rewrite Z.pow_add_r by lia. change (2 ^ 12) with 4096. nia. }
  assert (Hd : d + (e + -12) <= 12).
  { assert (Hlt : Z.pos M < 2 ^ (12 + E)).
    { rewrite Z.pow_add_r by (unfold E; lia).
      change (2 ^ 12) with 4096.
      assert (0 < 2 ^ E) by (apply Z.pow_pos_nonneg; unfold E; lia).
      nia. }
    pose proof (digits2_pos_majore M (12 + E) Hlt). unfold d, E in *. lia. }
  set (f1 := fexp F32.prec F32.emax (d + (e + -12))) in *.
  assert (Hf1 : -149 <= f1 <= -12).
  { unfold f1, fexp, emin, F32.prec, F32.emax. lia. }
  set (n1 := Z.max 0 (f1 - (e + -12))) in *.
  set (e1 := e + -12 + n1) in *.
  assert (He1 : -149 <= e1 <= -12 /\ - e1 = E - n1 /\ 0 <= n1 <= E)
    by (unfold e1, n1, E; lia).
  destruct He1 as (He1 & HE1 & Hn1).
  assert (Hq : Z.pos M / 2 ^ n1 < 2500 * 2 ^ (- e1)).
  { apply Z.div_lt_upper_bound; [apply Z.pow_pos_nonneg; lia |].
    replace (2 ^ n1 * (2500 * 2 ^ (- e1)))
      with (2500 * (2 ^ (- e1) * 2 ^ n1)) by lia.
    rewrite <- Z.pow_add_r by lia.
    replace (- e1 + n1) with E by lia. exact HM. }
  assert (Hm2' : 0 <= m2 <= 2500 * 2 ^ (- e1)).
  { assert (0 <= Z.pos M / 2 ^ n1) by (apply Z.div_pos; lia). lia. }
  clear Hm2 Hq HM.
  set (f2 := fexp F32.prec F32.emax (Zdigits2 m2 + e1)) in *.
  assert (Hf2 : f2 <= -12 \/ f2 <= e1).
  { destruct m2 as [| p | p]; [right | left | lia].
    - unfold f2, fexp, emin, F32.prec, F32.emax. cbn [Zdigits2]. lia.
    - assert (Hlt : Z.pos p < 2 ^ (12 + - e1)).
      { rewrite Z.pow_add_r by lia. change (2 ^ 12) with 4096.
        assert (0 < 2 ^ (- e1)) by (apply Z.pow_pos_nonneg; lia).
        nia. }
      pose proof (digits2_pos_majore p (12 + - e1) Hlt).
      unfold f2, fexp, emin, F32.prec, F32.emax. cbn [Zdigits2]. lia. }
  set (n2 := Z.max 0 (f2 - e1)) in *.
  assert (He3 : e1 + n2 <= -12 /\ 0 <= n2 <= - e1) by (unfold n2; lia).
  destruct He3 as [He3 Hn2].
  assert (Hm3 : 0 <= m2 / 2 ^ n2 <= 2500 * 2 ^ (- (e1 + n2))).
  { split; [apply Z.div_pos; [lia | apply Z.pow_pos_nonneg; lia] |].
    assert (Hdiv : 2500 * 2 ^ (- e1)
                   = 2500 * 2 ^ (- (e1 + n2)) * 2 ^ n2).
    { rewrite <- Z.mul_assoc, <- Z.pow_add_r by lia.
      f_equal. f_equal. lia. }
    rewrite <- (Z.div_mul (2500 * 2 ^ (- (e1 + n2))) (2 ^ n2))
      by (apply Z.pow_nonzero; lia).
    rewrite <- Hdiv.
    apply Z.div_le_mono; [apply Z.pow_pos_nonneg; lia | lia]. }
  destruct (m2 / 2 ^ n2) as [| p | p]; [left; reflexivity | | lia].
  right. exists p, (e1 + n2).
  assert (Hle : (e1 + n2 <=? F32.emax - F32.prec) = true).
  { apply Z.leb_le. unfold F32.emax, F32.prec. lia. }
  rewrite Hle. split; [reflexivity |]. split; [exact He3 | lia].
Qed.


Lemma iter_xO_puissance (p d : positive) :
  Z.pos (Pos.iter xO p d) = Z.pos p * 2 ^ Z.pos d.
Proof.
  induction d as [| d IH] using Pos.peano_ind.
  - cbn [Pos.iter]. change (2 ^ 1) with 2. lia.
  - rewrite Pos.iter_succ, Pos2Z.inj_succ, Z.pow_succ_r by lia.
    change (Z.pos (Pos.iter xO p d)~0) with (2 * Z.pos (Pos.iter xO p d)).
    rewrite IH. lia.
Qed.

(** The sum of 5500 and of a positive number of value at most 2500 and
    of exponent at most -12 lies from 5500 to 8000, both included. *)
Lemma somme_bornee (mx : positive) (ex : Z) :
  ex <= -12 ->
  Z.pos mx <= 2500 * 2 ^ (- ex) ->
  exists m,
    F32.add (S754_finite false mx ex) (S754_finite false 11264000 (-11))
    = S754_finite false m (-11)
    /\ 11264000 <= Z.pos m <= 16384000.
Proof.
  intros Hex Hmx. unfold F32.add, SFadd. cbv zeta.
  rewrite Z.min_l by lia.
  unfold shl_align at 1. rewrite Z.sub_diag. cbn [fst cond_Zopp].
  unfold shl_align at 1.
  destruct (ex - -11) as [| d | d] eqn:Ed; try lia.
  cbn [fst cond_Zopp].
  set (k := Z.pos d) in *.
  assert (Hk : k = -11 - ex) by (unfold k; lia).
  change (Z.pos mx + Z.pos (Pos.iter xO 11264000%positive d))
    with (Z.pos (mx + Pos.iter xO 11264000%positive d)).
  cbn [binary_normalize]. unfold binary_round.
  set (M := (mx + Pos.iter xO 11264000%positive d)%positive).
  assert (EM : Z.pos M = Z.pos mx + 11264000 * 2 ^ k).
  { unfold M. rewrite Pos2Z.inj_add, iter_xO_puissance. reflexivity. }
  assert (Hpk : 0 < 2 ^ k) by (apply Z.pow_pos_nonneg; lia).
  assert (Hmx' : Z.pos mx <= 5120000 * 2 ^ k).
  { replace (- ex) with (Z.succ k + 10) in Hmx by lia.
    rewrite Z.pow_add_r, Z.pow_succ_r in Hmx by lia.
    change (2 ^ 10) with 1024 in Hmx. lia. }
  assert (Hdig : Z.pos (digits2_pos M) = 24 + k).
  { apply Z.le_antisymm.
    - apply digits2_pos_majore. rewrite Z.pow_add_r by lia.
      change (2 ^ 24) with 16777216. lia.
    - apply digits2_pos_minore.
      replace (24 + k - 1) with (23 + k) by lia.
      rewrite Z.pow_add_r by lia. change (2 ^ 23) with 8388608. lia. }
  assert (Hf : fexp F32.prec F32.emax (Z.pos (digits2_pos M) + ex) = -11).
  { rewrite Hdig. unfold fexp, emin, F32.prec, F32.emax. lia. }
  rewrite Hf. unfold shl_align.
  destruct (-11 - ex) as [| q | q] eqn:Eq; try lia.
  destruct (binary_round_aux_forme M ex) as (m2 & Hm2 & Hexact & Hres).
  cbv zeta in Hres. rewrite Hres. clear Hres.
  rewrite Hf in Hm2, Hexact |- *.
  replace (Z.max 0 (-11 - ex)) with k in * by lia.
  replace (ex + k) with (-11) by lia.
  assert (Hq : Z.pos M / 2 ^ k = 11264000 + Z.pos mx / 2 ^ k).
  { rewrite EM, Z.add_comm. rewrite Z.div_add_l by lia. lia. }
  rewrite Hq in Hm2, Hexact.
  assert (Hquot : 0 <= Z.pos mx / 2 ^ k <= 5120000).
  { split; [apply Z.div_pos; lia |].
    apply Z.div_le_upper_bound; lia. }
  assert (Hm2' : 11264000 <= m2 <= 16384000).
  { split; [lia |].
    destruct (Z.eq_dec (Z.pos mx / 2 ^ k) 5120000) as [Eq5 | Hne];
      [| lia].
    assert (Hz : Z.pos M mod 2 ^ k = 0).
    { rewrite EM, Z.mod_add by lia.
      pose proof (Z.div_mod (Z.pos mx) (2 ^ k) ltac:(lia)) as Hdm.
      pose proof (Z.mod_pos_bound (Z.pos mx) (2 ^ k) Hpk).
      rewrite Eq5 in Hdm. lia. }
    rewrite (Hexact Hz). lia. }
  destruct m2 as [| p | p]; try lia.
  assert (Hdp : Z.pos (digits2_pos p) = 24).
  { apply Z.le_antisymm.
    - apply digits2_pos_majore. change (2 ^ 24) with 16777216. lia.
    - apply digits2_pos_minore. change (2 ^ (24 - 1)) with 8388608. lia. }
  cbn [Zdigits2]. rewrite Hdp.
  change (Z.max 0 (fexp F32.prec F32.emax (24 + -11) - -11)) with 0.
  change (2 ^ 0) with 1. rewrite Z.div_1_r.
  exists p. split; [reflexivity | exact Hm2'].
Qed.

(** ** The draw of the alert current *)

Lemma uniform_real_alerte_bornes (u : F32.float) :
  unite u = true ->
  exists m,
    uniform_real_de (F32.of_Z 5500) (F32.of_Z 8000) u
    = S754_finite false m (-11)
    /\ 11264000 <= Z.pos m <= 16384000.
Proof.
  intros Hu. unfold uniform_real_de.
  replace (F32.sub (F32.of_Z 8000) (F32.of_Z 5500))
    with (S754_finite false 10240000 (-12)) by (vm_compute; reflexivity).
  change (F32.of_Z 5500) with (S754_finite false 11264000 (-11)).
  destruct (unite_forme u Hu) as [[s ->] | (m & e & -> & He & Hm)].
  - exists 11264000%positive. split; [reflexivity | lia].
  - destruct (produit_borne m e He Hm) as [-> | (mx & ex & -> & Hex & Hmx)].
    + exists 11264000%positive. split; [reflexivity | lia].
    + apply somme_bornee; assumption.
Qed.

Lemma alerte_tronquee_bornes (m : positive) :
  11264000 <= Z.pos m <= 16384000 ->
  5500 <= uint16_of_float (S754_finite false m (-11)) <= 8000.
Proof.
  intros Hm.
  unfold uint16_of_float, cvttss2si, F32.trunc.
  rewrite Z.shiftr_div_pow2 by discriminate.
  change (2 ^ 11) with 2048.
  assert (Hq : 5500 <= Z.pos m / 2048 <= 8000).
  { split.
    - apply Z.div_le_lower_bound; lia.
    - apply Z.div_le_upper_bound; lia. }
  generalize dependent (Z.pos m / 2048). intros q Hq.
  assert (E1 : (- 2 ^ 31 <=? q) = true) by (apply Z.leb_le; lia).
  assert (E2 : (q <? 2 ^ 31) = true) by (apply Z.ltb_lt; lia).
  rewrite E1, E2. cbn [andb].
  rewrite Z.mod_small by lia. exact Hq.
Qed.

End F32Bornes.

(* ------------------------------------------------------------------------ *)
(** * The canonical draw of an engine word *)
(* ------------------------------------------------------------------------ *)

Module F32Canonique.
Import Simulateur EssaisSimulateur F32Arrondi F32Bornes.

Lemma digits2_pos_egal (p : positive) (n : Z) :
  2 ^ (n - 1) <= Z.pos p < 2 ^ n -> Z.pos (digits2_pos p) = n.
Proof.
  intros [Hlo Hhi]. apply Z.le_antisymm.
  - apply digits2_pos_majore. exact Hhi.
  - apply digits2_pos_minore. exact Hlo.
Qed.

(** A mantissa of 24 digits at an exponent of the normal range is left
    as it is by the rounding. *)
Lemma binary_round_aux_normal (m : positive) (e : Z) :
  Z.pos (digits2_pos m) = 24 ->
  -149 <= e <= 104 ->
  binary_round_aux F32.prec F32.emax false (Z.pos m) e loc_Exact
  = S754_finite false m e.
Proof.
  intros Hd He.
  destruct (binary_round_aux_forme m e) as (m2 & Hm2 & Hexact & Hres).
  cbv zeta in Hres. rewrite Hres. clear Hres.
  assert (Hn1 : Z.max 0 (fexp F32.prec F32.emax (Z.pos (digits2_pos m) + e)
                         - e) = 0).
  { rewrite Hd. unfold fexp, emin, F32.prec, F32.emax. lia. }
  rewrite Hn1 in *. change (2 ^ 0) with 1 in *.
  rewrite Z.div_1_r in *. rewrite Z.add_0_r.
  rewrite (Hexact (Z.mod_1_r _)). cbn [Zdigits2]. rewrite Hn1.
  change (2 ^ 0) with 1. rewrite Z.div_1_r, Z.add_0_r.
  assert (Hle : (e <=? F32.emax - F32.prec) = true).
  { apply Z.leb_le. unfold F32.emax, F32.prec. lia. }
  rewrite Hle. reflexivity.
Qed.

(** A mantissa of [24 + k] digits whose low [k] bits are zero. *)
Lemma binary_round_aux_exact (m : positive) (k : positive) (e : Z) :
  Z.pos (digits2_pos m) = 24 ->
  -149 <= e + Z.pos k <= 104 ->
  binary_round_aux F32.prec F32.emax false
    (Z.pos (Pos.iter xO m k)) e loc_Exact
  = S754_finite false m (e + Z.pos k).
Proof.
  intros Hd He.
  pose proof (digits2_pos_bornes m) as Hb. rewrite Hd in Hb.
  change (2 ^ (24 - 1)) with 8388608 in Hb.
  change (2 ^ 24) with 16777216 in Hb.
  assert (Hpk : 0 < 2 ^ Z.pos k) by (apply Z.pow_pos_nonneg; lia).
  assert (HdM : Z.pos (digits2_pos (Pos.iter xO m k)) = 24 + Z.pos k).
  { apply digits2_pos_egal. rewrite iter_xO_puissance.
    replace (24 + Z.pos k - 1) with (23 + Z.pos k) by lia.
    rewrite !Z.pow_add_r by lia.
    change (2 ^ 23) with 8388608. change (2 ^ 24) with 16777216. nia. }
  destruct (binary_round_aux_forme (Pos.iter xO m k) e)
    as (m2 & Hm2 & Hexact & Hres).
  cbv zeta in Hres. rewrite Hres. clear Hres.
  assert (Hn1 : Z.max 0 (fexp F32.prec F32.emax
                           (Z.pos (digits2_pos (Pos.iter xO m k)) + e)
                         - e) = Z.pos k).
  { rewrite HdM. unfold fexp, emin, F32.prec, F32.emax. lia. }
  rewrite Hn1 in *. rewrite iter_xO_puissance in *.
  rewrite Z.div_mul in * by lia.
  assert (Hnz : 2 ^ Z.pos k <> 0) by lia.
  rewrite (Hexact (Z.mod_mul (Z.pos m) (2 ^ Z.pos k) Hnz)).
  cbn [Zdigits2]. rewrite Hd.
  assert (Hn2 : Z.max 0 (fexp F32.prec F32.emax (24 + (e + Z.pos k))
                         - (e + Z.pos k)) = 0).
  { unfold fexp, emin, F32.prec, F32.emax. lia. }
  rewrite Hn2. change (2 ^ 0) with 1. rewrite Z.div_1_r, Z.add_0_r.
  assert (Hle : (e + Z.pos k <=? F32.emax - F32.prec) = true).
  { apply Z.leb_le. unfold F32.emax, F32.prec. lia. }
  rewrite Hle. reflexivity.
Qed.


(** ** Conversion of an engine word *)

Lemma of_Z_forme (p : positive) :
  Z.pos p < 2 ^ 32 ->
  exists m e,
    F32.of_Z (Z.pos p) = S754_finite false m e
    /\ Z.pos (digits2_pos m) = 24 /\ -23 <= e <= 9.
Proof.
  intros Hp.
  unfold F32.of_Z. cbn [binary_normalize]. unfold binary_round.
  pose proof (digits2_pos_bornes p) as Hb.
  pose proof (digits2_pos_majore p 32 Hp) as Hd32.
  set (d := Z.pos (digits2_pos p)) in *.
  assert (Hd1 : 1 <= d) by (unfold d; lia).
  assert (Hf : fexp F32.prec F32.emax (d + 0) = d - 24).
  { unfold fexp, emin, F32.prec, F32.emax. lia. }
  rewrite Hf. unfold shl_align.
  destruct (d - 24 - 0) as [| q | k] eqn:Ek.
  - (* 24 digits *)
    assert (Hd : d = 24) by lia.
    exists p, 0. split; [| split; [exact Hd | lia]].
    apply binary_round_aux_normal; [exact Hd | lia].
  - (* more than 24 digits *)
    destruct (binary_round_aux_forme p 0) as (m2 & Hm2 & _ & Hres).
    cbv zeta in Hres. rewrite Hres. clear Hres.
    fold d in Hm2 |- *. rewrite Hf in Hm2 |- *.
    replace (Z.max 0 (d - 24 - 0)) with (d - 24) in * by lia.
    rewrite Z.add_0_l.
    assert (Hq : 2 ^ 23 <= Z.pos p / 2 ^ (d - 24) < 2 ^ 24).
    { assert (Hpk : 0 < 2 ^ (d - 24)) by (apply Z.pow_pos_nonneg; lia).
      split.
      - apply Z.div_le_lower_bound; [exact Hpk |].
        rewrite Z.mul_comm, <- Z.pow_add_r by lia.
        replace (23 + (d - 24)) with (d - 1) by lia. exact (proj1 Hb).
      - apply Z.div_lt_upper_bound; [exact Hpk |].
        rewrite <- Z.pow_add_r by lia.
        replace (d - 24 + 24) with d by lia. exact (proj2 Hb). }
    change (2 ^ 23) with 8388608 in Hq.
    change (2 ^ 24) with 16777216 in Hq.
    destruct m2 as [| m | m]; try lia.
    destruct (Z.eq_dec (Z.pos m) 16777216) as [E | Hne].
    + injection E as ->. cbn [Zdigits2].
      change (Z.pos (digits2_pos 16777216)) with 25.
      assert (Hn2 : Z.max 0 (fexp F32.prec F32.emax (25 + (d - 24))
                             - (d - 24)) = 1).
      { unfold fexp, emin, F32.prec, F32.emax. lia. }
      rewrite Hn2. change (16777216 / 2 ^ 1) with (Z.pos 8388608).
      cbv beta iota.
      assert (Hle : (d - 24 + 1 <=? F32.emax - F32.prec) = true).
      { apply Z.leb_le. unfold F32.emax, F32.prec. lia. }
      rewrite Hle. exists 8388608%positive, (d - 24 + 1).
      split; [reflexivity |]. split; [reflexivity | lia].
    + assert (Hdm : Z.pos (digits2_pos m) = 24).
      { apply digits2_pos_egal. change (2 ^ (24 - 1)) with 8388608.
        change (2 ^ 24) with 16777216. lia. }
      cbn [Zdigits2]. rewrite Hdm.
      assert (Hn2 : Z.max 0 (fexp F32.prec F32.emax (24 + (d - 24))
                             - (d - 24)) = 0).
      { unfold fexp, emin, F32.prec, F32.emax. lia. }
      rewrite Hn2. change (2 ^ 0) with 1. rewrite Z.div_1_r, Z.add_0_r.
      assert (Hle : (d - 24 <=? F32.emax - F32.prec) = true).
      { apply Z.leb_le. unfold F32.emax, F32.prec. lia. }
      rewrite Hle. exists m, (d - 24).
      split; [reflexivity |]. split; [exact Hdm | lia].
  - (* fewer than 24 digits *)
    exists (Pos.iter xO p k), (d - 24).
    assert (Hdm : Z.pos (digits2_pos (Pos.iter xO p k)) = 24).
    { apply digits2_pos_egal. rewrite iter_xO_puissance.
      assert (Hk : Z.pos k = 24 - d) by lia. rewrite Hk.
      assert (Hpk : 0 < 2 ^ (24 - d)) by (apply Z.pow_pos_nonneg; lia).
      replace (24 - 1) with (d - 1 + (24 - d)) by lia.
      replace (2 ^ 24) with (2 ^ d * 2 ^ (24 - d))
        by (rewrite <- Z.pow_add_r by lia; f_equal; lia).
      rewrite Z.pow_add_r by lia. nia. }
    split; [| split; [exact Hdm | lia]].
    apply binary_round_aux_normal; [exact Hdm | lia].
Qed.

Lemma mul_un (m : positive) (e : Z) :
  Z.pos (digits2_pos m) = 24 ->
  -126 <= e <= 104 ->
  F32.mul (S754_finite false m e) (F32.of_Z 1) = S754_finite false m e.
Proof.
  intros Hd He.
  change (F32.of_Z 1) with (S754_finite false 8388608 (-23)).
  unfold F32.mul, SFmul. cbn [xorb].
  replace (m * 8388608)%positive with (Pos.iter xO m 23).
  - rewrite binary_round_aux_exact by (try exact Hd; lia).
    f_equal. lia.
  - apply Pos2Z.inj. rewrite iter_xO_puissance, Pos2Z.inj_mul.
    reflexivity.
Qed.

Lemma div_2_32 (m : positive) (e : Z) :
  Z.pos (digits2_pos m) = 24 ->
  -23 <= e <= 9 ->
  F32.div (S754_finite false m e) (F32.of_Z (2 ^ 32))
  = S754_finite false m (e - 32).
Proof.
  intros Hd He.
  change (F32.of_Z (2 ^ 32)) with (S754_finite false 8388608 9).
  unfold F32.div, SFdiv, SFdiv_core_binary. cbn [xorb Zdigits2].
  rewrite Hd. change (Z.pos (digits2_pos 8388608)) with 24.
  assert (He' : Z.min (fexp F32.prec F32.emax (24 + e - (24 + 9))) (e - 9)
                = e - 33).
  { unfold fexp, emin, F32.prec, F32.emax. lia. }
  rewrite He'. replace (e - 9 - (e - 33)) with 24 by lia.
  cbv zeta.
  assert (Hdiv : Z.div_eucl (Z.shiftl (Z.pos m) 24) 8388608
                 = (Z.pos (Pos.iter xO m 1), 0)).
  { rewrite Z.shiftl_mul_pow2 by lia.
    pose proof (Z.div_eucl_eq (Z.pos m * 2 ^ 24) 8388608 ltac:(lia))
      as Heq.
    pose proof (Z.mod_pos_bound (Z.pos m * 2 ^ 24) 8388608 ltac:(lia))
      as Hmod.
    unfold Z.modulo in Hmod.
    destruct (Z.div_eucl (Z.pos m * 2 ^ 24) 8388608) as [q r].
    change (2 ^ 24) with 16777216 in Heq.
    assert (Hr : r = 0) by lia. assert (Hq : q = 2 * Z.pos m) by lia.
    subst q r. reflexivity. }
  rewrite Hdiv.
  change (new_location 8388608 0) with loc_Exact.
  rewrite binary_round_aux_exact by (try exact Hd; lia).
  f_equal. lia.
Qed.

(** ** The canonical draw of libstdc++ *)

Lemma generate_canonical_unite (mot : Z) :
  0 <= mot < 2 ^ 32 -> unite (generate_canonical mot) = true.
Proof.
  intros Hmot. destruct mot as [| p | p]; [reflexivity | | lia].
  destruct (of_Z_forme p (proj2 Hmot)) as (m & e & Ef & Hd & He).
  unfold generate_canonical. cbv zeta.
  rewrite Ef, mul_un by (try exact Hd; lia).
  change (F32.add zero (S754_finite false m e))
    with (S754_finite false m e).
  rewrite div_2_32 by (try exact Hd; lia).
  change (F32.of_Z 1) with (S754_finite false 8388608 (-23)).
  unfold F32.leb, SFleb, SFcompare.
  destruct (Z.compare_spec (-23) (e - 32)) as [E | L | G].
  - change (Pos.compare_cont Eq 8388608 m) with (Pos.compare 8388608 m).
    pose proof (digits2_pos_bornes m) as [Hlo _]. rewrite Hd in Hlo.
    change (2 ^ (24 - 1)) with (Z.pos 8388608) in Hlo.
    destruct (Pos.compare_spec 8388608 m) as [E' | L' | G'];
      [reflexivity | reflexivity | lia].
  - lia.
  - unfold unite. cbn [valid_binary]. unfold bounded, canonical_mantissa.
    rewrite Hd.
    assert (H1 : (fexp F32.prec F32.emax (24 + (e - 32)) =? e - 32) = true).
    { apply Z.eqb_eq. unfold fexp, emin, F32.prec, F32.emax. lia. }
    assert (H2 : (e - 32 <=? F32.emax - F32.prec) = true).
    { apply Z.leb_le. unfold F32.emax, F32.prec. lia. }
    rewrite H1, H2.
    change (F32.of_Z 1) with (S754_finite false 8388608 (-23)).
    unfold F32.leb, F32.ltb, SFleb, SFltb, SFcompare, zero.
    destruct (Z.compare_spec (e - 32) (-23)) as [E' | L' | G'];
      [lia | reflexivity | lia].
Qed.

End F32Canonique.

(* ------------------------------------------------------------------------ *)
(** * Properties of the simulator *)
(* ------------------------------------------------------------------------ *)

Module SimulateurProps.
Import Simulateur EssaisSimulateur.

Section AvecGenerateur.

Variable Rng : Type.
Variable uniform_real : F32.float -> F32.float -> Rng -> F32.float * Rng.
Variable uniform_int : Z -> Z -> Rng -> Z * Rng.
Variable normal : F32.float -> F32.float -> Rng -> F32.float * Rng.

Local Notation "'simuler'" := (simuler_axe Rng uniform_real normal).
Local Notation "'boucle'" := (boucle_axes Rng uniform_real normal).
Local Notation "'generer'" :=
  (generer_trame Rng uniform_real uniform_int normal).

(** ** Layout of the generated frame *)

(** One turn of the loop ticks the axis and writes six bytes: position,
    velocity and current of the axis, each low byte first. *)
Lemma boucle_axes_tour (sim : Simulateur Rng) (axe_alerte courant_alerte : Z)
    (k i : nat) :
  let a := axe_de (axes Rng (simuler sim i)) i in
  snd (boucle sim axe_alerte courant_alerte (S k) i)
  = ecrire_uint16_le
      (uint16_of_int16
         (int16_of_float (F32.mul (position_deg a) (F32.of_Z 100))))
    ++ ecrire_uint16_le
         (uint16_of_int16
            (int16_of_float (F32.mul (vitesse_deg_s a) (F32.of_Z 10))))
    ++ ecrire_uint16_le
         (courant_ecrit (simuler sim i) axe_alerte courant_alerte i)
    ++ snd (boucle (simuler sim i) axe_alerte courant_alerte k (S i)).
Proof.
  cbn [boucle_axes].
  destruct (boucle_axes Rng uniform_real normal
              (simuler_axe Rng uniform_real normal sim i)
              axe_alerte courant_alerte k (S i)) as [sim' suite].
  cbn [snd]. unfold courant_ecrit.
  rewrite <- !app_assoc. reflexivity.
Qed.

Lemma boucle_axes_length (axe_alerte courant_alerte : Z) (n : nat) :
  forall (sim : Simulateur Rng) (i : nat),
    List.length (snd (boucle sim axe_alerte courant_alerte n i))
    = (6 * n)%nat.
Proof.
  induction n as [| n IH]; intros sim i.
  - reflexivity.
  - rewrite boucle_axes_tour. unfold ecrire_uint16_le.
    cbn [app List.length]. rewrite IH. lia.
Qed.

(** [generer_trame] writes 39 bytes, the first two being the marker. *)
Lemma generer_trame_length (sim : Simulateur Rng) :
  Z.of_nat (List.length (snd (generer sim))) = TAILLE_TRAME.
Proof.
  unfold generer_trame.
  destruct (uniform_real zero (F32.of_Z 1) _) as [x g].
  cbn [prob_alerte avec_rng avec_sequence rng].
  destruct (F32.ltb x (prob_alerte Rng sim));
    [destruct (uniform_int 0 (Z.of_nat NB_AXES - 1) g) as [axe g1];
     destruct (uniform_real (F32.of_Z 5500) (F32.of_Z 8000) g1) as [c g2] |];
  match goal with
  | |- context [boucle_axes Rng uniform_real normal ?s ?ka ?ca NB_AXES 0%nat] =>
      pose proof (boucle_axes_length ka ca NB_AXES s 0%nat) as Hlen;
      destruct (boucle_axes Rng uniform_real normal s ka ca NB_AXES 0%nat)
        as [sim' octets]
  end.
  all: cbn [snd] in *; cbn [app List.length]; rewrite Hlen; reflexivity.
Qed.

(** ** What a tick guarantees *)

Lemma axe_ecrit_length (l : list EtatAxe) (a : EtatAxe) :
  forall axe, List.length (axe_ecrit l axe a) = List.length l.
Proof.
  induction l as [| b l IH]; intros [| axe]; simpl; try reflexivity.
  rewrite IH. reflexivity.
Qed.

Lemma axe_de_ecrit (l : list EtatAxe) (a : EtatAxe) :
  forall axe, (axe < List.length l)%nat -> axe_de (axe_ecrit l axe a) axe = a.
Proof.
  induction l as [| b l IH]; intros [| axe] Hlt; simpl in *; try lia.
  - reflexivity.
  - apply IH. lia.
Qed.

Lemma nouvelle_cible_length (sim : Simulateur Rng) (axe : nat) :
  List.length (axes Rng (nouvelle_cible Rng uniform_real sim axe))
  = List.length (axes Rng sim).
Proof.
  unfold nouvelle_cible.
  destruct (uniform_real _ _ (rng Rng sim)) as [x g].
  cbn [axes avec_rng avec_axes]. apply axe_ecrit_length.
Qed.

(** The limits of an axis are ordered, as [float] comparisons see them. *)
Lemma limites_ordonnees (axe : nat) :
  (axe < NB_AXES)%nat ->
  let bas := case_de POSITION_MIN_DEG axe in
  let haut := case_de POSITION_MAX_DEG axe in
  F32.ltb bas bas = false /\ F32.gtb bas haut = false
  /\ F32.ltb haut bas = false /\ F32.gtb haut haut = false.
Proof.
  intros Hlt.
  do 6 (destruct axe as [| axe]; [vm_compute; repeat split |]).
  unfold NB_AXES in Hlt. lia.
Qed.

Ltac courant_positif :=
  match goal with
  | |- F32.ltb (if ?c then zero else _) zero = false =>
      let Hc := fresh "Hc" in
      destruct c eqn:Hc; [reflexivity | exact Hc]
  end.

(** After a tick of an axis, whatever the state before and whatever the
    draws: the position is neither below the lower limit nor above the
    upper limit of the axis, and the base current is not below zero, as
    [float] comparisons see them (a comparison with a NaN is false). *)
Lemma simuler_axe_butees (sim : Simulateur Rng) (axe : nat) :
  (axe < NB_AXES)%nat ->
  List.length (axes Rng sim) = NB_AXES ->
  let a := axe_de (axes Rng (simuler sim axe)) axe in
  F32.ltb (position_deg a) (case_de POSITION_MIN_DEG axe) = false
  /\ F32.gtb (position_deg a) (case_de POSITION_MAX_DEG axe) = false
  /\ F32.ltb (courant_base_a a) zero = false.
Proof.
  intros Haxe Hlen.
  destruct (limites_ordonnees axe Haxe) as (Hbb & Hbh & Hhb & Hhh).
  unfold simuler_axe.
  match goal with
  | |- context [let '(s, e) := ?etape in _] => set (choix := etape)
  end.
  assert (Hchoix : List.length (axes Rng (fst choix)) = NB_AXES).
  { subst choix.
    destruct (F32.ltb _ (F32.of_Z 1)); [| exact Hlen].
    destruct (uniform_real zero (F32.of_Z 1) (rng Rng sim)) as [x g].
    destruct (F32.ltb x (F32.lit 2 100)); cbn [fst].
    - rewrite nouvelle_cible_length. exact Hlen.
    - exact Hlen. }
  destruct choix as [sim1 erreur]. cbn [fst] in Hchoix.
  cbv zeta.
  match goal with
  | |- context [match (if ?c then _ else _) with pair _ _ => _ end] =>
      destruct c eqn:Hbas
  end; cbv beta iota.
  - rewrite Hbh. cbv beta iota.
    destruct (normal _ _ (rng Rng sim1)) as [b g].
    cbn [axes avec_rng avec_axes].
    rewrite axe_de_ecrit by (rewrite Hchoix; exact Haxe).
    cbn [position_deg courant_base_a].
    split; [exact Hbb |]. split; [exact Hbh |].
    courant_positif.
  - match goal with
    | |- context [match (if ?c then _ else _) with pair _ _ => _ end] =>
        destruct c eqn:Hhaut
    end; cbv beta iota;
    destruct (normal _ _ (rng Rng sim1)) as [b g];
    cbn [axes avec_rng avec_axes];
    rewrite axe_de_ecrit by (rewrite Hchoix; exact Haxe);
    cbn [position_deg courant_base_a].
    + split; [exact Hhb |]. split; [exact Hhh |].
      courant_positif.
    + split; [exact Hbas |]. split; [exact Hhaut |].
      courant_positif.
Qed.

(** ** The injected alert *)

(** On the axis chosen for the alert, the two current bytes are those of
    [courant_alerte], whatever the motion model computed. *)
Lemma boucle_axes_alerte (courant_alerte : Z) (k n : nat) :
  forall (sim : Simulateur Rng) (i : nat),
    (i <= k < i + n)%nat ->
    let octets := snd (boucle sim (Z.of_nat k) courant_alerte n i) in
    nth (6 * (k - i) + 4) octets 0 = Z.land courant_alerte 0xFF
    /\ nth (6 * (k - i) + 5) octets 0
       = Z.land (Z.shiftr courant_alerte 8) 0xFF.
Proof.
  induction n as [| n IH]; intros sim i Hk octets; [lia |].
  subst octets.
  rewrite boucle_axes_tour. unfold ecrire_uint16_le. cbn [app].
  destruct (Nat.eq_dec k i) as [-> | Hne].
  - rewrite Nat.sub_diag. cbn [Nat.mul Nat.add nth].
    unfold courant_ecrit. rewrite Z.eqb_refl. split; reflexivity.
  - replace (6 * (k - i) + 4)%nat
      with (S (S (S (S (S (S (6 * (k - S i) + 4))))))) by lia.
    replace (6 * (k - i) + 5)%nat
      with (S (S (S (S (S (S (6 * (k - S i) + 5))))))) by lia.
    cbn [nth]. apply IH. lia.
Qed.

Lemma ecrire_uint16_le_valeur (valeur : Z) :
  0 <= valeur < 2 ^ 16 ->
  Z.land valeur 0xFF + 256 * Z.land (Z.shiftr valeur 8) 0xFF = valeur.
Proof.
  intros Hv.
  change 0xFF with (Z.ones 8).
  rewrite !Z.land_ones, Z.shiftr_div_pow2 by lia.
  change (2 ^ 8) with 256.
  assert (Hq : 0 <= valeur / 256 < 256).
  { split.
    - apply Z.div_pos; lia.
    - apply Z.div_lt_upper_bound; lia. }
  rewrite (Z.mod_small (valeur / 256)) by lia.
  pose proof (Z.div_mod valeur 256 ltac:(lia)). lia.
Qed.

Lemma masque_octet (valeur : Z) : 0 <= Z.land valeur 0xFF <= 255.
Proof.
  assert (E : Z.land valeur 0xFF = valeur mod 256).
  { change 0xFF with (Z.ones 8). rewrite Z.land_ones by lia.
    reflexivity. }
  rewrite E.
  pose proof (Z.mod_pos_bound valeur 256 ltac:(reflexivity)). lia.
Qed.

Lemma bande_alerte_haute (brut : Z) :
  5500 <= brut <= 8000 -> courant_haut brut = true.
Proof.
  intros Hb.
  assert (Htous :
    forallb courant_haut
      (map (fun n => 5500 + Z.of_nat n) (seq 0 (Z.to_nat 2501))) = true)
    by (vm_compute; reflexivity).
  rewrite forallb_forall in Htous. apply Htous.
  replace brut with (5500 + Z.of_nat (Z.to_nat (brut - 5500))) by lia.
  apply (in_map (fun n => 5500 + Z.of_nat n)), in_seq. lia.
Qed.

(** The two current bytes of the axis drawn for an alert, at offsets
    7 + 6k and 8 + 6k of the frame, are the low and the high byte of the
    current drawn for it, truncated. *)
Lemma alerte_ecrite :
  forall (sim : Simulateur Rng) (x c : F32.float) (k : Z) (g1 g2 g3 : Rng),
    uniform_real zero (F32.of_Z 1) (rng Rng sim) = (x, g1) ->
    F32.ltb x (prob_alerte Rng sim) = true ->
    uniform_int 0 5 g1 = (k, g2) ->
    0 <= k <= 5 ->
    uniform_real (F32.of_Z 5500) (F32.of_Z 8000) g2 = (c, g3) ->
    let octets := snd (generer sim) in
    nth (Z.to_nat (7 + 6 * k)) octets 0
    = Z.land (uint16_of_float c) 0xFF
    /\ nth (Z.to_nat (8 + 6 * k)) octets 0
       = Z.land (Z.shiftr (uint16_of_float c) 8) 0xFF.
Proof.
  intros sim x c k g1 g2 g3 Hx Hlt Hk Hk5 Hc octets.
  subst octets. unfold generer_trame.
  cbn [rng avec_rng avec_sequence prob_alerte]. rewrite Hx.
  cbn [rng avec_rng avec_sequence prob_alerte]. rewrite Hlt.
  change (Z.of_nat NB_AXES - 1) with 5. rewrite Hk, Hc.
  match goal with
  | |- context [boucle_axes Rng uniform_real normal ?s k ?ca NB_AXES 0%nat] =>
      pose proof (boucle_axes_alerte ca (Z.to_nat k) NB_AXES s 0%nat)
        as Hal;
      rewrite Z2Nat.id in Hal by lia;
      destruct (boucle_axes Rng uniform_real normal s k ca NB_AXES 0%nat)
        as [sim' corps]
  end.
  cbn [snd] in *.
  specialize (Hal ltac:(unfold NB_AXES; lia)).
  rewrite Nat.sub_0_r in Hal. destruct Hal as [H0 H1].
  replace (Z.to_nat (7 + 6 * k)) with (3 + (6 * Z.to_nat k + 4))%nat by lia.
  replace (Z.to_nat (8 + 6 * k)) with (3 + (6 * Z.to_nat k + 5))%nat by lia.
  change ([SYNC_H; SYNC_L; sequence Rng sim] ++ corps)
    with (SYNC_H :: SYNC_L :: sequence Rng sim :: corps).
  cbn [nth Nat.add]. split; assumption.
Qed.

End AvecGenerateur.

(** ** The alert current *)

Section AlerteInjectee.

Variable Rng : Type.
Variable moteur : Rng -> Z * Rng.
Variable uniform_int : Z -> Z -> Rng -> Z * Rng.
Variable normal : F32.float -> F32.float -> Rng -> F32.float * Rng.

(** C10: with the real distributions computed as libstdc++ does from
    the words of an engine of 32 bits, when the alert chance drawn by
    [generer_trame] is below [prob_alerte] and the axis [k] is drawn
    among 0..5, then whatever word [mot] the engine gives for the
    current, the two cells of the current of axis [k] in the frame
    (offsets 7 + 6k and 8 + 6k) are bytes that hold, low byte first, the
    truncation of the current drawn: a raw current from 5500 to 8000 mA,
    8000 included, which converts to at least 5.5 A, is strictly above
    the default threshold 5.0 A, and is an alert for [est_en_alerte] at
    that threshold. *)
Theorem alerte_injectee_au_dessus_du_seuil :
  forall (sim : Simulateur Rng) (x : F32.float) (k mot : Z)
         (g1 g2 g3 : Rng),
    uniform_real_libstdcxx moteur zero (F32.of_Z 1) (rng Rng sim)
    = (x, g1) ->
    F32.ltb x (prob_alerte Rng sim) = true ->
    uniform_int 0 5 g1 = (k, g2) ->
    0 <= k <= 5 ->
    moteur g2 = (mot, g3) ->
    0 <= mot < 2 ^ 32 ->
    let c := uniform_real_de (F32.of_Z 5500) (F32.of_Z 8000)
               (generate_canonical mot) in
    let octets :=
      snd (generer_trame Rng (uniform_real_libstdcxx moteur)
             uniform_int normal sim) in
    let bas := nth (Z.to_nat (7 + 6 * k)) octets 0 in
    let haut := nth (Z.to_nat (8 + 6 * k)) octets 0 in
    let brut := bas + 256 * haut in
    0 <= bas <= 255
    /\ 0 <= haut <= 255
    /\ brut = uint16_of_float c
    /\ 5500 <= brut <= 8000
    /\ F32.leb (F32.lit 55 10) (Analyseur.courant_en_amperes brut) = true
    /\ F32.gtb (Analyseur.courant_en_amperes brut)
         Analyseur.seuil_courant_defaut = true
    /\ Analyseur.est_en_alerte (Essais.axe_courant brut)
         Analyseur.seuil_courant_defaut = true.
Proof.
  intros sim x k mot g1 g2 g3 Hx Hlt Hk Hk5 Hmot Hmot32
    c octets bas haut brut.
  assert (Hc : uniform_real_libstdcxx moteur
                 (F32.of_Z 5500) (F32.of_Z 8000) g2 = (c, g3)).
  { unfold uniform_real_libstdcxx, uniform_real_canonique, canonique_de.
    rewrite Hmot. reflexivity. }
  destruct (alerte_ecrite Rng (uniform_real_libstdcxx moteur)
              uniform_int normal sim x c k g1 g2 g3 Hx Hlt Hk Hk5 Hc)
    as [Hbas Hhaut].
  fold octets in Hbas, Hhaut. fold bas in Hbas. fold haut in Hhaut.
  assert (Hband : 5500 <= uint16_of_float c <= 8000).
  { destruct (F32Bornes.uniform_real_alerte_bornes
                (generate_canonical mot)
                (F32Canonique.generate_canonical_unite mot Hmot32))
      as (m & Em & Hm).
    unfold c. rewrite Em. apply F32Bornes.alerte_tronquee_bornes.
    exact Hm. }
  assert (Hbrut : brut = uint16_of_float c).
  { unfold brut. rewrite Hbas, Hhaut.
    apply ecrire_uint16_le_valeur. lia. }
  pose proof (bande_alerte_haute (uint16_of_float c) Hband) as Hcourant.
  unfold courant_haut in Hcourant.
  apply andb_prop in Hcourant. destruct Hcourant as [Hcourant Halerte].
  apply andb_prop in Hcourant. destruct Hcourant as [H55 H5].
  split; [rewrite Hbas; apply masque_octet |].
  split; [rewrite Hhaut; apply masque_octet |].
  rewrite Hbrut. repeat split; try assumption; lia.
Qed.

End AlerteInjectee.

(** ** The scripted engines *)

Lemma alerte_injectee_au_dessus_du_seuil_witness :
  let c := uniform_real_de (F32.of_Z 5500) (F32.of_Z 8000)
             (generate_canonical 0x12345678) in
  let octets := snd (generer_trame_mots (simulateur_alerte 0x12345678)) in
  let bas := nth (Z.to_nat (7 + 6 * 3)) octets 0 in
  let haut := nth (Z.to_nat (8 + 6 * 3)) octets 0 in
  let brut := bas + 256 * haut in
  0 <= bas <= 255
  /\ 0 <= haut <= 255
  /\ brut = uint16_of_float c
  /\ 5500 <= brut <= 8000
  /\ F32.leb (F32.lit 55 10) (Analyseur.courant_en_amperes brut) = true
  /\ F32.gtb (Analyseur.courant_en_amperes brut)
       Analyseur.seuil_courant_defaut = true
  /\ Analyseur.est_en_alerte (Essais.axe_courant brut)
       Analyseur.seuil_courant_defaut = true.
Proof.
  apply (alerte_injectee_au_dessus_du_seuil
           ScriptMots tirer_mot tirer_choix tirer_moyenne
           (simulateur_alerte 0x12345678) zero 3 0x12345678
           {| mots := 0x12345678 :: repeat 0x80000000 6; choix := [3] |}
           {| mots := 0x12345678 :: repeat 0x80000000 6; choix := [] |}
           {| mots := repeat 0x80000000 6; choix := [] |}).
  - vm_compute. reflexivity.
  - vm_compute. reflexivity.
  - reflexivity.
  - lia.
  - reflexivity.
  - lia.
Defined.

(** The engine word [0xFFFFFFFF] converts to 2^32, its canonical draw is
    the [float] next below 1, and the current drawn from it rounds to
    8000: the alert is injected on axis index 3 and the frame carries
    8000 mA there, which is not below 8000. *)
Lemma alerte_injectee_a_8000 :
  let u := generate_canonical 0xFFFFFFFF in
  let c := uniform_real_de (F32.of_Z 5500) (F32.of_Z 8000) u in
  let octets := snd (generer_trame_mots (simulateur_alerte 0xFFFFFFFF)) in
  let brut := nth 25 octets 0 + 256 * nth 26 octets 0 in
  F32.of_Z 0xFFFFFFFF = F32.of_Z (2 ^ 32)
  /\ u = S754_finite false 16777215 (-24)
  /\ c = F32.of_Z 8000
  /\ dans (F32.of_Z 5500) (F32.of_Z 8000) c = false
  /\ brut = 8000
  /\ ~ (5500 <= brut < 8000).
Proof.
  vm_compute. repeat split. intros [_ H]. discriminate H.
Qed.

(** ** Encoding then decoding *)

(** C4: the simulator at rest with its counter at 5 writes the frame of
    sequence 5 and then that of sequence 6, each with the currents 800,
    600, 400, 200, 200 and 150 mA in little-endian order; [decoder_trame]
    gives back, for both, the frame value it was handed, unchanged, and no
    status: from a zero-initialised value it yields sequence 0 and no
    marker, not the frame that was encoded. *)
Theorem decoder_trame_ne_decode_pas :
  let r1 := generer_trame_script simulateur_seq5 in
  let r2 := generer_trame_script (fst r1) in
  snd r1 = [0xAA; 0x55; 5;
            0; 0; 0; 0; 32; 3;  0; 0; 0; 0; 88; 2;  0; 0; 0; 0; 144; 1;
            0; 0; 0; 0; 200; 0;  0; 0; 0; 0; 200; 0;  0; 0; 0; 0; 150; 0]
  /\ snd r2 = [0xAA; 0x55; 6;
               0; 0; 0; 0; 32; 3;  0; 0; 0; 0; 88; 2;  0; 0; 0; 0; 144; 1;
               0; 0; 0; 0; 200; 0;  0; 0; 0; 0; 200; 0;  0; 0; 0; 0; 150; 0]
  /\ forall (autour : Z -> Z) (trame : Analyseur.Trame),
       Analyseur.decoder_trame (memoire (snd r1) autour) trame
       = (trame, None)
       /\ Analyseur.decoder_trame (memoire (snd r2) autour) trame
          = (trame, None)
       /\ Analyseur.sequence
            (fst (Analyseur.decoder_trame (memoire (snd r1) autour)
                    Essais.trame_nulle)) = 0
       /\ Analyseur.sync1
            (fst (Analyseur.decoder_trame (memoire (snd r1) autour)
                    Essais.trame_nulle)) = 0.
Proof.
  split; [vm_compute; reflexivity |].
  split; [vm_compute; reflexivity |].
  intros autour trame. repeat split.
Qed.

(** ** The motion model at low frequency *)

(** C9: at 1.9 Hz, axis index 2 starts at rest, draws the target
    [cible_fine] in its first tick and the target 200 in its second, both
    within the target range of the axis.  After the first tick the state
    is within the limits.  After the second tick the position, about
    127.5 degrees, is within the limits, so the velocity was not zeroed,
    and the velocity is 250 + 2^-16 degrees per second, above
    [VITESSE_MAX_DEG_S] = 250: the sum of the old velocity and of the
    velocity change is rounded up past the bound that was put on the
    desired velocity. *)
Theorem vitesse_au_dessus_du_maximum :
  let bas := F32.mul (case_de POSITION_MIN_DEG 2) (F32.lit 8 10) in
  let haut := F32.mul (case_de POSITION_MAX_DEG 2) (F32.lit 8 10) in
  let sim1 := simuler_axe_script simulateur_lent 2 in
  let sim2 := simuler_axe_script sim1 2 in
  let a1 := axe_de (axes Script sim1) 2 in
  let a2 := axe_de (axes Script sim2) 2 in
  dans bas haut cible_fine = true
  /\ dans bas haut (F32.of_Z 200) = true
  /\ etat_borne 2 (axe_de (axes Script simulateur_lent) 2) = true
  /\ etat_borne 2 a1 = true
  /\ F32.leb (case_de POSITION_MIN_DEG 2) (position_deg a2) = true
  /\ F32.ltb (position_deg a2) (case_de POSITION_MAX_DEG 2) = true
  /\ case_de VITESSE_MAX_DEG_S 2 = S754_finite false 16384000 (-16)
  /\ vitesse_deg_s a2 = S754_finite false 16384001 (-16)
  /\ F32.gtb (F32.abs (vitesse_deg_s a2)) (case_de VITESSE_MAX_DEG_S 2)
     = true
  /\ etat_borne 2 a2 = false.
Proof. vm_compute. repeat split. Qed.

(** With a frequency that is not a number, which the test
    [frequence <= 0] of [main] lets through, the first tick of an axis at
    rest leaves a position that is not a number either. *)
Lemma position_indefinie_sans_frequence :
  let sim := simulateur_defaut S754_nan
               {| reels := [demi; zero]; entiers_tires := [] |} in
  F32.leb S754_nan zero = false
  /\ F32.is_nan
       (position_deg (axe_de (axes Script (simuler_axe_script sim 0)) 0))
     = true
  /\ etat_borne 0 (axe_de (axes Script (simuler_axe_script sim 0)) 0)
     = false.
Proof. vm_compute. repeat split. Qed.

End SimulateurProps.

(* ------------------------------------------------------------------------ *)
(** * Facts of binary32 arithmetic used below *)
(* ------------------------------------------------------------------------ *)

Module F32Props.

Ltac compare_cas :=
  repeat match goal with
    | H : context [Z.compare ?a ?b] |- _ =>
        destruct (Z.compare_spec a b); cbn [CompOpp] in H
    | |- context [Z.compare ?a ?b] =>
        destruct (Z.compare_spec a b); cbn [CompOpp]
    | H : context [Pos.compare_cont Eq ?a ?b] |- _ =>
        change (Pos.compare_cont Eq a b) with (Pos.compare a b) in H;
        destruct (Pos.compare_spec a b); cbn [CompOpp] in H
    | |- context [Pos.compare_cont Eq ?a ?b] =>
        change (Pos.compare_cont Eq a b) with (Pos.compare a b);
        destruct (Pos.compare_spec a b); cbn [CompOpp]
    end.

(** [<] on [float] is transitive. *)
Lemma ltb_trans (x y z : F32.float) :
  F32.ltb x y = true -> F32.ltb y z = true -> F32.ltb x z = true.
Proof.
  unfold F32.ltb, SFltb, SFcompare.
  destruct x as [sx | sx | | sx mx ex];
    destruct y as [sy | sy | | sy my ey];
    destruct z as [sz | sz | | sz mz ez];
    try discriminate;
    try destruct sx; try destruct sy; try destruct sz;
    try discriminate; try reflexivity;
    intros Hxy Hyz; compare_cas; subst;
    try discriminate; try reflexivity; lia.
Qed.

(** A number is not below itself. *)
Lemma ltb_irrefl (x : F32.float) : F32.ltb x x = false.
Proof.
  unfold F32.ltb, SFltb, SFcompare.
  destruct x as [s | s | | s m e]; try destruct s; try reflexivity;
    rewrite Z.compare_refl;
    change (Pos.compare_cont Eq m m) with (Pos.compare m m);
    rewrite Pos.compare_refl; reflexivity.
Qed.

End F32Props.

(* ------------------------------------------------------------------------ *)
(** * More on the analyser *)
(* ------------------------------------------------------------------------ *)

Module AnalyseurSuite.
Import Analyseur Essais AnalyseurProps.

(** ** Search of the synchronisation bytes *)

(** X1: on a buffer of at most [INT_MAX] bytes, from a start within the
    buffer, [trouver_sync] returns either -1, and then no marker starts
    at an index from [debut] to below [taille], or the lowest such
    index. *)
Theorem trouver_sync_plus_petit_indice (mem : Z -> Z) (taille debut : Z) :
  0 <= debut <= taille ->
  taille <= INT_MAX ->
  let r := Lecture.valeur (trouver_sync mem taille debut) in
  (r = -1 /\ forall j, debut <= j < taille -> ~ paire mem j)
  \/ (debut <= r < taille /\ paire mem r
      /\ forall j, debut <= j < r -> ~ paire mem j).
Proof. intros Hb _. apply trouver_sync_valeur. exact Hb. Qed.

Lemma trouver_sync_plus_petit_indice_witness :
  let mem := memoire [0; 0xAA; 0x55; 9] (fun _ => 0) in
  let r := Lecture.valeur (trouver_sync mem 4 0) in
  (r = -1 /\ forall j, 0 <= j < 4 -> ~ paire mem j)
  \/ (0 <= r < 4 /\ paire mem r /\ forall j, 0 <= j < r -> ~ paire mem j).
Proof.
  apply (trouver_sync_plus_petit_indice
           (memoire [0; 0xAA; 0x55; 9] (fun _ => 0)) 4 0).
  - lia.
  - unfold INT_MAX. lia.
Defined.

(** X2: on a buffer of at most [INT_MAX] bytes, the indices read by
    [trouver_sync] lie between [debut] and [taille], both included; when
    a marker is found, none lies beyond the second byte of that
    marker. *)
Theorem trouver_sync_lectures (mem : Z -> Z) (taille debut : Z) :
  0 <= debut <= taille ->
  taille <= INT_MAX ->
  let res := trouver_sync mem taille debut in
  Forall (fun x => debut <= x <= taille) (Lecture.indices res)
  /\ (Lecture.valeur res <> -1 ->
      Forall (fun x => x <= Lecture.valeur res + 1) (Lecture.indices res)).
Proof.
  intros Hb _ res. split.
  - apply Forall_forall. intros x Hin.
    apply (trouver_sync_indices mem taille debut x Hb Hin).
  - intros Hr. apply Forall_forall. intros x Hin.
    unfold res, trouver_sync in *.
    apply boucle_sync_indices_trouve; [lia | exact Hr | exact Hin].
Qed.

Lemma trouver_sync_lectures_witness :
  let res := trouver_sync (memoire [0; 0xAA; 0x55; 9] (fun _ => 0)) 4 0 in
  Forall (fun x => 0 <= x <= 4) (Lecture.indices res)
  /\ (Lecture.valeur res <> -1 ->
      Forall (fun x => x <= Lecture.valeur res + 1) (Lecture.indices res)).
Proof.
  apply (trouver_sync_lectures
           (memoire [0; 0xAA; 0x55; 9] (fun _ => 0)) 4 0).
  - lia.
  - unfold INT_MAX. lia.
Defined.

(** X3: from a start at or beyond the size, and not above [INT_MAX],
    [trouver_sync] returns -1 and reads nothing. *)
Theorem trouver_sync_hors_tampon (mem : Z -> Z) (taille debut : Z) :
  0 <= taille <= debut ->
  debut <= INT_MAX ->
  trouver_sync mem taille debut = (-1, []).
Proof.
  intros Hb _. unfold trouver_sync.
  replace (Z.to_nat (taille - debut)) with 0%nat by lia.
  reflexivity.
Qed.

Lemma trouver_sync_hors_tampon_witness :
  trouver_sync (memoire [0xAA; 0x55] (fun _ => 0)) 2 2 = (-1, []).
Proof.
  apply (trouver_sync_hors_tampon (memoire [0xAA; 0x55] (fun _ => 0)) 2 2).
  - lia.
  - unfold INT_MAX. lia.
Defined.

(** X4: on a buffer of at most [INT_MAX] bytes, a search that found a
    marker at [r] finds the same marker when it is started again
    anywhere from [debut] to [r]. *)
Theorem trouver_sync_reprise (mem : Z -> Z) (taille debut reprise : Z) :
  0 <= debut <= taille ->
  taille <= INT_MAX ->
  Lecture.valeur (trouver_sync mem taille debut) <> -1 ->
  debut <= reprise <= Lecture.valeur (trouver_sync mem taille debut) ->
  Lecture.valeur (trouver_sync mem taille reprise)
  = Lecture.valeur (trouver_sync mem taille debut).
Proof.
  intros Hb _ Hr Hrep.
  destruct (trouver_sync_valeur mem taille debut Hb)
    as [[E _] | (Hr1 & Hp1 & Hlow1)]; [contradiction |].
  destruct (trouver_sync_valeur mem taille reprise ltac:(lia))
    as [[_ Hno] | (Hr2 & Hp2 & Hlow2)].
  - exfalso.
    apply (Hno (Lecture.valeur (trouver_sync mem taille debut)));
      [lia | exact Hp1].
  - destruct (Z.lt_trichotomy
                (Lecture.valeur (trouver_sync mem taille reprise))
                (Lecture.valeur (trouver_sync mem taille debut)))
      as [L | [E | G]].
    + exfalso.
      apply (Hlow1 (Lecture.valeur (trouver_sync mem taille reprise)));
        [lia | exact Hp2].
    + exact E.
    + exfalso.
      apply (Hlow2 (Lecture.valeur (trouver_sync mem taille debut)));
        [lia | exact Hp1].
Qed.

Lemma trouver_sync_reprise_witness :
  let mem := memoire [0; 0; 0xAA; 0x55; 9] (fun _ => 0) in
  Lecture.valeur (trouver_sync mem 5 1)
  = Lecture.valeur (trouver_sync mem 5 0).
Proof.
  apply (trouver_sync_reprise
           (memoire [0; 0; 0xAA; 0x55; 9] (fun _ => 0)) 5 0 1).
  - lia.
  - unfold INT_MAX. lia.
  - vm_compute. discriminate.
  - vm_compute. split; discriminate.
Defined.

Lemma memoire_app_gauche (l1 l2 : list Z) (autour : Z -> Z) (j : Z) :
  0 <= j < Z.of_nat (List.length l1) ->
  memoire (l1 ++ l2) autour j = nth (Z.to_nat j) l1 0.
Proof.
  intros Hj. rewrite memoire_dans by (rewrite length_app; lia).
  apply app_nth1. lia.
Qed.

Lemma memoire_app_droite (l1 l2 : list Z) (autour : Z -> Z) (k : nat) :
  (k < List.length l2)%nat ->
  memoire (l1 ++ l2) autour (Z.of_nat (List.length l1 + k)) = nth k l2 0.
Proof.
  intros Hk. rewrite memoire_dans by (rewrite length_app; lia).
  rewrite Nat2Z.id, app_nth2 by lia.
  replace (List.length l1 + k - List.length l1)%nat with k by lia.
  reflexivity.
Qed.

Lemma pas_de_paire_dans_le_bruit (bruit reste : list Z) (autour : Z -> Z) :
  Forall (fun b => b <> SYNC_H) bruit ->
  forall j, 0 <= j < Z.of_nat (List.length bruit) ->
            ~ paire (memoire (bruit ++ reste) autour) j.
Proof.
  intros Hbruit j Hj [H0 _].
  rewrite memoire_app_gauche in H0 by exact Hj.
  rewrite Forall_forall in Hbruit.
  apply (Hbruit (nth (Z.to_nat j) bruit 0)); [| exact H0].
  apply nth_In. lia.
Qed.

(** X5: over a buffer of at most [INT_MAX] bytes made of [N] bytes, none
    of which is 0xAA, then a marker, then anything, a search started
    anywhere in the first [N] bytes, or on the marker, returns [N], and
    every index it reads is inside the buffer. *)
Theorem trouver_sync_trame_apres_bruit
    (bruit suite : list Z) (autour : Z -> Z) (debut : Z) :
  Forall (fun b => b <> SYNC_H) bruit ->
  0 <= debut <= Z.of_nat (List.length bruit) ->
  Z.of_nat (List.length (bruit ++ SYNC_H :: SYNC_L :: suite)) <= INT_MAX ->
  let buffer := bruit ++ SYNC_H :: SYNC_L :: suite in
  let taille := Z.of_nat (List.length buffer) in
  let res := trouver_sync (memoire buffer autour) taille debut in
  Lecture.valeur res = Z.of_nat (List.length bruit)
  /\ Forall (fun x => debut <= x < taille) (Lecture.indices res).
Proof.
  intros Hbruit Hdebut _ buffer taille res.
  set (N := Z.of_nat (List.length bruit)) in *.
  assert (Ht : taille = N + 2 + Z.of_nat (List.length suite)).
  { unfold taille, buffer, N. rewrite length_app. simpl List.length. lia. }
  assert (Hmark : paire (memoire buffer autour) N).
  { unfold paire, buffer, N. split.
    - replace (Z.of_nat (List.length bruit))
        with (Z.of_nat (List.length bruit + 0)) by lia.
      apply memoire_app_droite. simpl. lia.
    - replace (Z.of_nat (List.length bruit) + 1)
        with (Z.of_nat (List.length bruit + 1)) by lia.
      apply memoire_app_droite. simpl. lia. }
  assert (Hval : Lecture.valeur res = N).
  { destruct (trouver_sync_valeur (memoire buffer autour) taille debut
                ltac:(lia)) as [[_ Hno] | (Hr & Hp & Hlow)].
    - exfalso. apply (Hno N); [lia | exact Hmark].
    - fold res in Hr, Hp, Hlow.
      destruct (Z.lt_trichotomy (Lecture.valeur res) N) as [L | [E | G]].
      + exfalso.
        apply (pas_de_paire_dans_le_bruit bruit (SYNC_H :: SYNC_L :: suite)
                 autour Hbruit (Lecture.valeur res)); [fold N; lia |].
        exact Hp.
      + exact E.
      + exfalso. apply (Hlow N); [lia | exact Hmark]. }
  split; [exact Hval |].
  apply Forall_forall. intros x Hin.
  assert (Hb : 0 <= debut <= taille) by lia.
  pose proof (trouver_sync_indices (memoire buffer autour) taille debut x
                Hb Hin) as Hlo.
  unfold res, trouver_sync in Hin, Hval.
  assert (Hne : Lecture.valeur
                  (boucle_sync (memoire buffer autour)
                     (Z.to_nat (taille - debut)) debut) <> -1)
    by (rewrite Hval; lia).
  pose proof (boucle_sync_indices_trouve _ _ debut x (proj1 Hdebut) Hne Hin)
    as Hhi.
  rewrite Hval in Hhi. lia.
Qed.

Lemma trouver_sync_trame_apres_bruit_witness :
  let buffer := [1; 2; 0x55] ++ SYNC_H :: SYNC_L :: [7] in
  let taille := Z.of_nat (List.length buffer) in
  let res := trouver_sync (memoire buffer (fun _ => 0)) taille 1 in
  Lecture.valeur res = Z.of_nat (List.length [1; 2; 0x55])
  /\ Forall (fun x => 1 <= x < taille) (Lecture.indices res).
Proof.
  apply (trouver_sync_trame_apres_bruit [1; 2; 0x55] [7] (fun _ => 0) 1).
  - repeat constructor; discriminate.
  - simpl. lia.
  - unfold INT_MAX. simpl. lia.
Defined.

(** X6: over a buffer of at most [INT_MAX] bytes made of bytes other
    than 0xAA followed by one last 0xAA, the search reads the byte that
    follows the buffer, and that byte decides the result: the index of
    the last byte when it is 0x55, -1 otherwise. *)
Theorem trouver_sync_dernier_octet
    (bruit : list Z) (autour : Z -> Z) (debut : Z) :
  Forall (fun b => b <> SYNC_H) bruit ->
  0 <= debut <= Z.of_nat (List.length bruit) ->
  Z.of_nat (List.length (bruit ++ [SYNC_H])) <= INT_MAX ->
  let buffer := bruit ++ [SYNC_H] in
  let taille := Z.of_nat (List.length buffer) in
  let res := trouver_sync (memoire buffer autour) taille debut in
  In taille (Lecture.indices res)
  /\ Lecture.valeur res
     = if autour taille =? SYNC_L then taille - 1 else -1.
Proof.
  intros Hbruit Hdebut _ buffer taille res.
  set (N := Z.of_nat (List.length bruit)) in *.
  assert (Ht : taille = N + 1).
  { unfold taille, buffer, N. rewrite length_app. simpl List.length. lia. }
  assert (Hfin : memoire buffer autour (taille - 1) = SYNC_H).
  { replace (taille - 1) with (Z.of_nat (List.length bruit + 0))
      by (unfold N in Ht; lia).
    unfold buffer. apply memoire_app_droite. simpl. lia. }
  assert (Hhors : memoire buffer autour taille = autour taille).
  { apply memoire_hors. fold taille. lia. }
  assert (Hnoise : forall j, debut <= j < taille - 1 ->
                             ~ paire (memoire buffer autour) j).
  { intros j Hj. apply pas_de_paire_dans_le_bruit; [exact Hbruit |].
    fold N. lia. }
  split.
  - apply trouver_sync_deborde; [lia | exact Hfin | exact Hnoise].
  - destruct (trouver_sync_valeur (memoire buffer autour) taille debut
                ltac:(lia)) as [[E Hno] | (Hr & Hp & Hlow)].
    + fold res in E. rewrite E.
      destruct (Z.eqb_spec (autour taille) SYNC_L) as [E1 | N1];
        [| reflexivity].
      exfalso. apply (Hno (taille - 1)); [lia |].
      split; [exact Hfin |].
      replace (taille - 1 + 1) with taille by lia.
      rewrite Hhors. exact E1.
    + fold res in Hr, Hp, Hlow.
      assert (Hv : Lecture.valeur res = taille - 1).
      { destruct (Z.eq_dec (Lecture.valeur res) (taille - 1)) as [E | Hne];
          [exact E |].
        exfalso. apply (Hnoise (Lecture.valeur res)); [lia | exact Hp]. }
      destruct Hp as [_ Hp2]. rewrite Hv in Hp2.
      replace (taille - 1 + 1) with taille in Hp2 by lia.
      rewrite Hhors in Hp2. rewrite Hv, Hp2, Z.eqb_refl. reflexivity.
Qed.

Lemma trouver_sync_dernier_octet_witness :
  let buffer := [1; 2] ++ [SYNC_H] in
  let taille := Z.of_nat (List.length buffer) in
  let res := trouver_sync (memoire buffer (fun _ => SYNC_L)) taille 0 in
  In taille (Lecture.indices res)
  /\ Lecture.valeur res
     = if (fun _ : Z => SYNC_L) taille =? SYNC_L then taille - 1 else -1.
Proof.
  apply (trouver_sync_dernier_octet [1; 2] (fun _ => SYNC_L) 0).
  - repeat constructor; discriminate.
  - simpl. lia.
  - unfold INT_MAX. simpl. lia.
Defined.

(** ** Alerts and conversions over the whole range of the raw values *)

(** A check that holds on every integer of a range holds on each. *)
Lemma sur_plage (P : Z -> bool) (n : nat) :
  forall bas,
    tous_depuis P bas n = true ->
    forall v, bas <= v < bas + Z.of_nat n -> P v = true.
Proof.
  induction n as [| n IH]; intros bas Htous v Hv; [lia |].
  cbn [tous_depuis] in Htous. apply andb_prop in Htous.
  destruct Htous as [H0 Hsuite].
  destruct (Z.eq_dec v bas) as [-> | Hne]; [exact H0 |].
  apply (IH (bas + 1) Hsuite). lia.
Qed.

(** A function that increases from each integer to the next increases
    over the range. *)
Lemma croissante_par_pas (f : Z -> F32.float) (bas haut : Z) :
  (forall v, bas <= v < haut -> F32.ltb (f v) (f (v + 1)) = true) ->
  forall a b, bas <= a -> a < b -> b <= haut ->
              F32.ltb (f a) (f b) = true.
Proof.
  intros Hpas a b Ha Hab Hb.
  replace b with (a + 1 + Z.of_nat (Z.to_nat (b - a - 1))) in * by lia.
  generalize dependent (Z.to_nat (b - a - 1)). intros n.
  induction n as [| n IH]; intros Hab Hb.
  - rewrite Z.add_0_r. apply Hpas. lia.
  - apply (F32Props.ltb_trans _ (f (a + 1 + Z.of_nat n))).
    + apply IH; lia.
    + replace (a + 1 + Z.of_nat (S n)) with (a + 1 + Z.of_nat n + 1) by lia.
      apply Hpas. lia.
Qed.

(** X7: at the default threshold of [main], an axis is in alert for
    [est_en_alerte] exactly when its raw current is above 5, that is from
    6 mA on, whatever its position and velocity. *)
Theorem est_en_alerte_seuil_defaut (axe : DonneesAxe) :
  0 <= courant axe < 65536 ->
  est_en_alerte axe seuil_courant_defaut = (5 <? courant axe).
Proof.
  intros Hc. rewrite est_en_alerte_brut.
  apply Bool.eqb_prop.
  apply (sur_plage
           (fun c => Bool.eqb (F32.gtb (F32.of_Z c) seuil_courant_defaut)
                       (5 <? c))
           (Z.to_nat 65536) 0); [vm_compute; reflexivity | lia].
Qed.

Lemma est_en_alerte_seuil_defaut_witness :
  est_en_alerte {| position := -1200; vitesse := 35; courant := 6 |}
    seuil_courant_defaut
  = (5 <? courant {| position := -1200; vitesse := 35; courant := 6 |}).
Proof.
  apply (est_en_alerte_seuil_defaut
           {| position := -1200; vitesse := 35; courant := 6 |}).
  simpl. lia.
Defined.

(** X8: [courant_en_amperes] increases strictly over the [uint16_t]
    values: a larger raw current converts to a larger number of amperes,
    so two different raw currents never convert to the same number. *)
Theorem courant_en_amperes_croissant (a b : Z) :
  0 <= a -> a < b -> b < 65536 ->
  F32.ltb (courant_en_amperes a) (courant_en_amperes b) = true.
Proof.
  intros Ha Hab Hb.
  apply (croissante_par_pas courant_en_amperes 0 65535); try lia.
  apply (sur_plage
           (fun v => F32.ltb (courant_en_amperes v)
                       (courant_en_amperes (v + 1)))
           (Z.to_nat 65535) 0).
  vm_compute. reflexivity.
Qed.

Lemma courant_en_amperes_croissant_witness :
  F32.ltb (courant_en_amperes 4999) (courant_en_amperes 5000) = true.
Proof.
  apply (courant_en_amperes_croissant 4999 5000); lia.
Defined.

(** X9: [position_en_degres] increases strictly over the [int16_t]
    values. *)
Theorem position_en_degres_croissante (a b : Z) :
  -32768 <= a -> a < b -> b < 32768 ->
  F32.ltb (position_en_degres a) (position_en_degres b) = true.
Proof.
  intros Ha Hab Hb.
  apply (croissante_par_pas position_en_degres (-32768) 32767); try lia.
  apply (sur_plage
           (fun v => F32.ltb (position_en_degres v)
                       (position_en_degres (v + 1)))
           (Z.to_nat 65535) (-32768)).
  vm_compute. reflexivity.
Qed.

Lemma position_en_degres_croissante_witness :
  F32.ltb (position_en_degres (-1)) (position_en_degres 0) = true.
Proof.
  apply (position_en_degres_croissante (-1) 0); lia.
Defined.

(** X10: [vitesse_en_deg_s] increases strictly over the [int16_t]
    values. *)
Theorem vitesse_en_deg_s_croissante (a b : Z) :
  -32768 <= a -> a < b -> b < 32768 ->
  F32.ltb (vitesse_en_deg_s a) (vitesse_en_deg_s b) = true.
Proof.
  intros Ha Hab Hb.
  apply (croissante_par_pas vitesse_en_deg_s (-32768) 32767); try lia.
  apply (sur_plage
           (fun v => F32.ltb (vitesse_en_deg_s v) (vitesse_en_deg_s (v + 1)))
           (Z.to_nat 65535) (-32768)).
  vm_compute. reflexivity.
Qed.

Lemma vitesse_en_deg_s_croissante_witness :
  F32.ltb (vitesse_en_deg_s (-2500)) (vitesse_en_deg_s 2500) = true.
Proof.
  apply (vitesse_en_deg_s_croissante (-2500) 2500); lia.
Defined.

(** ** Reading of the standard input *)

Lemma boucle_lecture_fin (tours : nat) (buffer : list Z) :
  boucle_lecture tours {| a_lire := []; eofbit := true |} buffer
  = (buffer, {| a_lire := []; eofbit := true |}).
Proof. destruct tours; reflexivity. Qed.

Lemma boucle_lecture_tout (octets : list Z) :
  forall (tours : nat) (buffer : list Z),
    (List.length octets < tours)%nat ->
    Forall EssaisSimulateur.est_octet octets ->
    boucle_lecture tours {| a_lire := octets; eofbit := false |} buffer
    = (buffer ++ octets ++ [255], {| a_lire := []; eofbit := true |}).
Proof.
  induction octets as [| c octets IH]; intros tours buffer Htours Hoct.
  - destruct tours as [| k]; [simpl in Htours; lia |].
    cbn [boucle_lecture eofbit get a_lire].
    rewrite boucle_lecture_fin. reflexivity.
  - destruct tours as [| k]; [simpl in Htours; lia |].
    inversion Hoct as [| c' l' Hc Hl]; subst.
    cbn [boucle_lecture eofbit get a_lire].
    rewrite IH by (simpl in Htours; try lia; assumption).
    unfold EssaisSimulateur.est_octet in Hc.
    rewrite Z.mod_small by lia.
    rewrite <- app_assoc. reflexivity.
Qed.

Lemma lire_donnees_stdin_egal (octets : list Z)
    (donnees_bin : option (list Z)) :
  Forall EssaisSimulateur.est_octet octets ->
  lire_donnees "-" {| a_lire := octets; eofbit := false |} donnees_bin
  = (octets ++ [255], {| a_lire := []; eofbit := true |}).
Proof.
  intros Hoct. unfold lire_donnees.
  change (String.eqb "-" "-") with true. cbn [a_lire].
  rewrite boucle_lecture_tout by (try lia; assumption).
  reflexivity.
Qed.

(** X11: read from a standard input that delivers the bytes [octets],
    [lire_donnees] returns these bytes followed by one byte 0xFF: the
    loop tests the end of file before the read that meets it, and pushes
    the [EOF] that this read returns.  The input is left at its end. *)
Theorem lire_donnees_stdin (octets : list Z) (donnees_bin : option (list Z)) :
  Forall EssaisSimulateur.est_octet octets ->
  lire_donnees "-" {| a_lire := octets; eofbit := false |} donnees_bin
  = (octets ++ [255], {| a_lire := []; eofbit := true |}).
Proof. exact (lire_donnees_stdin_egal octets donnees_bin). Qed.

Lemma lire_donnees_stdin_witness :
  lire_donnees "-" {| a_lire := [0xAA; 0x55; 0]; eofbit := false |} None
  = ([0xAA; 0x55; 0] ++ [255], {| a_lire := []; eofbit := true |}).
Proof.
  apply (lire_donnees_stdin [0xAA; 0x55; 0] None).
  repeat constructor; unfold EssaisSimulateur.est_octet; lia.
Defined.



(** ** The report of [main] *)


End AnalyseurSuite.

(** * Arithmetic of [float] used by the simulator *)

Module F32Suite.
Import EssaisSimulateur.

Lemma sub_diag (p : F32.float) :
  F32.is_nan p = false ->
  (forall s, p <> S754_infinity s) ->
  F32.sub p p = S754_zero false.
Proof.
  intros Hnan Hinf.
  destruct p as [s | s | | s m e]; try discriminate.
  - destruct s; reflexivity.
  - exfalso. apply (Hinf s). reflexivity.
  - unfold F32.sub, SFsub. cbv zeta. rewrite Z.min_id.
    unfold shl_align. rewrite (Z.sub_diag e). cbn [fst].
    rewrite Z.sub_diag. reflexivity.
Qed.

(** The sign of a rounded number is the sign it was given. *)
Lemma binary_round_aux_signe (s : bool) (m e : Z) (l : location) :
  let r := binary_round_aux F32.prec F32.emax s m e l in
  r = S754_zero s \/ (exists m' e', r = S754_finite s m' e')
  \/ r = S754_infinity s \/ r = S754_nan.
Proof.
  unfold binary_round_aux.
  destruct (shr_fexp F32.prec F32.emax m e l) as [mrs' e'].
  destruct (shr_fexp F32.prec F32.emax _ e' loc_Exact) as [mrs'' e''].
  destruct (shr_m mrs'') as [| mz | mz].
  - left. reflexivity.
  - destruct (e'' <=? F32.emax - F32.prec).
    + right. left. eexists. eexists. reflexivity.
    + right. right. left. reflexivity.
  - right. right. right. reflexivity.
Qed.

(** The product of two numbers above zero is not below zero, and its
    opposite is not above zero. *)
Lemma mul_positifs (a b : F32.float) :
  strictement_positif a = true -> strictement_positif b = true ->
  F32.ltb (F32.mul a b) (S754_zero false) = false
  /\ F32.ltb (S754_zero false) (F32.opp (F32.mul a b)) = false.
Proof.
  intros Ha Hb.
  destruct a as [sa | sa | | sa ma ea]; try discriminate.
  destruct sa; try discriminate.
  destruct b as [sb | sb | | sb mb eb]; try discriminate.
  destruct sb; try discriminate.
  unfold F32.mul, SFmul. cbn [xorb].
  destruct (binary_round_aux_signe false (Z.pos (ma * mb)) (ea + eb) loc_Exact)
    as [E | [(m' & e' & E) | [E | E]]];
    cbv zeta in E; rewrite E; split; reflexivity.
Qed.

Lemma add_zero_droite (p : F32.float) :
  fini_positif_ou_non_nul p = true ->
  F32.add p (S754_zero false) = p.
Proof.
  destruct p as [s | s | | s m e]; try discriminate.
  - destruct s; [discriminate | reflexivity].
  - reflexivity.
Qed.

Lemma mul_zero_gauche (b : F32.float) :
  strictement_positif b = true ->
  F32.mul (S754_zero false) b = S754_zero false.
Proof.
  destruct b as [sb | sb | | sb mb eb]; try discriminate.
  destruct sb; [discriminate | reflexivity].
Qed.

End F32Suite.

(** * The simulator, function by function *)

Module SimulateurSuite.
Import Simulateur EssaisSimulateur SimulateurProps.

Section AvecGenerateur.

Variable Rng : Type.
Variable uniform_real : F32.float -> F32.float -> Rng -> F32.float * Rng.
Variable uniform_int : Z -> Z -> Rng -> Z * Rng.
Variable normal : F32.float -> F32.float -> Rng -> F32.float * Rng.

Local Notation "'simuler'" := (simuler_axe Rng uniform_real normal).
Local Notation "'boucle'" := (boucle_axes Rng uniform_real normal).
Local Notation "'generer'" :=
  (generer_trame Rng uniform_real uniform_int normal).
Local Notation "'cibler'" := (nouvelle_cible Rng uniform_real).

(** ** Axes are updated one at a time *)

Lemma axe_de_ecrit_autre (l : list EtatAxe) (a : EtatAxe) :
  forall j k, k <> j -> axe_de (axe_ecrit l j a) k = axe_de l k.
Proof.
  unfold axe_de.
  induction l as [| b l IH]; intros [| j] [| k] Hne; simpl;
    try reflexivity; try congruence.
  apply IH. congruence.
Qed.

Lemma cadre_refl (sim : Simulateur Rng) (axe : nat) : cadre sim sim axe.
Proof. repeat split. Qed.

Lemma cadre_trans (s1 s2 s3 : Simulateur Rng) (axe : nat) :
  cadre s1 s2 axe -> cadre s2 s3 axe -> cadre s1 s3 axe.
Proof.
  intros (A1 & A2 & A3 & A4 & A5 & A6) (B1 & B2 & B3 & B4 & B5 & B6).
  repeat split; try congruence.
  intros k Hk. rewrite B6, A6 by exact Hk. reflexivity.
Qed.

Lemma cadre_avec_rng (sim : Simulateur Rng) (g : Rng) (axe : nat) :
  cadre sim (avec_rng Rng sim g) axe.
Proof. repeat split. Qed.

Lemma cadre_ecrit (sim : Simulateur Rng) (a : EtatAxe) (g : Rng) (axe : nat) :
  cadre sim
    (avec_rng Rng (avec_axes Rng sim (axe_ecrit (axes Rng sim) axe a)) g)
    axe.
Proof.
  repeat split; cbn [axes avec_rng avec_axes].
  - apply axe_ecrit_length.
  - intros k Hk. apply axe_de_ecrit_autre. exact Hk.
Qed.

Lemma nouvelle_cible_cadre (sim : Simulateur Rng) (axe : nat) :
  cadre sim (cibler sim axe) axe.
Proof.
  unfold nouvelle_cible.
  destruct (uniform_real _ _ (rng Rng sim)) as [x g].
  apply cadre_ecrit.
Qed.

Lemma simuler_axe_cadre (sim : Simulateur Rng) (axe : nat) :
  cadre sim (simuler sim axe) axe.
Proof.
  unfold simuler_axe.
  match goal with
  | |- context [let '(s, e) := ?etape in _] => set (choix := etape)
  end.
  assert (Hchoix : cadre sim (fst choix) axe).
  { subst choix.
    destruct (F32.ltb _ (F32.of_Z 1)); [| apply cadre_refl].
    destruct (uniform_real zero (F32.of_Z 1) (rng Rng sim)) as [x g].
    destruct (F32.ltb x (F32.lit 2 100)); cbn [fst].
    - apply (cadre_trans _ (avec_rng Rng sim g)).
      + apply cadre_avec_rng.
      + apply nouvelle_cible_cadre.
    - apply cadre_avec_rng. }
  destruct choix as [sim1 erreur]. cbn [fst] in Hchoix.
  cbv zeta.
  repeat match goal with
  | |- context [match (if ?c then _ else _) with pair _ _ => _ end] =>
      destruct c; cbv beta iota
  end;
  destruct (normal _ _ (rng Rng sim1)) as [b g];
  (apply (cadre_trans _ sim1); [exact Hchoix | apply cadre_ecrit]).
Qed.

(** X14: [nouvelle_cible] gives axis [axe] the target it draws between
    0.8 times the lower and 0.8 times the upper limit of the axis, and
    leaves everything else as it was: position, velocity and current of
    the axis, the other axes, the counter and the parameters. *)
Theorem nouvelle_cible_effet (sim : Simulateur Rng) (axe : nat) :
  (axe < List.length (axes Rng sim))%nat ->
  let tirage :=
    uniform_real
      (F32.mul (case_de POSITION_MIN_DEG axe) (F32.lit 8 10))
      (F32.mul (case_de POSITION_MAX_DEG axe) (F32.lit 8 10))
      (rng Rng sim) in
  let sim' := cibler sim axe in
  let a := axe_de (axes Rng sim) axe in
  axe_de (axes Rng sim') axe
  = {| position_deg := position_deg a; vitesse_deg_s := vitesse_deg_s a;
       position_cible := fst tirage; courant_base_a := courant_base_a a |}
  /\ rng Rng sim' = snd tirage
  /\ cadre sim sim' axe.
Proof.
  intros Haxe tirage sim' a.
  split; [| split; [| apply nouvelle_cible_cadre]].
  - unfold sim', nouvelle_cible. fold tirage.
    destruct tirage as [x g]. cbn [axes avec_rng avec_axes fst].
    apply axe_de_ecrit. exact Haxe.
  - unfold sim', nouvelle_cible. fold tirage.
    destruct tirage as [x g]. reflexivity.
Qed.

(** X15: a tick of axis [axe] leaves the state of every other axis, the
    sequence counter, the time step, the two probabilities and the number
    of axes as they were. *)
Theorem simuler_axe_un_seul_axe (sim : Simulateur Rng) (axe : nat) :
  (axe < List.length (axes Rng sim))%nat ->
  let sim' := simuler sim axe in
  (forall k, k <> axe ->
             axe_de (axes Rng sim') k = axe_de (axes Rng sim) k)
  /\ List.length (axes Rng sim') = List.length (axes Rng sim)
  /\ sequence Rng sim' = sequence Rng sim
  /\ dt Rng sim' = dt Rng sim
  /\ prob_bruit Rng sim' = prob_bruit Rng sim
  /\ prob_alerte Rng sim' = prob_alerte Rng sim.
Proof.
  intros _ sim'.
  destruct (simuler_axe_cadre sim axe) as (A1 & A2 & A3 & A4 & A5 & A6).
  repeat split; assumption.
Qed.

(** X16: an axis that is one degree or more away from its target keeps
    that target through the tick: a new target is drawn only within one
    degree of the current one. *)
Theorem simuler_axe_garde_la_cible (sim : Simulateur Rng) (axe : nat) :
  (axe < List.length (axes Rng sim))%nat ->
  let a := axe_de (axes Rng sim) axe in
  F32.ltb (F32.abs (F32.sub (position_cible a) (position_deg a)))
    (F32.of_Z 1) = false ->
  position_cible (axe_de (axes Rng (simuler sim axe)) axe)
  = position_cible a.
Proof.
  intros Haxe a Hloin. unfold simuler_axe. fold a. rewrite Hloin.
  cbv zeta. fold a.
  repeat match goal with
  | |- context [match (if ?c then _ else _) with pair _ _ => _ end] =>
      destruct c; cbv beta iota
  end;
  destruct (normal _ _ (rng Rng sim)) as [b g];
  cbn [axes avec_rng avec_axes];
  rewrite axe_de_ecrit by exact Haxe; reflexivity.
Qed.

Lemma vitesse_max_positive (axe : nat) :
  (axe < NB_AXES)%nat ->
  strictement_positif (F32.mul (case_de VITESSE_MAX_DEG_S axe) (F32.of_Z 2))
  = true
  /\ F32.gtb zero (case_de VITESSE_MAX_DEG_S axe) = false
  /\ F32.ltb zero (F32.opp (case_de VITESSE_MAX_DEG_S axe)) = false.
Proof.
  intros Hlt.
  do 6 (destruct axe as [| axe]; [vm_compute; repeat split |]).
  unfold NB_AXES in Hlt. lia.
Qed.

(** X17: an axis that rests on its target, within its limits, stays
    there through a tick in which no new target is drawn, when the time
    step is a number above zero: position, target and zero velocity are
    unchanged. *)
Theorem simuler_axe_repos (sim : Simulateur Rng) (axe : nat)
    (p c x : F32.float) (g : Rng) :
  (axe < NB_AXES)%nat ->
  List.length (axes Rng sim) = NB_AXES ->
  axe_de (axes Rng sim) axe
  = {| position_deg := p; vitesse_deg_s := zero;
       position_cible := p; courant_base_a := c |} ->
  fini_positif_ou_non_nul p = true ->
  F32.ltb p (case_de POSITION_MIN_DEG axe) = false ->
  F32.gtb p (case_de POSITION_MAX_DEG axe) = false ->
  strictement_positif (dt Rng sim) = true ->
  uniform_real zero (F32.of_Z 1) (rng Rng sim) = (x, g) ->
  F32.ltb x (F32.lit 2 100) = false ->
  let a' := axe_de (axes Rng (simuler sim axe)) axe in
  position_deg a' = p /\ vitesse_deg_s a' = zero /\ position_cible a' = p.
Proof.
  intros Haxe Hlen Ha Hp Hmin Hmax Hdt Hx Hno a'.
  destruct (vitesse_max_positive axe Haxe) as (Hacc & Hv1 & Hv2).
  destruct (F32Suite.mul_positifs _ _ Hacc Hdt) as [Hd1 Hd2].
  assert (Hsub : F32.sub p p = zero).
  { apply F32Suite.sub_diag.
    - destruct p; try reflexivity; discriminate.
    - intros s E. rewrite E in Hp. discriminate. }
  subst a'. unfold simuler_axe, zero in *.
  rewrite Ha. cbn [position_cible position_deg vitesse_deg_s].
  rewrite Hsub.
  change (F32.ltb (F32.abs (S754_zero false)) (F32.of_Z 1)) with true.
  cbv beta iota. rewrite Hx, Hno.
  cbv beta iota zeta. cbn [axes avec_rng]. rewrite Ha.
  cbn [position_cible position_deg vitesse_deg_s dt avec_rng rng].
  change (F32.mul (S754_zero false) (F32.of_Z 2)) with (S754_zero false).
  unfold F32.gtb, F32.ltb in *.
  rewrite Hv1, Hv2.
  change (F32.sub (S754_zero false) (S754_zero false))
    with (S754_zero false).
  rewrite Hd1, Hd2.
  change (F32.add (S754_zero false) (S754_zero false))
    with (S754_zero false).
  rewrite (F32Suite.mul_zero_gauche _ Hdt).
  rewrite (F32Suite.add_zero_droite _ Hp).
  rewrite Hmin, Hmax. cbv beta iota.
  destruct (normal _ _ g) as [b g'].
  cbn [axes avec_rng avec_axes].
  rewrite axe_de_ecrit by (rewrite Hlen; exact Haxe).
  repeat split.
Qed.

(** X18: after a tick of an axis of a six-axis simulator, whatever the
    state before and the draws, the position of the axis is neither
    below its lower limit nor above its upper limit, and its base current
    is not below zero, as [float] comparisons see them. *)
Theorem simuler_axe_limites (sim : Simulateur Rng) (axe : nat) :
  (axe < NB_AXES)%nat ->
  List.length (axes Rng sim) = NB_AXES ->
  let a := axe_de (axes Rng (simuler sim axe)) axe in
  F32.ltb (position_deg a) (case_de POSITION_MIN_DEG axe) = false
  /\ F32.gtb (position_deg a) (case_de POSITION_MAX_DEG axe) = false
  /\ F32.ltb (courant_base_a a) zero = false.
Proof. intros Haxe Hlen. apply simuler_axe_butees; assumption. Qed.

(** ** Words of 16 bits *)

(** X19: [ecrire_uint16_le] writes two bytes, the low one first, from
    which a 16-bit value is recovered as low + 256 * high. *)
Theorem ecrire_uint16_le_aller_retour (valeur : Z) :
  0 <= valeur < 2 ^ 16 ->
  Forall est_octet (ecrire_uint16_le valeur)
  /\ List.length (ecrire_uint16_le valeur) = 2%nat
  /\ mot_le (ecrire_uint16_le valeur) 0 = valeur.
Proof.
  intros Hv. split; [| split; [reflexivity |]].
  - assert (H : forall v, est_octet (Z.land v 0xFF)).
    { intros v. unfold est_octet. change 0xFF with (Z.ones 8).
      rewrite Z.land_ones by lia.
      pose proof (Z.mod_pos_bound v (2 ^ 8) ltac:(reflexivity)) as Hb.
      change (2 ^ 8) with 256 in *. change (Z.ones 8) with 255. lia. }
    unfold ecrire_uint16_le. repeat constructor; apply H.
  - unfold mot_le, ecrire_uint16_le. cbn [nth].
    apply ecrire_uint16_le_valeur. exact Hv.
Qed.

(** ** The loop over the axes *)

Lemma boucle_axes_fst (sim : Simulateur Rng) (ka ca : Z) (n i : nat) :
  fst (boucle sim ka ca (S n) i)
  = fst (boucle (simuler sim i) ka ca n (S i)).
Proof.
  cbn [boucle_axes].
  destruct (boucle_axes Rng uniform_real normal
              (simuler_axe Rng uniform_real normal sim i) ka ca n (S i))
    as [sim' suite].
  reflexivity.
Qed.

(** The ticks of the axes from [i] on leave the axes below [i], the
    counter and the parameters as they were. *)
Lemma boucle_axes_cadre (ka ca : Z) (n : nat) :
  forall (sim : Simulateur Rng) (i : nat),
    let sim' := fst (boucle sim ka ca n i) in
    sequence Rng sim' = sequence Rng sim
    /\ dt Rng sim' = dt Rng sim
    /\ prob_bruit Rng sim' = prob_bruit Rng sim
    /\ prob_alerte Rng sim' = prob_alerte Rng sim
    /\ List.length (axes Rng sim') = List.length (axes Rng sim)
    /\ forall k, (k < i)%nat ->
                 axe_de (axes Rng sim') k = axe_de (axes Rng sim) k.
Proof.
  induction n as [| n IH]; intros sim i sim'.
  - repeat split.
  - subst sim'. rewrite boucle_axes_fst.
    destruct (IH (simuler sim i) (S i)) as (A1 & A2 & A3 & A4 & A5 & A6).
    destruct (simuler_axe_cadre sim i) as (B1 & B2 & B3 & B4 & B5 & B6).
    repeat split; try congruence.
    intros k Hk. rewrite A6 by lia. apply B6. lia.
Qed.

Lemma mot_le_ecrit (valeur : Z) (suite : list Z) :
  0 <= valeur < 2 ^ 16 ->
  mot_le (ecrire_uint16_le valeur ++ suite) 0 = valeur.
Proof.
  intros Hv. unfold mot_le, ecrire_uint16_le. cbn [app nth].
  apply ecrire_uint16_le_valeur. exact Hv.
Qed.

Lemma mot_le_saut (a b : Z) (suite : list Z) (i : nat) :
  mot_le (a :: b :: suite) (S (S i)) = mot_le suite i.
Proof. reflexivity. Qed.

Lemma uint16_of_int16_borne (v : Z) : 0 <= uint16_of_int16 v < 2 ^ 16.
Proof. unfold uint16_of_int16. apply Z.mod_pos_bound. reflexivity. Qed.

Lemma uint16_of_float_borne (x : F32.float) : 0 <= uint16_of_float x < 2 ^ 16.
Proof. unfold uint16_of_float. apply Z.mod_pos_bound. reflexivity. Qed.

(** The six bytes written for axis [k] are the little-endian words of
    the position, velocity and current of that axis as the loop leaves
    them. *)
Lemma boucle_axes_contenu (ka ca : Z) (n : nat) :
  0 <= ca < 2 ^ 16 ->
  forall (sim : Simulateur Rng) (i k : nat),
    (i <= k < i + n)%nat ->
    let r := boucle sim ka ca n i in
    let a := axe_de (axes Rng (fst r)) k in
    mot_le (snd r) (6 * (k - i))
    = uint16_of_int16
        (int16_of_float (F32.mul (position_deg a) (F32.of_Z 100)))
    /\ mot_le (snd r) (6 * (k - i) + 2)
       = uint16_of_int16
           (int16_of_float (F32.mul (vitesse_deg_s a) (F32.of_Z 10)))
    /\ mot_le (snd r) (6 * (k - i) + 4)
       = if Z.of_nat k =? ka then ca
         else uint16_of_float
                (F32.mul (courant_base_a a) (F32.of_Z 1000)).
Proof.
  intros Hca. induction n as [| n IH]; intros sim i k Hk r a; [lia |].
  subst a r. rewrite boucle_axes_tour, boucle_axes_fst.
  destruct (Nat.eq_dec k i) as [-> | Hne].
  - destruct (boucle_axes_cadre ka ca n (simuler sim i) (S i))
      as (_ & _ & _ & _ & _ & Hsame).
    rewrite Hsame by lia.
    rewrite Nat.sub_diag. cbn [Nat.mul Nat.add].
    split; [| split].
    + apply mot_le_ecrit. apply uint16_of_int16_borne.
    + unfold ecrire_uint16_le at 1. cbn [app]. rewrite mot_le_saut.
      apply mot_le_ecrit. apply uint16_of_int16_borne.
    + unfold ecrire_uint16_le at 1 2. cbn [app]. rewrite !mot_le_saut.
      rewrite mot_le_ecrit.
      * reflexivity.
      * unfold courant_ecrit. destruct (Z.of_nat i =? ka);
          [exact Hca | apply uint16_of_float_borne].
  - destruct (IH (simuler sim i) (S i) k ltac:(lia)) as (H1 & H2 & H3).
    replace (6 * (k - i))%nat
      with (S (S (S (S (S (S (6 * (k - S i)))))))) by lia.
    unfold ecrire_uint16_le. cbn [app Nat.add].
    rewrite !mot_le_saut.
    split; [exact H1 |]. split; [exact H2 | exact H3].
Qed.

(** After the loop, each axis the loop ticked is within its limits. *)
Lemma boucle_axes_butees (ka ca : Z) (n : nat) :
  forall (sim : Simulateur Rng) (i k : nat),
    List.length (axes Rng sim) = NB_AXES ->
    (i <= k < i + n)%nat -> (k < NB_AXES)%nat ->
    let a := axe_de (axes Rng (fst (boucle sim ka ca n i))) k in
    F32.ltb (position_deg a) (case_de POSITION_MIN_DEG k) = false
    /\ F32.gtb (position_deg a) (case_de POSITION_MAX_DEG k) = false
    /\ F32.ltb (courant_base_a a) zero = false.
Proof.
  induction n as [| n IH]; intros sim i k Hlen Hk Hk6 a; [lia |].
  subst a. rewrite boucle_axes_fst.
  destruct (Nat.eq_dec k i) as [-> | Hne].
  - destruct (boucle_axes_cadre ka ca n (simuler sim i) (S i))
      as (_ & _ & _ & _ & _ & Hsame).
    rewrite Hsame by lia.
    apply simuler_axe_butees; assumption.
  - apply IH; try lia.
    destruct (simuler_axe_cadre sim i) as (_ & _ & _ & _ & B5 & _).
    rewrite B5. exact Hlen.
Qed.

(** ** The generated frame *)

Lemma paire_entete (r : Simulateur Rng * list Z) (entete : list Z) :
  (let (sim, octets) := r in (sim, entete ++ octets))
  = (fst r, entete ++ snd r).
Proof. destruct r; reflexivity. Qed.

Lemma generer_trame_forme (sim : Simulateur Rng) :
  exists (sim0 : Simulateur Rng) (ka ca : Z),
    0 <= ca < 2 ^ 16
    /\ generer sim
       = (fst (boucle sim0 ka ca NB_AXES 0),
          [SYNC_H; SYNC_L; sequence Rng sim]
          ++ snd (boucle sim0 ka ca NB_AXES 0))
    /\ sequence Rng sim0 = (sequence Rng sim + 1) mod 256
    /\ dt Rng sim0 = dt Rng sim
    /\ prob_bruit Rng sim0 = prob_bruit Rng sim
    /\ prob_alerte Rng sim0 = prob_alerte Rng sim
    /\ axes Rng sim0 = axes Rng sim
    /\ (F32.ltb (fst (uniform_real zero (F32.of_Z 1) (rng Rng sim)))
          (prob_alerte Rng sim) = false -> ka = -1).
Proof.
  unfold generer_trame. cbn [rng avec_sequence].
  destruct (uniform_real zero (F32.of_Z 1) (rng Rng sim)) as [x g].
  cbn [prob_alerte avec_rng avec_sequence rng fst].
  destruct (F32.ltb x (prob_alerte Rng sim)).
  - destruct (uniform_int 0 (Z.of_nat NB_AXES - 1) g) as [axe g1].
    destruct (uniform_real (F32.of_Z 5500) (F32.of_Z 8000) g1) as [c g2].
    eexists. exists axe. exists (uint16_of_float c).
    split; [apply uint16_of_float_borne |].
    split; [rewrite paire_entete; reflexivity |].
    repeat split. discriminate.
  - eexists. exists (-1). exists 0.
    split; [split; [lia | reflexivity] |].
    split; [rewrite paire_entete; reflexivity |].
    repeat split.
Qed.

(** X20: [generer_trame] writes 39 bytes that start with 0xAA, 0x55 and
    the sequence counter as it was before the call; it leaves the
    counter one higher modulo 256, and the time step, the probabilities
    and the number of axes as they were. *)
Theorem generer_trame_entete (sim : Simulateur Rng) :
  etat_valide sim ->
  let sim' := fst (generer sim) in
  let octets := snd (generer sim) in
  List.length octets = 39%nat
  /\ nth 0 octets 0 = 0xAA /\ nth 1 octets 0 = 0x55
  /\ nth 2 octets 0 = sequence Rng sim
  /\ sequence Rng sim' = (sequence Rng sim + 1) mod 256
  /\ dt Rng sim' = dt Rng sim
  /\ prob_bruit Rng sim' = prob_bruit Rng sim
  /\ prob_alerte Rng sim' = prob_alerte Rng sim
  /\ List.length (axes Rng sim') = List.length (axes Rng sim).
Proof.
  intros _ sim' octets. subst sim' octets.
  destruct (generer_trame_forme sim)
    as (sim0 & ka & ca & Hca & E & S1 & S2 & S3 & S4 & S5 & _).
  rewrite E. cbn [fst snd].
  destruct (boucle_axes_cadre ka ca NB_AXES sim0 0)
    as (A1 & A2 & A3 & A4 & A5 & _).
  split.
  - cbn [app List.length]. rewrite boucle_axes_length. reflexivity.
  - repeat split; try reflexivity; try congruence.
Qed.

Lemma ecrire_uint16_le_octets (valeur : Z) :
  Forall est_octet (ecrire_uint16_le valeur).
Proof.
  assert (H : forall v, est_octet (Z.land v 0xFF)).
  { intros v. unfold est_octet. change 0xFF with (Z.ones 8).
    rewrite Z.land_ones by lia.
    pose proof (Z.mod_pos_bound v (2 ^ 8) ltac:(reflexivity)) as Hb.
    change (2 ^ 8) with 256 in *. change (Z.ones 8) with 255. lia. }
  unfold ecrire_uint16_le. repeat constructor; apply H.
Qed.

Lemma boucle_axes_octets (ka ca : Z) (n : nat) :
  forall (sim : Simulateur Rng) (i : nat),
    Forall est_octet (snd (boucle sim ka ca n i)).
Proof.
  induction n as [| n IH]; intros sim i.
  - constructor.
  - rewrite boucle_axes_tour.
    repeat (apply Forall_app; split); try apply ecrire_uint16_le_octets.
    apply IH.
Qed.

(** X21: every value that [generer_trame] writes is a byte, from 0 to
    255. *)
Theorem generer_trame_octets (sim : Simulateur Rng) :
  etat_valide sim ->
  Forall est_octet (snd (generer sim)).
Proof.
  intros [_ Hseq].
  destruct (generer_trame_forme sim) as (sim0 & ka & ca & _ & E & _).
  rewrite E. cbn [snd app].
  apply Forall_cons; [unfold est_octet, SYNC_H; lia |].
  apply Forall_cons; [unfold est_octet, SYNC_L; lia |].
  apply Forall_cons; [exact Hseq |].
  apply boucle_axes_octets.
Qed.

Lemma mot_le_entete (a b c : Z) (corps : list Z) (i : nat) :
  mot_le ([a; b; c] ++ corps) (3 + i) = mot_le corps i.
Proof. reflexivity. Qed.

(** X22: in the frame that [generer_trame] writes, the words at offsets
    3 + 6i and 5 + 6i are, low byte first, the position of axis [i] times
    100 and its velocity times 10, truncated to 16 bits, for the state in
    which the call leaves the axis. *)
Theorem generer_trame_positions_vitesses (sim : Simulateur Rng) (i : nat) :
  etat_valide sim ->
  (i < NB_AXES)%nat ->
  let a := axe_de (axes Rng (fst (generer sim))) i in
  let octets := snd (generer sim) in
  mot_le octets (3 + 6 * i)
  = uint16_of_int16
      (int16_of_float (F32.mul (position_deg a) (F32.of_Z 100)))
  /\ mot_le octets (5 + 6 * i)
     = uint16_of_int16
         (int16_of_float (F32.mul (vitesse_deg_s a) (F32.of_Z 10))).
Proof.
  intros _ Hi a octets. subst a octets.
  destruct (generer_trame_forme sim) as (sim0 & ka & ca & Hca & E & _).
  rewrite E. cbn [fst snd].
  destruct (boucle_axes_contenu ka ca NB_AXES Hca sim0 0 i ltac:(lia))
    as (H1 & H2 & _).
  rewrite Nat.sub_0_r in H1, H2.
  replace (5 + 6 * i)%nat with (3 + (6 * i + 2))%nat by lia.
  rewrite !mot_le_entete. split; assumption.
Qed.

(** X23: when the alert draw of [generer_trame] is not below
    [prob_alerte], the word at offset 7 + 6i of the frame is the current
    of axis [i] times 1000, truncated to 16 bits, for the state in which
    the call leaves the axis: no current is replaced. *)
Theorem generer_trame_courants_sans_alerte (sim : Simulateur Rng) (i : nat) :
  etat_valide sim ->
  (i < NB_AXES)%nat ->
  F32.ltb (fst (uniform_real zero (F32.of_Z 1) (rng Rng sim)))
    (prob_alerte Rng sim) = false ->
  let a := axe_de (axes Rng (fst (generer sim))) i in
  mot_le (snd (generer sim)) (7 + 6 * i)
  = uint16_of_float (F32.mul (courant_base_a a) (F32.of_Z 1000)).
Proof.
  intros _ Hi Hsans a. subst a.
  destruct (generer_trame_forme sim)
    as (sim0 & ka & ca & Hca & E & _ & _ & _ & _ & _ & Hka).
  rewrite E. cbn [fst snd].
  destruct (boucle_axes_contenu ka ca NB_AXES Hca sim0 0 i ltac:(lia))
    as (_ & _ & H3).
  rewrite Nat.sub_0_r in H3.
  replace (7 + 6 * i)%nat with (3 + (6 * i + 4))%nat by lia.
  rewrite mot_le_entete, H3, (Hka Hsans).
  destruct (Z.eqb_spec (Z.of_nat i) (-1)) as [E1 | _]; [lia | reflexivity].
Qed.

(** X24: after [generer_trame] on a simulator of six axes, every axis
    has a position that is neither below its lower limit nor above its
    upper limit and a base current that is not below zero, whatever the
    state before and whatever the draws. *)
Theorem generer_trame_butees (sim : Simulateur Rng) (k : nat) :
  List.length (axes Rng sim) = NB_AXES ->
  (k < NB_AXES)%nat ->
  let a := axe_de (axes Rng (fst (generer sim))) k in
  F32.ltb (position_deg a) (case_de POSITION_MIN_DEG k) = false
  /\ F32.gtb (position_deg a) (case_de POSITION_MAX_DEG k) = false
  /\ F32.ltb (courant_base_a a) zero = false.
Proof.
  intros Hlen Hk a. subst a.
  destruct (generer_trame_forme sim)
    as (sim0 & ka & ca & _ & E & _ & _ & _ & _ & Haxes & _).
  rewrite E. cbn [fst].
  apply boucle_axes_butees; [rewrite Haxes; exact Hlen | lia | exact Hk].
Qed.

(** ** Noise *)

Local Notation "'bruiter'" := (generer_bruit Rng uniform_int).
Local Notation "'tour'" :=
  (tour_principal Rng uniform_real uniform_int normal).
Local Notation "'tours'" :=
  (boucle_principale Rng uniform_real uniform_int normal).

Lemma boucle_bruit_effet (n : nat) :
  forall sim : Simulateur Rng,
    let r := boucle_bruit Rng uniform_int sim n in
    List.length (snd r) = n
    /\ Forall (fun b => est_octet b /\ hors_sync b) (snd r)
    /\ axes Rng (fst r) = axes Rng sim
    /\ sequence Rng (fst r) = sequence Rng sim
    /\ dt Rng (fst r) = dt Rng sim
    /\ prob_bruit Rng (fst r) = prob_bruit Rng sim
    /\ prob_alerte Rng (fst r) = prob_alerte Rng sim.
Proof.
  induction n as [| n IH]; intros sim r.
  - repeat split. constructor.
  - subst r. cbn [boucle_bruit].
    destruct (uniform_int 0 255 (rng Rng sim)) as [tire g].
    destruct (IH (avec_rng Rng sim g)) as (L & F & A1 & A2 & A3 & A4 & A5).
    destruct (boucle_bruit Rng uniform_int (avec_rng Rng sim g) n)
      as [sim' suite].
    cbn [fst snd] in *. cbn [List.length].
    split; [congruence |]. split; [| repeat split; assumption].
    apply Forall_cons; [| exact F].
    pose proof (Z.mod_pos_bound tire 256 ltac:(reflexivity)) as Hb.
    destruct (Z.eqb_spec (tire mod 256) SYNC_H) as [E1 | N1];
      cbn [orb].
    + unfold est_octet, hors_sync, SYNC_H, SYNC_L. lia.
    + destruct (Z.eqb_spec (tire mod 256) SYNC_L) as [E2 | N2].
      * unfold est_octet, hors_sync, SYNC_H, SYNC_L. lia.
      * unfold est_octet, hors_sync. lia.
Qed.

(** X25: [generer_bruit] writes [nb_octets] bytes, none when
    [nb_octets] is zero or negative; each is a byte other than 0xAA and
    0x55, whatever the engine draws; the axes, the sequence counter and
    the parameters are left as they were. *)
Theorem generer_bruit_effet (sim : Simulateur Rng) (nb_octets : Z) :
  let r := bruiter sim nb_octets in
  Z.of_nat (List.length (snd r)) = Z.max 0 nb_octets
  /\ Forall (fun b => est_octet b /\ hors_sync b) (snd r)
  /\ axes Rng (fst r) = axes Rng sim
  /\ sequence Rng (fst r) = sequence Rng sim
  /\ dt Rng (fst r) = dt Rng sim
  /\ prob_bruit Rng (fst r) = prob_bruit Rng sim
  /\ prob_alerte Rng (fst r) = prob_alerte Rng sim.
Proof.
  intros r. subst r. unfold generer_bruit.
  destruct (boucle_bruit_effet (Z.to_nat nb_octets) sim)
    as (L & F & A).
  split; [rewrite L; lia |]. split; assumption.
Qed.

(** ** The main loop *)

(** A turn writes some noise, at most ten bytes when the count drawn is
    within its range, and then the frame of a simulator that has the
    same axes, counter and parameters as before the turn. *)
Lemma tour_principal_forme (sim : Simulateur Rng) :
  exists (sim1 : Simulateur Rng) (bruit : list Z),
    tour sim = (fst (generer sim1), bruit ++ snd (generer sim1))
    /\ Forall (fun b => est_octet b /\ hors_sync b) bruit
    /\ axes Rng sim1 = axes Rng sim
    /\ sequence Rng sim1 = sequence Rng sim
    /\ dt Rng sim1 = dt Rng sim
    /\ prob_bruit Rng sim1 = prob_bruit Rng sim
    /\ prob_alerte Rng sim1 = prob_alerte Rng sim
    /\ ((forall g, 1 <= fst (uniform_int 1 10 g) <= 10) ->
        (List.length bruit <= 10)%nat).
Proof.
  unfold tour_principal.
  destruct (uniform_real zero (F32.of_Z 1) (rng Rng sim)) as [x g].
  cbn [prob_bruit avec_rng rng].
  destruct (F32.ltb x (prob_bruit Rng sim)).
  - unfold generer_bruit.
    pose proof (boucle_bruit_effet
                  (Z.to_nat (fst (uniform_int 1 10 g)))
                  (avec_rng Rng (avec_rng Rng sim g)
                     (snd (uniform_int 1 10 g))))
      as (L & F & A1 & A2 & A3 & A4 & A5).
    destruct (uniform_int 1 10 g) as [nb g1] eqn:Enb.
    cbn [fst snd] in L, F, A1, A2, A3, A4, A5.
    destruct (boucle_bruit Rng uniform_int
                (avec_rng Rng (avec_rng Rng sim g) g1) (Z.to_nat nb))
      as [sim1 bruit].
    cbn [fst snd] in *.
    exists sim1, bruit.
    split; [destruct (generer sim1); reflexivity |].
    repeat split; try assumption.
    intros Hc. specialize (Hc g). rewrite Enb in Hc. cbn [fst] in Hc. lia.
  - exists (avec_rng Rng sim g), [].
    split; [destruct (generer (avec_rng Rng sim g)); reflexivity |].
    split; [constructor |].
    do 5 (split; [reflexivity |]).
    intros _. simpl. lia.
Qed.

Lemma hors_sync_sans_marqueur (bruit : list Z) :
  Forall (fun b => est_octet b /\ hors_sync b) bruit ->
  Forall (fun b => b <> Analyseur.SYNC_H) bruit.
Proof.
  intros H. induction H as [| b l [_ [Hb _]] _ IH]; constructor.
  - exact Hb.
  - exact IH.
Qed.

(** The search over some noise, a frame and what follows. *)
Lemma recherche_bruit_trame (bruit corps apres : list Z) (seq : Z)
    (autour : Z -> Z) :
  Forall (fun b => est_octet b /\ hors_sync b) bruit ->
  List.length corps = 36%nat ->
  let octets := (bruit ++ [SYNC_H; SYNC_L; seq] ++ corps) ++ apres in
  let taille := Z.of_nat (List.length octets) in
  let res := Analyseur.trouver_sync (memoire octets autour) taille 0 in
  Lecture.valeur res = Z.of_nat (List.length bruit)
  /\ Forall (fun x => 0 <= x < taille) (Lecture.indices res)
  /\ nth (Z.to_nat (Lecture.valeur res + 2)) octets 0 = seq.
Proof.
  intros Hbruit Hcorps octets taille res.
  assert (Eo : octets
               = bruit ++ Analyseur.SYNC_H :: Analyseur.SYNC_L
                                :: (seq :: corps ++ apres)).
  { unfold octets. rewrite <- app_assoc. reflexivity. }
  pose proof (AnalyseurProps.trouver_sync_apres_bruit bruit
                (seq :: corps ++ apres) autour
                (hors_sync_sans_marqueur bruit Hbruit)) as Hs.
  cbv zeta in Hs. rewrite <- Eo in Hs. fold taille res in Hs.
  destruct Hs as [Hval Hind].
  split; [exact Hval |]. split; [exact Hind |].
  rewrite Hval, Eo.
  replace (Z.to_nat (Z.of_nat (List.length bruit) + 2))
    with (List.length bruit + 2)%nat by lia.
  rewrite app_nth2_plus. reflexivity.
Qed.

(** What a turn writes: some noise, then the marker, the sequence
    counter and 36 bytes; and what it leaves. *)
Lemma tour_principal_octets (sim : Simulateur Rng) :
  exists bruit corps : list Z,
    snd (tour sim) = bruit ++ [SYNC_H; SYNC_L; sequence Rng sim] ++ corps
    /\ Forall (fun b => est_octet b /\ hors_sync b) bruit
    /\ List.length corps = 36%nat
    /\ ((forall g, 1 <= fst (uniform_int 1 10 g) <= 10) ->
        (List.length bruit <= 10)%nat)
    /\ sequence Rng (fst (tour sim)) = (sequence Rng sim + 1) mod 256
    /\ List.length (axes Rng (fst (tour sim)))
       = List.length (axes Rng sim).
Proof.
  destruct (tour_principal_forme sim)
    as (sim1 & bruit & E & Hbruit & A1 & A2 & A3 & A4 & A5 & Hlong).
  destruct (generer_trame_forme sim1)
    as (sim0 & ka & ca & _ & Eg & S1 & _ & _ & _ & S5 & _).
  destruct (boucle_axes_cadre ka ca NB_AXES sim0 0)
    as (Hseq & _ & _ & _ & Hax & _).
  rewrite S1 in Hseq. rewrite S5 in Hax.
  replace (fst (boucle sim0 ka ca NB_AXES 0)) with (fst (generer sim1))
    in Hseq, Hax by (rewrite Eg; reflexivity).
  pose proof (boucle_axes_length Rng uniform_real normal ka ca NB_AXES
                sim0 0%nat) as L36.
  exists bruit, (snd (boucle sim0 ka ca NB_AXES 0)).
  rewrite E. cbn [fst snd].
  split; [rewrite Eg; cbn [snd]; rewrite A2; reflexivity |].
  split; [exact Hbruit |]. split; [exact L36 |].
  split; [exact Hlong |].
  split; [rewrite Hseq, A2; reflexivity |].
  rewrite Hax. f_equal. exact A1.
Qed.

(** The number of bytes of a turn: the frame, after as many noise
    bytes as the turn draws. *)
Lemma tour_principal_longueur (sim : Simulateur Rng) :
  let tirage := uniform_real zero (F32.of_Z 1) (rng Rng sim) in
  Z.of_nat (List.length (snd (tour sim)))
  = (if F32.ltb (fst tirage) (prob_bruit Rng sim)
     then Z.max 0 (fst (uniform_int 1 10 (snd tirage)))
     else 0) + 39.
Proof.
  unfold tour_principal.
  destruct (uniform_real zero (F32.of_Z 1) (rng Rng sim)) as [x g].
  cbn [fst snd prob_bruit avec_rng rng].
  destruct (F32.ltb x (prob_bruit Rng sim)).
  - unfold generer_bruit.
    pose proof (boucle_bruit_effet
                  (Z.to_nat (fst (uniform_int 1 10 g)))
                  (avec_rng Rng (avec_rng Rng sim g)
                     (snd (uniform_int 1 10 g))))
      as (L & _).
    destruct (uniform_int 1 10 g) as [nb g1].
    cbn [fst snd] in L |- *.
    destruct (boucle_bruit Rng uniform_int
                (avec_rng Rng (avec_rng Rng sim g) g1) (Z.to_nat nb))
      as [sim1 bruit].
    cbn [snd] in L.
    pose proof (generer_trame_length Rng uniform_real uniform_int normal
                  sim1) as L39.
    destruct (generer sim1) as [sim2 trame].
    cbn [snd] in L39 |- *. rewrite length_app.
    unfold TAILLE_TRAME in L39. lia.
  - pose proof (generer_trame_length Rng uniform_real uniform_int normal
                  (avec_rng Rng sim g)) as L39.
    destruct (generer (avec_rng Rng sim g)) as [sim2 trame].
    cbn [snd app] in L39 |- *.
    unfold TAILLE_TRAME in L39. lia.
Qed.

(** X26: with the count of noise bytes drawn within its range, the
    bytes of one turn of the main loop are found by the analyser:
    [trouver_sync] from 0 returns the number of noise bytes of the turn,
    the count drawn when the turn draws noise and 0 otherwise, so at
    most 10, reading inside the bytes only; the frame takes the 39 bytes
    that follow and carries the sequence counter of the turn. *)
Theorem tour_principal_synchronisable (sim : Simulateur Rng)
    (autour : Z -> Z) :
  etat_valide sim ->
  (forall g, 1 <= fst (uniform_int 1 10 g) <= 10) ->
  let tirage := uniform_real zero (F32.of_Z 1) (rng Rng sim) in
  let nb := fst (uniform_int 1 10 (snd tirage)) in
  let octets := snd (tour sim) in
  let taille := Z.of_nat (List.length octets) in
  let res := Analyseur.trouver_sync (memoire octets autour) taille 0 in
  let n := Lecture.valeur res in
  n = (if F32.ltb (fst tirage) (prob_bruit Rng sim) then nb else 0)
  /\ 0 <= n <= 10
  /\ taille = n + 39
  /\ Forall (fun x => 0 <= x < taille) (Lecture.indices res)
  /\ nth (Z.to_nat (n + 2)) octets 0 = sequence Rng sim.
Proof.
  intros _ Hc.
  pose proof (tour_principal_longueur sim) as Hlong. cbv zeta in Hlong.
  pose proof (Hc (snd (uniform_real zero (F32.of_Z 1) (rng Rng sim))))
    as Hnb.
  destruct (tour_principal_octets sim)
    as (bruit & corps & E & Hbruit & L36 & _ & _ & _).
  generalize dependent (snd (tour sim)). intros octets0 Hlong E.
  subst octets0.
  pose proof (recherche_bruit_trame bruit corps [] (sequence Rng sim)
                autour Hbruit L36) as H.
  rewrite app_nil_r in H. cbv zeta in H.
  destruct H as (Hval & Hind & Hnth).
  cbv zeta. rewrite Hval in *.
  rewrite !length_app in Hlong. cbn [List.length] in Hlong.
  assert (Hn : Z.of_nat (List.length bruit)
               = if F32.ltb
                      (fst (uniform_real zero (F32.of_Z 1) (rng Rng sim)))
                      (prob_bruit Rng sim)
                 then fst (uniform_int 1 10
                             (snd (uniform_real zero (F32.of_Z 1)
                                     (rng Rng sim))))
                 else 0).
  { destruct (F32.ltb
                (fst (uniform_real zero (F32.of_Z 1) (rng Rng sim)))
                (prob_bruit Rng sim)); lia. }
  split; [exact Hn |].
  split; [rewrite Hn; destruct (F32.ltb _ _); lia |].
  split; [rewrite !length_app; cbn [List.length]; lia |].
  split; [exact Hind | exact Hnth].
Qed.

Lemma boucle_principale_S (sim : Simulateur Rng) (k : nat) :
  tours sim (S k)
  = (fst (tours (fst (tour sim)) k),
     snd (tour sim) ++ snd (tours (fst (tour sim)) k)).
Proof.
  cbn [boucle_principale].
  destruct (tour sim) as [s1 o1]. cbn [fst snd].
  destruct (tours s1 k) as [s2 o2]. reflexivity.
Qed.

Lemma boucle_principale_effet (k : nat) :
  forall sim : Simulateur Rng,
    0 <= sequence Rng sim < 256 ->
    let r := tours sim k in
    sequence Rng (fst r) = (sequence Rng sim + Z.of_nat k) mod 256
    /\ List.length (axes Rng (fst r)) = List.length (axes Rng sim)
    /\ (39 * k <= List.length (snd r))%nat
    /\ ((forall g, 1 <= fst (uniform_int 1 10 g) <= 10) ->
        (List.length (snd r) <= 49 * k)%nat).
Proof.
  induction k as [| k IH]; intros sim Hseq r.
  - subst r. cbn [boucle_principale fst snd List.length].
    rewrite Z.add_0_r, Z.mod_small by exact Hseq.
    repeat split; lia.
  - subst r. rewrite boucle_principale_S. cbn [fst snd].
    destruct (tour_principal_octets sim)
      as (bruit & corps & E & _ & L36 & Hlong & H5 & H6).
    assert (Hs1 : 0 <= sequence Rng (fst (tour sim)) < 256).
    { rewrite H5. apply Z.mod_pos_bound. reflexivity. }
    destruct (IH (fst (tour sim)) Hs1) as (I1 & I2 & I3 & I4).
    rewrite I1, H5, Zplus_mod_idemp_l.
    split; [f_equal; lia |]. split; [congruence |].
    rewrite E, !length_app. cbn [List.length]. rewrite L36.
    split; [lia |].
    intros Hc. specialize (Hlong Hc). specialize (I4 Hc). lia.
Qed.

(** X27: after [k] turns of the main loop the sequence counter has
    advanced by [k] modulo 256, and the loop has written at least 39
    bytes a turn, at most 49 a turn when the count of noise bytes is
    drawn within its range. *)
Theorem boucle_principale_compte (sim : Simulateur Rng) (k : nat) :
  etat_valide sim ->
  let r := tours sim k in
  sequence Rng (fst r) = (sequence Rng sim + Z.of_nat k) mod 256
  /\ (39 * k <= List.length (snd r))%nat
  /\ ((forall g, 1 <= fst (uniform_int 1 10 g) <= 10) ->
      (List.length (snd r) <= 49 * k)%nat).
Proof.
  intros [_ Hseq] r.
  destruct (boucle_principale_effet k sim ltac:(lia))
    as (H1 & _ & H3 & H4).
  repeat split; assumption.
Qed.

(** X28: run for [nb_trames] frames at a frequency that the validation
    accepts, [main] writes between 39 and 49 bytes a frame when the count
    of noise bytes is drawn within its range, and the analyser's
    [trouver_sync] finds the first frame, of sequence number 0, within
    the first 10 bytes, reading inside the output only. *)
Theorem main_sortie (nb_trames : Z)
    (frequence prob_bruit prob_alerte : F32.float) (graine : Rng)
    (horizon : nat) (autour : Z -> Z) :
  0 < nb_trames ->
  F32.leb frequence zero = false ->
  (forall g, 1 <= fst (uniform_int 1 10 g) <= 10) ->
  exists octets,
    main Rng uniform_real uniform_int normal nb_trames frequence
      prob_bruit prob_alerte graine horizon = Some octets
    /\ 39 * nb_trames <= Z.of_nat (List.length octets) <= 49 * nb_trames
    /\ let taille := Z.of_nat (List.length octets) in
       let res := Analyseur.trouver_sync (memoire octets autour) taille 0 in
       0 <= Lecture.valeur res <= 10
       /\ nth (Z.to_nat (Lecture.valeur res + 2)) octets 0 = 0
       /\ Forall (fun x => 0 <= x < taille) (Lecture.indices res).
Proof.
  intros Hnb Hfreq Hc. unfold main. rewrite Hfreq.
  destruct (Z.eqb_spec nb_trames 0) as [E | _]; [lia |].
  eexists. split; [reflexivity |].
  generalize (Simulateur_init Rng frequence prob_bruit prob_alerte graine)
             (eq_refl : sequence Rng
                          (Simulateur_init Rng frequence prob_bruit
                             prob_alerte graine) = 0).
  intros sim Hseq0.
  assert (Hseq : 0 <= sequence Rng sim < 256) by (rewrite Hseq0; lia).
  destruct (boucle_principale_effet (Z.to_nat nb_trames) sim Hseq)
    as (_ & _ & H3 & H4).
  specialize (H4 Hc).
  split; [lia |].
  destruct (Z.to_nat nb_trames) as [| k] eqn:Ek; [lia |].
  rewrite boucle_principale_S. cbn [snd].
  destruct (tour_principal_octets sim)
    as (bruit & corps & E & Hbruit & L36 & Hlong & _ & _).
  rewrite E.
  pose proof (recherche_bruit_trame bruit corps
                (snd (tours (fst (tour sim)) k)) (sequence Rng sim)
                autour Hbruit L36) as H.
  cbv zeta in H. destruct H as (Hval & Hind & Hnth).
  specialize (Hlong Hc). cbv zeta.
  split; [rewrite Hval; lia |].
  split; [rewrite Hnth; exact Hseq0 | exact Hind].
Qed.

End AvecGenerateur.

(** ** Instances *)

Lemma nouvelle_cible_effet_witness :
  let sim := simulateur_repos in
  let tirage :=
    tirer_reel
      (F32.mul (case_de POSITION_MIN_DEG 2) (F32.lit 8 10))
      (F32.mul (case_de POSITION_MAX_DEG 2) (F32.lit 8 10))
      (rng Script sim) in
  let sim' := nouvelle_cible Script tirer_reel sim 2 in
  let a := axe_de (axes Script sim) 2 in
  axe_de (axes Script sim') 2
  = {| position_deg := position_deg a; vitesse_deg_s := vitesse_deg_s a;
       position_cible := fst tirage; courant_base_a := courant_base_a a |}
  /\ rng Script sim' = snd tirage
  /\ cadre sim sim' 2.
Proof.
  apply (nouvelle_cible_effet Script tirer_reel simulateur_repos 2).
  vm_compute. lia.
Defined.

Lemma simuler_axe_un_seul_axe_witness :
  let sim' := simuler_axe_script simulateur_loin 0 in
  (forall k, k <> 0%nat ->
             axe_de (axes Script sim') k
             = axe_de (axes Script simulateur_loin) k)
  /\ List.length (axes Script sim')
     = List.length (axes Script simulateur_loin)
  /\ sequence Script sim' = sequence Script simulateur_loin
  /\ dt Script sim' = dt Script simulateur_loin
  /\ prob_bruit Script sim' = prob_bruit Script simulateur_loin
  /\ prob_alerte Script sim' = prob_alerte Script simulateur_loin.
Proof.
  apply (simuler_axe_un_seul_axe Script tirer_reel tirer_normal
           simulateur_loin 0).
  vm_compute. lia.
Defined.

Lemma simuler_axe_garde_la_cible_witness :
  position_cible
    (axe_de (axes Script (simuler_axe_script simulateur_loin 0)) 0)
  = position_cible (axe_de (axes Script simulateur_loin) 0).
Proof.
  apply (simuler_axe_garde_la_cible Script tirer_reel tirer_normal
           simulateur_loin 0).
  - vm_compute. lia.
  - vm_compute. reflexivity.
Defined.

Lemma simuler_axe_repos_witness :
  let a' := axe_de (axes Script (simuler_axe_script simulateur_repos 0)) 0 in
  position_deg a' = zero /\ vitesse_deg_s a' = zero
  /\ position_cible a' = zero.
Proof.
  apply (simuler_axe_repos Script tirer_reel tirer_normal
           simulateur_repos 0 zero (F32.mul (F32.of_Z 8) (F32.lit 1 10))
           demi {| reels := [zero]; entiers_tires := [] |}).
  - unfold NB_AXES. lia.
  - reflexivity.
  - reflexivity.
  - reflexivity.
  - vm_compute. reflexivity.
  - vm_compute. reflexivity.
  - vm_compute. reflexivity.
  - reflexivity.
  - vm_compute. reflexivity.
Defined.

Lemma simuler_axe_limites_witness :
  let a := axe_de (axes Script (simuler_axe_script simulateur_lent 2)) 2 in
  F32.ltb (position_deg a) (case_de POSITION_MIN_DEG 2) = false
  /\ F32.gtb (position_deg a) (case_de POSITION_MAX_DEG 2) = false
  /\ F32.ltb (courant_base_a a) zero = false.
Proof.
  apply (simuler_axe_limites Script tirer_reel tirer_normal
           simulateur_lent 2).
  - unfold NB_AXES. lia.
  - reflexivity.
Defined.

Lemma ecrire_uint16_le_aller_retour_witness :
  Forall est_octet (ecrire_uint16_le 6000)
  /\ List.length (ecrire_uint16_le 6000) = 2%nat
  /\ mot_le (ecrire_uint16_le 6000) 0 = 6000.
Proof.
  apply (ecrire_uint16_le_aller_retour 6000). lia.
Defined.

Lemma generer_trame_entete_witness :
  let sim' := fst (generer_trame_script simulateur_seq5) in
  let octets := snd (generer_trame_script simulateur_seq5) in
  List.length octets = 39%nat
  /\ nth 0 octets 0 = 0xAA /\ nth 1 octets 0 = 0x55
  /\ nth 2 octets 0 = sequence Script simulateur_seq5
  /\ sequence Script sim' = (sequence Script simulateur_seq5 + 1) mod 256
  /\ dt Script sim' = dt Script simulateur_seq5
  /\ prob_bruit Script sim' = prob_bruit Script simulateur_seq5
  /\ prob_alerte Script sim' = prob_alerte Script simulateur_seq5
  /\ List.length (axes Script sim')
     = List.length (axes Script simulateur_seq5).
Proof.
  apply (generer_trame_entete Script tirer_reel tirer_entier tirer_normal
           simulateur_seq5).
  split; [reflexivity | simpl; lia].
Defined.

Lemma generer_trame_octets_witness :
  Forall est_octet (snd (generer_trame_script simulateur_seq5)).
Proof.
  apply (generer_trame_octets Script tirer_reel tirer_entier tirer_normal
           simulateur_seq5).
  split; [reflexivity | simpl; lia].
Defined.

Lemma generer_trame_positions_vitesses_witness :
  let a := axe_de (axes Script (fst (generer_trame_script simulateur_seq5)))
             4 in
  let octets := snd (generer_trame_script simulateur_seq5) in
  mot_le octets (3 + 6 * 4)
  = uint16_of_int16
      (int16_of_float (F32.mul (position_deg a) (F32.of_Z 100)))
  /\ mot_le octets (5 + 6 * 4)
     = uint16_of_int16
         (int16_of_float (F32.mul (vitesse_deg_s a) (F32.of_Z 10))).
Proof.
  apply (generer_trame_positions_vitesses Script tirer_reel tirer_entier
           tirer_normal simulateur_seq5 4).
  - split; [reflexivity | simpl; lia].
  - unfold NB_AXES. lia.
Defined.

Lemma generer_trame_courants_sans_alerte_witness :
  let a := axe_de (axes Script (fst (generer_trame_script simulateur_seq5)))
             4 in
  mot_le (snd (generer_trame_script simulateur_seq5)) (7 + 6 * 4)
  = uint16_of_float (F32.mul (courant_base_a a) (F32.of_Z 1000)).
Proof.
  apply (generer_trame_courants_sans_alerte Script tirer_reel tirer_entier
           tirer_normal simulateur_seq5 4).
  - split; [reflexivity | simpl; lia].
  - unfold NB_AXES. lia.
  - vm_compute. reflexivity.
Defined.

Lemma generer_trame_butees_witness :
  let a := axe_de (axes Script (fst (generer_trame_script simulateur_seq5)))
             5 in
  F32.ltb (position_deg a) (case_de POSITION_MIN_DEG 5) = false
  /\ F32.gtb (position_deg a) (case_de POSITION_MAX_DEG 5) = false
  /\ F32.ltb (courant_base_a a) zero = false.
Proof.
  apply (generer_trame_butees Script tirer_reel tirer_entier tirer_normal
           simulateur_seq5 5).
  - reflexivity.
  - unfold NB_AXES. lia.
Defined.

Lemma tour_principal_synchronisable_witness :
  let sim := simulateur_compteur in
  let tirage := compteur_reel zero (F32.of_Z 1) (rng nat sim) in
  let nb := fst (compteur_entier 1 10 (snd tirage)) in
  let octets :=
    snd (tour_principal nat compteur_reel compteur_entier compteur_normal
           sim) in
  let taille := Z.of_nat (List.length octets) in
  let res :=
    Analyseur.trouver_sync (memoire octets (fun _ => 0)) taille 0 in
  let n := Lecture.valeur res in
  (F32.ltb (fst tirage) (prob_bruit nat sim) = true /\ nb = 2)
  /\ n = (if F32.ltb (fst tirage) (prob_bruit nat sim) then nb else 0)
  /\ 0 <= n <= 10
  /\ taille = n + 39
  /\ Forall (fun x => 0 <= x < taille) (Lecture.indices res)
  /\ nth (Z.to_nat (n + 2)) octets 0 = sequence nat sim.
Proof.
  split; [split; vm_compute; reflexivity |].
  apply (tour_principal_synchronisable nat compteur_reel compteur_entier
           compteur_normal simulateur_compteur (fun _ => 0)).
  - split; [reflexivity | simpl; lia].
  - intros g. unfold compteur_entier. cbn [fst].
    pose proof (Z.mod_pos_bound (Z.of_nat g) (10 - 1 + 1)
                  ltac:(reflexivity)).
    lia.
Defined.

Lemma boucle_principale_compte_witness :
  let r := boucle_principale Script tirer_reel tirer_entier tirer_normal
             simulateur_seq5 3 in
  sequence Script (fst r) = (sequence Script simulateur_seq5 + Z.of_nat 3)
                            mod 256
  /\ (39 * 3 <= List.length (snd r))%nat
  /\ ((forall g, 1 <= fst (tirer_entier 1 10 g) <= 10) ->
      (List.length (snd r) <= 49 * 3)%nat).
Proof.
  apply (boucle_principale_compte Script tirer_reel tirer_entier
           tirer_normal simulateur_seq5 3).
  split; [reflexivity | simpl; lia].
Defined.

Lemma compteur_entier_dans_la_plage (g : nat) :
  1 <= fst (compteur_entier 1 10 g) <= 10.
Proof.
  unfold compteur_entier. cbn [fst].
  pose proof (Z.mod_pos_bound (Z.of_nat g) (10 - 1 + 1) ltac:(reflexivity)).
  lia.
Qed.

Lemma main_sortie_witness :
  exists octets,
    main nat compteur_reel compteur_entier compteur_normal 2
      (F32.of_Z 100) (F32.lit 5 100) (F32.lit 2 100) 0%nat 0%nat
    = Some octets
    /\ 39 * 2 <= Z.of_nat (List.length octets) <= 49 * 2
    /\ let taille := Z.of_nat (List.length octets) in
       let res :=
         Analyseur.trouver_sync (memoire octets (fun _ => 0)) taille 0 in
       0 <= Lecture.valeur res <= 10
       /\ nth (Z.to_nat (Lecture.valeur res + 2)) octets 0 = 0
       /\ Forall (fun x => 0 <= x < taille) (Lecture.indices res).
Proof.
  apply (main_sortie nat compteur_reel compteur_entier compteur_normal 2
           (F32.of_Z 100) (F32.lit 5 100) (F32.lit 2 100) 0%nat 0%nat
           (fun _ => 0)).
  - lia.
  - vm_compute. reflexivity.
  - exact compteur_entier_dans_la_plage.
Defined.

End SimulateurSuite.
